(** * Frame acquisition pipeline of stytra: video sources and framerate limits

    Shallow embedding of
      - [stytra/hardware/video/__init__.py]: [VideoSource], [CameraSource],
        [VideoFileSource] and the two control-parameter classes;
      - [stytra/gui/framerate_viewer.py]: [framerate_limits] and the two
        framerate widgets.

    Python objects are records of their attributes; the parameter object
    [self.state] is a dictionary from attribute names to values, and reading
    an attribute it does not have raises [AttributeError]. Exceptions are
    values of [Exn], and the [run] loops are written in a state-and-exception
    monad whose state is the running process. Floats are exact rationals.

    A process shares its queues and its kill event with other processes.
    What those do is applied between two iterations of a loop ([Outside]);
    what an iteration itself obtains from outside (the frame the camera
    returns, the clock readings) is an input of the iteration. Calls on the
    camera and on the movie capture are recorded in the order they are
    made. *)

From stdpp Require Import base strings list gmap pretty.
From Stdlib Require Import ZArith QArith Qminmax Qround Lia Lqa.

Open Scope Z_scope.

#[local] Set Warnings "-register-all".

(** ** Python values and exceptions *)

Inductive PyVal : Type :=
| VNone
| VBool (b : bool)
| VInt (z : Z)
| VFloat (q : Q)
| VStr (s : string)
| VTuple (l : list PyVal).

Inductive Exn : Type :=
| AttributeError (attr : string)
| TypeError
| ValueError
| ZeroDivisionError
| IndexError
| Exception (msg : string).

Inductive Result (A : Type) : Type :=
| Ok (a : A)
| Raised (e : Exn).
Arguments Ok {A} a.
Arguments Raised {A} e.

Definition Qltb (a b : Q) : bool := negb (Qle_bool b a).

(** [bool(v)] *)
Definition py_truthy (v : PyVal) : bool :=
  match v with
  | VNone => false
  | VBool b => b
  | VInt z => negb (z =? 0)
  | VFloat q => negb (Qeq_bool q 0)
  | VStr s => negb (String.eqb s "")
  | VTuple l => match l with [] => false | _ => true end
  end.

(** The numeric tower: [bool] is a subtype of [int]. *)
Definition py_num (v : PyVal) : option Q :=
  match v with
  | VBool b => Some (if b then 1%Q else 0%Q)
  | VInt z => Some (inject_Z z)
  | VFloat q => Some q
  | _ => None
  end.

(** [a == b] *)
Fixpoint py_eqb (a b : PyVal) : bool :=
  match py_num a, py_num b with
  | Some x, Some y => Qeq_bool x y
  | _, _ =>
      match a, b with
      | VNone, VNone => true
      | VStr s, VStr t => String.eqb s t
      | VTuple xs, VTuple ys =>
          (fix go (xs ys : list PyVal) : bool :=
             match xs, ys with
             | [], [] => true
             | x :: xs', y :: ys' => py_eqb x y && go xs' ys'
             | _, _ => false
             end) xs ys
      | _, _ => false
      end
  end.

(** [v > 0] *)
Definition py_gt0 (v : PyVal) : Result bool :=
  match py_num v with
  | Some q => Ok (Qltb 0 q)
  | None => Raised TypeError
  end.

(** [1 / v] *)
Definition py_recip (v : PyVal) : Result Q :=
  match py_num v with
  | Some q => if Qeq_bool q 0 then Raised ZeroDivisionError else Ok (/ q)%Q
  | None => Raised TypeError
  end.

(** [v + 1] *)
Definition py_succ (v : PyVal) : Result PyVal :=
  match v with
  | VBool b => Ok (VInt (if b then 2 else 1))
  | VInt z => Ok (VInt (z + 1))
  | VFloat q => Ok (VFloat (q + 1)%Q)
  | _ => Raised TypeError
  end.

(** [v.name] for a value of a builtin data type: none of them has data
    attributes. *)
Definition py_getattr (v : PyVal) (name : string) : Result PyVal :=
  Raised (AttributeError name).

(** [a[i]] on the first axis of an array, for an integer [i], with numpy's
    negative indices. *)
Definition py_index {A : Type} (a : list A) (i : PyVal) : Result A :=
  match i with
  | VInt z =>
      let n := Z.of_nat (length a) in
      let k := if z <? 0 then z + n else z in
      if (0 <=? k) && (k <? n) then
        match a !! Z.to_nat k with
        | Some x => Ok x
        | None => Raised IndexError
        end
      else Raised IndexError
  | _ => Raised IndexError
  end.

(** ** [framerate_limits] (framerate_viewer.py) *)

(** The body of [for i, fr in enumerate(framerates)]. *)
Fixpoint framerate_limits_loop (framerates : list Q) (ll ul : Q) : Q * Q :=
  match framerates with
  | [] => (ll, ul)
  | fr :: rest =>
      let ll := if Qltb fr ll then fr else ll in
      let ul := if Qltb ul fr then fr else ul in
      framerate_limits_loop rest ll ul
  end.

(** [min(a, b)] and [max(a, b)] keep their first argument on ties. *)
Definition py_min (a b : Q) : Q := if Qltb b a then b else a.
Definition py_max (a b : Q) : Q := if Qltb a b then b else a.

Definition framerate_limits (framerates : list Q) (goal_framerate : Q)
  : Result (Q * Q) :=
  match framerates with
  | [] => Raised IndexError
  | fr0 :: _ =>
      let ll := py_min fr0 goal_framerate in
      let ul := py_max goal_framerate fr0 in
      Ok (framerate_limits_loop framerates ll ul)
  end.

(** ** A state-and-exception monad for the [run] loops

    A computation transforms the process state and either returns a value
    or raises; what it did to the state before raising persists, as the side
    effects of Python code do. *)

Section Monad.
Context {S : Type}.

Definition M (A : Type) : Type := S -> Result A * S.

Definition pure {A} (a : A) : M A := fun s => (Ok a, s).

Definition bind {A B} (m : M A) (k : A -> M B) : M B :=
  fun s =>
    match m s with
    | (Ok a, s') => k a s'
    | (Raised e, s') => (Raised e, s')
    end.

Definition raise {A} (e : Exn) : M A := fun s => (Raised e, s).

Definition lift {A} (r : Result A) : M A := fun s => (r, s).

Definition gets {A} (f : S -> A) : M A := fun s => (Ok (f s), s).

Definition modify (f : S -> S) : M unit := fun s => (Ok tt, f s).

(** [try: m  except ValueError: pass] *)
Definition except_ValueError_pass (m : M unit) : M unit :=
  fun s =>
    match m s with
    | (Raised ValueError, s') => (Ok tt, s')
    | r => r
    end.

End Monad.
Arguments M : clear implicits.

Declare Scope py_scope.
Delimit Scope py_scope with py.
Notation "'let*' x := y 'in' z" := (bind y (fun x => z))
  (at level 10, x name, y at level 100, z at level 200, only parsing) : py_scope.
Notation "y ;;; z" := (bind y (fun _ => z))
  (at level 100, z at level 200, only parsing, right associativity) : py_scope.
Open Scope py_scope.

(** ** The pacing arithmetic

    [if prt is not None: extrat = delta_t - (time.process_time() - prt);
     if extrat > 0: time.sleep(extrat)]: the argument of the [time.sleep]
    call, if one is made. The three copies of these lines (camera replay,
    h5 file, movie file) share this function. *)
Definition pacing_sleep (delta_t : Q) (prt : option Q) (now : Q) : option Q :=
  match prt with
  | None => None
  | Some p =>
      let extrat := (delta_t - (now - p))%Q in
      if Qltb 0 extrat then Some extrat else None
  end.

(** Time spent sleeping by such a step. *)
Definition slept (call : option Q) : Q :=
  match call with
  | Some d => d
  | None => 0%Q
  end.

(** ** RingBuffer *)

(** Modelled from the spec: [stytra.hardware.video.ring_buffer.RingBuffer]
    is imported by the module but its source is not part of the sources
    embedded here. A buffer has [length] frame slots, a write cursor and a
    logical read cursor. A slot is [None] until a frame is written to it; a
    written slot holds the reference that was put ([Some None] for a Python
    [None]). *)
Record RingBuffer (Frame : Type) : Type := mkRingBuffer {
  rb_length : nat;
  rb_slots : list (option (option Frame));
  rb_write : nat;
  rb_read : nat;
}.
Arguments mkRingBuffer {Frame}.
Arguments rb_length {Frame}.
Arguments rb_slots {Frame}.
Arguments rb_write {Frame}.
Arguments rb_read {Frame}.

Section RingBufferOps.
Context {Frame : Type}.

(** Modelled from the spec: [create(capacity)] allocates [capacity] frame
    slots, with both cursors at zero. Anything but a non-negative integer
    is no capacity. *)
Definition RingBuffer_create (capacity : PyVal) : Result (RingBuffer Frame) :=
  match capacity with
  | VInt z =>
      if 0 <=? z
      then Ok (mkRingBuffer (Z.to_nat z) (replicate (Z.to_nat z) None) 0 0)
      else Raised ValueError
  | _ => Raised TypeError
  end.

(** Modelled from the spec: [put(frame)] stores at the write cursor and
    advances it circularly, overwriting the oldest entry once full; it
    never fails. *)
Definition RingBuffer_put (item : option Frame) (rb : RingBuffer Frame)
  : RingBuffer Frame :=
  mkRingBuffer (rb_length rb)
               (<[rb_write rb := Some item]> (rb_slots rb))
               ((rb_write rb + 1) mod rb_length rb)%nat
               (rb_read rb).

(** Modelled from the spec: [get()] reads at the logical read cursor and
    advances it circularly; it fails with EmptyHistory (the [ValueError]
    that [CameraSource.run] catches) if no frame has ever been written at
    that slot. *)
Definition RingBuffer_get (rb : RingBuffer Frame)
  : Result (option Frame * RingBuffer Frame) :=
  match rb_slots rb !! rb_read rb with
  | Some (Some item) =>
      Ok (item, mkRingBuffer (rb_length rb) (rb_slots rb) (rb_write rb)
                             ((rb_read rb + 1) mod rb_length rb)%nat)
  | _ => Raised ValueError
  end.

(** Modelled from the spec: [most_recent()] returns the last frame
    written, or fails with EmptyHistory if none exists yet. The last frame
    written sits one slot before the write cursor. *)
Definition RingBuffer_get_most_recent (rb : RingBuffer Frame)
  : Result (option Frame) :=
  match rb_slots rb !! ((rb_write rb + rb_length rb - 1) mod rb_length rb)%nat with
  | Some (Some item) => Ok item
  | _ => Raised ValueError
  end.
End RingBufferOps.

(** ** The processes *)

(** A control message: the [param_dict] put on [control_queue], in
    iteration order of its items. *)
Definition ParamDict : Type := list (string * PyVal).

(** Calls made on the camera object [self.cam]. The camera classes are
    hardware bindings outside this development: the calls are recorded, and
    what [read()] returns is an input of the iteration. *)
Inductive CamCall : Type :=
| CamNew (cls : string) (downsampling roi : PyVal)
| CamOpen
| CamSet (param : string) (value : PyVal)
| CamRead
| CamRelease.

(** Calls made on a [cv2.VideoCapture]. *)
Inductive CapCall : Type :=
| CapGetFps
| CapRead
| CapSetPos (value : PyVal)
| CapRelease.

(** [VideoSource], with what it inherits from [FrameProcess].
    [control_queue] holds the pending control messages, oldest first.
    [frame_queue] lists every item put on the frame queue, oldest first,
    and [frames_taken] counts those the consumers have taken off: the
    pending items are the rest. [framerate_updates] counts the calls of
    [update_framerate], [sleeps] lists the [time.sleep] calls. *)
Record VideoSource (Frame : Type) : Type := mkVideoSource {
  rotation : PyVal;
  control_queue : list ParamDict;
  frame_queue : list (option Frame);
  frames_taken : nat;
  kill_event : bool;
  n_consumers : Z;
  message_queue : list string;
  framerate_updates : nat;
  sleeps : list Q;
}.
Arguments mkVideoSource {Frame}.
Arguments rotation {Frame}.
Arguments control_queue {Frame}.
Arguments frame_queue {Frame}.
Arguments frames_taken {Frame}.
Arguments kill_event {Frame}.
Arguments n_consumers {Frame}.
Arguments message_queue {Frame}.
Arguments framerate_updates {Frame}.
Arguments sleeps {Frame}.

(** [CameraSource]; [prt] is the local variable of [run]. *)
Record CameraSource (Frame : Type) : Type := mkCameraSource {
  cs_base : VideoSource Frame;
  cam : list CamCall;
  camera_type : string;
  downsampling : PyVal;
  roi : PyVal;
  state : gmap string PyVal;
  ring_buffer : option (RingBuffer Frame);
  prt : option Q;
}.
Arguments mkCameraSource {Frame}.
Arguments cs_base {Frame}.
Arguments cam {Frame}.
Arguments camera_type {Frame}.
Arguments downsampling {Frame}.
Arguments roi {Frame}.
Arguments state {Frame}.
Arguments ring_buffer {Frame}.
Arguments prt {Frame}.

(** What one iteration of [CameraSource.run] obtains from outside: the
    result of [self.cam.read()] and the two readings of
    [time.process_time()] in the replay branch. *)
Record CameraInput (Frame : Type) : Type := mkCameraInput {
  in_read : option Frame;
  in_now_pace : Q;
  in_now_mark : Q;
}.
Arguments mkCameraInput {Frame}.
Arguments in_read {Frame}.
Arguments in_now_pace {Frame}.
Arguments in_now_mark {Frame}.

(** What the other processes do between two iterations: set the kill
    event, send control messages, take frames off the frame queue. *)
Record Outside : Type := mkOutside {
  out_kill : bool;
  out_control : list ParamDict;
  out_dequeued : nat;
}.

Section VideoSourceOps.
Context {Frame : Type}.

(** [VideoSource.__init__(rotation, max_mbytes_queue, n_consumers)] *)
Definition VideoSource_init (rotation : PyVal) (max_mbytes_queue : Z)
           (n_consumers : Z) : VideoSource Frame :=
  {| rotation := rotation;
     control_queue := [];
     frame_queue := [];
     frames_taken := 0;
     kill_event := false;
     n_consumers := 1;
     message_queue := [];
     framerate_updates := 0;
     sleeps := [] |}.

(** [self.frame_queue.queue.qsize()]: the number of pending items. *)
Definition qsize (v : VideoSource Frame) : Z :=
  Z.of_nat (length (frame_queue v) - frames_taken v).

Definition set_control_queue (q : list ParamDict) (v : VideoSource Frame) :=
  mkVideoSource (rotation v) q (frame_queue v) (frames_taken v) (kill_event v)
                (n_consumers v) (message_queue v) (framerate_updates v)
                (sleeps v).

(** [self.frame_queue.put(item)] *)
Definition frame_queue_put (item : option Frame) (v : VideoSource Frame) :=
  mkVideoSource (rotation v) (control_queue v) (frame_queue v ++ [item])
                (frames_taken v) (kill_event v) (n_consumers v)
                (message_queue v) (framerate_updates v) (sleeps v).

(** [self.message_queue.put(msg)] *)
Definition message_queue_put (msg : string) (v : VideoSource Frame) :=
  mkVideoSource (rotation v) (control_queue v) (frame_queue v)
                (frames_taken v) (kill_event v) (n_consumers v)
                (message_queue v ++ [msg]) (framerate_updates v) (sleeps v).

(** Modelled from the spec: [FrameProcess.update_framerate] updates a
    framerate-measurement accumulator kept for observability; only the
    number of updates is kept here. *)
Definition update_framerate (v : VideoSource Frame) :=
  mkVideoSource (rotation v) (control_queue v) (frame_queue v)
                (frames_taken v) (kill_event v) (n_consumers v)
                (message_queue v) (S (framerate_updates v)) (sleeps v).

(** [time.sleep(d)] *)
Definition time_sleep (d : Q) (v : VideoSource Frame) :=
  mkVideoSource (rotation v) (control_queue v) (frame_queue v)
                (frames_taken v) (kill_event v) (n_consumers v)
                (message_queue v) (framerate_updates v) (sleeps v ++ [d]).

(** The pacing lines on a process. *)
Definition pace (delta_t : Q) (prt : option Q) (now : Q)
           (v : VideoSource Frame) : VideoSource Frame :=
  match pacing_sleep delta_t prt now with
  | Some extrat => time_sleep extrat v
  | None => v
  end.

(** The other processes act on the shared queues and the kill event:
    control messages arrive, consumers take pending frames, the kill event
    may be set (it is never cleared). *)
Definition outside_step (o : Outside) (v : VideoSource Frame) :=
  mkVideoSource (rotation v) (control_queue v ++ out_control o)
                (frame_queue v)
                (Nat.min (frames_taken v + out_dequeued o) (length (frame_queue v)))
                (kill_event v || out_kill o) (n_consumers v)
                (message_queue v) (framerate_updates v) (sleeps v).
End VideoSourceOps.

(** [CameraControlParameters()]: the parameters the class declares. *)
Definition CameraControlParameters_init : gmap string PyVal :=
  list_to_map
    [ ("exposure", VFloat 1);
      ("framerate", VFloat 150);
      ("gain", VFloat 1);
      ("ring_buffer_length", VInt 600);
      ("replay", VBool true);
      ("replay_fps", VInt 15);
      ("replay_limits", VTuple [VInt 0; VInt 0]) ].

(** [VideoControlParameters()] *)
Definition VideoControlParameters_init : gmap string PyVal :=
  list_to_map
    [ ("framerate", VFloat 150);
      ("offset", VInt 50);
      ("paused", VBool false) ].

(** [CameraSource.camera_class_dict] *)
Definition camera_class_dict : gmap string string :=
  list_to_map
    [ ("ximea", "XimeaCamera");
      ("avt", "AvtCamera");
      ("spinnaker", "SpinnakerCamera");
      ("mikrotron", "MikrotronCLCamera") ]%string.

(** ** [CameraSource] *)

Section CameraSourceRun.
Context {Frame : Type}.

(** [np.rot90(arr, k)], a function of numpy. *)
Variable rot90 : option Frame -> PyVal -> Result (option Frame).

(** [state.values = param_dict], the setter of the parameter library
    (lightparam) on a parametrized object. *)
Variable values_setter :
  gmap string PyVal -> ParamDict -> Result (gmap string PyVal).

Abbreviation CS := (CameraSource Frame).

(** [CameraSource.__init__(camera_type, *args, downsampling, roi, **kwargs)] *)
Definition CameraSource_init (camera_type : string)
           (rotation : PyVal) (max_mbytes_queue n_consumers : Z)
           (downsampling roi : PyVal) : CS :=
  {| cs_base := VideoSource_init rotation max_mbytes_queue n_consumers;
     cam := [];
     camera_type := camera_type;
     downsampling := downsampling;
     roi := roi;
     state := CameraControlParameters_init;
     ring_buffer := None;
     prt := None |}.

Definition set_cs_base (v : VideoSource Frame) (s : CS) : CS :=
  mkCameraSource v (cam s) (camera_type s) (downsampling s) (roi s)
                 (state s) (ring_buffer s) (prt s).
Definition set_cam (c : list CamCall) (s : CS) : CS :=
  mkCameraSource (cs_base s) c (camera_type s) (downsampling s) (roi s)
                 (state s) (ring_buffer s) (prt s).
Definition set_state (st : gmap string PyVal) (s : CS) : CS :=
  mkCameraSource (cs_base s) (cam s) (camera_type s) (downsampling s) (roi s)
                 st (ring_buffer s) (prt s).
Definition set_ring_buffer (rb : option (RingBuffer Frame)) (s : CS) : CS :=
  mkCameraSource (cs_base s) (cam s) (camera_type s) (downsampling s) (roi s)
                 (state s) rb (prt s).
Definition set_prt (p : option Q) (s : CS) : CS :=
  mkCameraSource (cs_base s) (cam s) (camera_type s) (downsampling s) (roi s)
                 (state s) (ring_buffer s) p.

Definition on_base (f : VideoSource Frame -> VideoSource Frame) : M CS unit :=
  modify (fun s => set_cs_base (f (cs_base s)) s).

Definition cam_call (c : CamCall) : M CS unit :=
  modify (fun s => set_cam (cam s ++ [c]) s).

(** [self.state.<name>] *)
Definition getattr_state (name : string) : M CS PyVal :=
  let* st := gets state in
  match st !! name with
  | Some v => pure v
  | None => raise (AttributeError name)
  end.

(** [self.ring_buffer.<method>]: the attribute is [None] until the loop
    has created a buffer. *)
Definition the_ring_buffer (method : string) : M CS (RingBuffer Frame) :=
  let* rb := gets ring_buffer in
  match rb with
  | Some b => pure b
  | None => raise (AttributeError method)
  end.

(** [for param, value in param_dict.items(): message = self.cam.set(param, value)] *)
Fixpoint cam_set_items (items : ParamDict) : M CS unit :=
  match items with
  | [] => pure tt
  | (param, value) :: rest =>
      cam_call (CamSet param value) ;;; cam_set_items rest
  end.

(** Lines 149-158: take control messages until the queue is [Empty]. *)
Fixpoint drain_control_queue (pending : list ParamDict) : M CS unit :=
  match pending with
  | [] => pure tt
  | param_dict :: rest =>
      on_base (set_control_queue rest) ;;;
      let* st := gets state in
      let* st' := lift (values_setter st param_dict) in
      modify (set_state st') ;;;
      cam_set_items param_dict ;;;
      drain_control_queue rest
  end.

(** Lines 164-165:
    [if self.ring_buffer is None or
        self.state.ring_buffer_length != self.state.ring_buffer.length:
         self.ring_buffer = RingBuffer(self.state.ring_buffer_length)] *)
Definition ensure_ring_buffer : M CS unit :=
  let* rb := gets ring_buffer in
  let* recreate :=
    match rb with
    | None => pure true
    | Some _ =>
        let* len := getattr_state "ring_buffer_length" in
        let* srb := getattr_state "ring_buffer" in
        let* rlen := lift (py_getattr srb "length") in
        pure (negb (py_eqb len rlen))
    end in
  if (recreate : bool) then
    let* len := getattr_state "ring_buffer_length" in
    let* new := lift (RingBuffer_create len) in
    modify (set_ring_buffer (Some new))
  else pure tt.

(** Line 170 *)
Definition paused_branch : M CS unit :=
  let* rb := the_ring_buffer "get_most_recent" in
  let* item := lift (RingBuffer_get_most_recent rb) in
  on_base (frame_queue_put item).

(** Lines 172-181 *)
Definition replay_branch (inp : CameraInput Frame) : M CS unit :=
  except_ValueError_pass
    (let* rb := the_ring_buffer "get" in
     let* r := lift (RingBuffer_get rb) in
     modify (set_ring_buffer (Some r.2)) ;;;
     on_base (frame_queue_put r.1)) ;;;
  let* fps := getattr_state "replay_fps" in
  let* delta_t := lift (py_recip fps) in
  let* p := gets prt in
  on_base (pace delta_t p (in_now_pace inp)) ;;;
  modify (set_prt (Some (in_now_mark inp))).

(** Lines 183-190 *)
Definition live_branch (arr : option Frame) : M CS unit :=
  let* rb := the_ring_buffer "put" in
  modify (set_ring_buffer (Some (RingBuffer_put arr rb))) ;;;
  modify (set_prt None) ;;;
  match arr with
  | None => pure tt
  | Some _ =>
      let* paused := getattr_state "paused" in
      if negb (py_truthy paused) then
        let* v := gets cs_base in
        if qsize v <? n_consumers v + 2
        then on_base (frame_queue_put arr)
        else on_base (message_queue_put "W:Dropped frame")
      else pure tt
  end.

(** Lines 169-190: the branch on the mode. *)
Definition dispatch (inp : CameraInput Frame) (arr : option Frame) : M CS unit :=
  let* paused := getattr_state "paused" in
  if py_truthy paused then paused_branch
  else
    let* replay := getattr_state "replay" in
    let* replaying :=
      (if py_truthy replay
       then let* fps := getattr_state "replay_fps" in lift (py_gt0 fps)
       else pure false) in
    if (replaying : bool) then replay_branch inp else live_branch arr.

(** Lines 148-167: apply the pending control messages, grab and rotate
    the new frame, see to the ring buffer; the result is [arr]. *)
Definition acquire (inp : CameraInput Frame) : M CS (option Frame) :=
  let* v := gets cs_base in
  drain_control_queue (control_queue v) ;;;
  cam_call CamRead ;;;
  let* arr :=
    (if py_truthy (rotation v)
     then lift (rot90 (in_read inp) (rotation v))
     else pure (in_read inp)) in
  ensure_ring_buffer ;;;
  on_base update_framerate ;;;
  pure arr.

(** Lines 143-190: one pass of [while True]; [false] is [break]. *)
Definition CameraSource_iteration (inp : CameraInput Frame) : M CS bool :=
  let* v := gets cs_base in
  if kill_event v then pure false
  else
    let* arr := acquire inp in
    dispatch inp arr ;;;
    pure true.

(** The [while True] loop over the inputs of its iterations; [true] when
    the loop was left by [break], [false] when the inputs ran out with
    the loop still going. *)
Fixpoint CameraSource_loop (inputs : list (Outside * CameraInput Frame))
  : M CS bool :=
  match inputs with
  | [] => pure false
  | (o, inp) :: rest =>
      on_base (outside_step o) ;;;
      let* continue := CameraSource_iteration inp in
      if (continue : bool) then CameraSource_loop rest else pure true
  end.

(** [CameraSource.run]; [open_camera_result] is
    [str(self.cam.open_camera())]. The result is [true] when [run]
    returned. *)
Definition CameraSource_run (open_camera_result : string)
           (inputs : list (Outside * CameraInput Frame)) : M CS bool :=
  let* ct := gets camera_type in
  match camera_class_dict !! ct with
  | None => raise (Exception (ct ++ " is not a valid camera type!"))
  | Some cls =>
      let* d := gets downsampling in
      let* r := gets roi in
      cam_call (CamNew cls d r) ;;;
      cam_call CamOpen ;;;
      on_base (message_queue_put ("I:" ++ open_camera_result)) ;;;
      modify (set_prt None) ;;;
      let* exited := CameraSource_loop inputs in
      if (exited : bool) then cam_call CamRelease ;;; pure true else pure false
  end.
End CameraSourceRun.

(** ** [VideoFileSource] *)

(** What [dd.io.load(source_file)] returns for an h5 file:
    [framedata["video"]], indexed by frame on its first axis, and
    [framedata.get("framerate")]. *)
Record H5Data (Frame : Type) : Type := mkH5Data {
  h5_video : list Frame;
  h5_framerate : option PyVal;
}.
Arguments mkH5Data {Frame}.
Arguments h5_video {Frame}.
Arguments h5_framerate {Frame}.

(** A [cv2.VideoCapture] on a movie file: a decoder with a position over
    the frames of the file. *)
Record VideoCapture (Frame : Type) : Type := mkVideoCapture {
  cap_frames : list Frame;
  cap_fps : Q;
  cap_pos : Z;
  cap_calls : list CapCall;
}.
Arguments mkVideoCapture {Frame}.
Arguments cap_frames {Frame}.
Arguments cap_fps {Frame}.
Arguments cap_pos {Frame}.
Arguments cap_calls {Frame}.

(** The attributes of a [VideoFileSource]. *)
Record VideoFileSource (Frame : Type) : Type := mkVideoFileSource {
  vf_base : VideoSource Frame;
  source_file : option string;
  loop : bool;
  framerate : PyVal;
  offset : PyVal;
  paused : PyVal;
  old_frame : option Frame;
}.
Arguments mkVideoFileSource {Frame}.
Arguments vf_base {Frame}.
Arguments source_file {Frame}.
Arguments loop {Frame}.
Arguments framerate {Frame}.
Arguments offset {Frame}.
Arguments paused {Frame}.
Arguments old_frame {Frame}.

(** [run] on an h5 file: the object and the locals [delta_t], [i_frame],
    [prt]. *)
Record H5Run (Frame : Type) : Type := mkH5Run {
  h5_self : VideoFileSource Frame;
  h5_delta_t : Q;
  h5_i_frame : PyVal;
  h5_prt : option Q;
}.
Arguments mkH5Run {Frame}.
Arguments h5_self {Frame}.
Arguments h5_delta_t {Frame}.
Arguments h5_i_frame {Frame}.
Arguments h5_prt {Frame}.

(** [run] on a movie file: the object and the locals [cap], [ret],
    [delta_t], [prt]. *)
Record MovieRun (Frame : Type) : Type := mkMovieRun {
  mv_self : VideoFileSource Frame;
  mv_cap : VideoCapture Frame;
  mv_ret : bool;
  mv_delta_t : Q;
  mv_prt : option Q;
}.
Arguments mkMovieRun {Frame}.
Arguments mv_self {Frame}.
Arguments mv_cap {Frame}.
Arguments mv_ret {Frame}.
Arguments mv_delta_t {Frame}.
Arguments mv_prt {Frame}.

(** The two readings of [time.process_time()] in one iteration. *)
Record FileInput : Type := mkFileInput {
  fin_now_pace : Q;
  fin_now_mark : Q;
}.

(** [s.endswith(suffix)] *)
Fixpoint endswith (s suffix : string) : bool :=
  String.eqb s suffix ||
  match s with
  | EmptyString => false
  | String _ s' => endswith s' suffix
  end.

Section VideoFileSourceRun.
Context {Frame : Type}.

(** [frame[:, :, 0]] on a decoded colour frame, a slicing of numpy. *)
Variable channel0 : Frame -> Frame.

Abbreviation VFS := (VideoFileSource Frame).

(** [VideoFileSource.__init__(source_file, loop, framerate, **kwargs)] *)
Definition VideoFileSource_init (source_file : option string) (loop : bool)
           (framerate : PyVal)
           (rotation : PyVal) (max_mbytes_queue n_consumers : Z) : VFS :=
  {| vf_base := VideoSource_init rotation max_mbytes_queue n_consumers;
     source_file := source_file;
     loop := loop;
     framerate := framerate;
     offset := VInt 0;
     paused := VBool false;
     old_frame := None |}.

Definition set_vf_base (v : VideoSource Frame) (s : VFS) : VFS :=
  mkVideoFileSource v (source_file s) (loop s) (framerate s) (offset s)
                    (paused s) (old_frame s).
Definition set_offset (o : PyVal) (s : VFS) : VFS :=
  mkVideoFileSource (vf_base s) (source_file s) (loop s) (framerate s) o
                    (paused s) (old_frame s).
Definition set_paused (p : PyVal) (s : VFS) : VFS :=
  mkVideoFileSource (vf_base s) (source_file s) (loop s) (framerate s)
                    (offset s) p (old_frame s).
Definition set_old_frame (f : option Frame) (s : VFS) : VFS :=
  mkVideoFileSource (vf_base s) (source_file s) (loop s) (framerate s)
                    (offset s) (paused s) f.

(** *** The h5 branch (lines 229-271) *)

Definition set_h5_self (o : VFS) (r : H5Run Frame) : H5Run Frame :=
  mkH5Run o (h5_delta_t r) (h5_i_frame r) (h5_prt r).
Definition set_h5_delta_t (d : Q) (r : H5Run Frame) : H5Run Frame :=
  mkH5Run (h5_self r) d (h5_i_frame r) (h5_prt r).
Definition set_h5_i_frame (i : PyVal) (r : H5Run Frame) : H5Run Frame :=
  mkH5Run (h5_self r) (h5_delta_t r) i (h5_prt r).
Definition set_h5_prt (p : option Q) (r : H5Run Frame) : H5Run Frame :=
  mkH5Run (h5_self r) (h5_delta_t r) (h5_i_frame r) p.

Definition h5_on_self (f : VFS -> VFS) : M (H5Run Frame) unit :=
  modify (fun r => set_h5_self (f (h5_self r)) r).
Definition h5_on_base (f : VideoSource Frame -> VideoSource Frame)
  : M (H5Run Frame) unit :=
  h5_on_self (fun o => set_vf_base (f (vf_base o)) o).

(** Lines 246-252: one item of a control message. *)
Definition h5_apply_param (name : string) (value : PyVal)
  : M (H5Run Frame) unit :=
  if String.eqb name "framerate" then
    let* d := lift (py_recip value) in
    modify (set_h5_delta_t d)
  else if String.eqb name "offset" then
    let* o := gets (fun r => offset (h5_self r)) in
    if negb (py_eqb value o) then h5_on_self (set_offset value) else pure tt
  else if String.eqb name "paused" then
    h5_on_self (set_paused value)
  else pure tt.

Fixpoint h5_apply_items (items : ParamDict) : M (H5Run Frame) unit :=
  match items with
  | [] => pure tt
  | (name, value) :: rest => h5_apply_param name value ;;; h5_apply_items rest
  end.

(** Lines 240-254: take control messages until the queue is [Empty]. *)
Fixpoint h5_drain_control_queue (pending : list ParamDict)
  : M (H5Run Frame) unit :=
  match pending with
  | [] => pure tt
  | param_dict :: rest =>
      h5_on_base (set_control_queue rest) ;;;
      h5_apply_items param_dict ;;;
      h5_drain_control_queue rest
  end.

(** Lines 237-271: one pass of the loop over [frames]; [false] when the
    loop is left (the [while] condition fails, or [break]). *)
Definition h5_iteration (frames : list Frame) (inp : FileInput)
  : M (H5Run Frame) bool :=
  let* v := gets (fun r => vf_base (h5_self r)) in
  if kill_event v then pure false
  else
    h5_drain_control_queue (control_queue v) ;;;
    let* delta_t := gets h5_delta_t in
    let* p := gets h5_prt in
    h5_on_base (pace delta_t p (fin_now_pace inp)) ;;;
    let* i := gets h5_i_frame in
    let* frame := lift (py_index frames i) in
    h5_on_base (frame_queue_put (Some frame)) ;;;
    let* paused := gets (fun r => paused (h5_self r)) in
    (if negb (py_truthy paused)
     then let* i' := lift (py_succ i) in modify (set_h5_i_frame i')
     else pure tt) ;;;
    let rest :=
      h5_on_base update_framerate ;;;
      modify (set_h5_prt (Some (fin_now_mark inp))) ;;;
      pure true in
    let* i := gets h5_i_frame in
    if py_eqb i (VInt (Z.of_nat (length frames))) then
      let* wrap := gets (fun r => loop (h5_self r)) in
      if (wrap : bool) then
        let* o := gets (fun r => offset (h5_self r)) in
        modify (set_h5_i_frame o) ;;;
        rest
      else pure false
    else rest.

(** The loop over the inputs of its iterations; [true] when the loop was
    left, [false] when the inputs ran out with the loop still going. *)
Fixpoint h5_loop (frames : list Frame) (inputs : list (Outside * FileInput))
  : M (H5Run Frame) bool :=
  match inputs with
  | [] => pure false
  | (o, inp) :: rest =>
      h5_on_base (outside_step o) ;;;
      let* continue := h5_iteration frames inp in
      if (continue : bool) then h5_loop frames rest else pure true
  end.

(** Lines 229-236: [delta_t], [i_frame] and [prt] before the loop. *)
Definition h5_start (framedata : H5Data Frame) (o : VFS)
  : Result (H5Run Frame) :=
  match
    match framerate o with
    | VNone => py_recip (default (VFloat 30) (h5_framerate framedata))
    | fr => py_recip fr
    end
  with
  | Ok delta_t => Ok (mkH5Run o delta_t (offset o) None)
  | Raised e => Raised e
  end.

(** *** The movie branch (lines 273-329) *)

Definition set_mv_self (o : VFS) (r : MovieRun Frame) : MovieRun Frame :=
  mkMovieRun o (mv_cap r) (mv_ret r) (mv_delta_t r) (mv_prt r).
Definition set_mv_cap (c : VideoCapture Frame) (r : MovieRun Frame) :=
  mkMovieRun (mv_self r) c (mv_ret r) (mv_delta_t r) (mv_prt r).
Definition set_mv_ret (b : bool) (r : MovieRun Frame) : MovieRun Frame :=
  mkMovieRun (mv_self r) (mv_cap r) b (mv_delta_t r) (mv_prt r).
Definition set_mv_delta_t (d : Q) (r : MovieRun Frame) : MovieRun Frame :=
  mkMovieRun (mv_self r) (mv_cap r) (mv_ret r) d (mv_prt r).
Definition set_mv_prt (p : option Q) (r : MovieRun Frame) : MovieRun Frame :=
  mkMovieRun (mv_self r) (mv_cap r) (mv_ret r) (mv_delta_t r) p.

Definition mv_on_self (f : VFS -> VFS) : M (MovieRun Frame) unit :=
  modify (fun r => set_mv_self (f (mv_self r)) r).
Definition mv_on_base (f : VideoSource Frame -> VideoSource Frame)
  : M (MovieRun Frame) unit :=
  mv_on_self (fun o => set_vf_base (f (vf_base o)) o).

(** [cap.read()]: the next frame, or [(False, None)] past the end. *)
Definition cap_read : M (MovieRun Frame) (bool * option Frame) :=
  let* c := gets mv_cap in
  let logged := cap_calls c ++ [CapRead] in
  match (if 0 <=? cap_pos c then cap_frames c !! Z.to_nat (cap_pos c) else None) with
  | Some frame =>
      modify (set_mv_cap (mkVideoCapture (cap_frames c) (cap_fps c)
                                         (cap_pos c + 1) logged)) ;;;
      pure (true, Some frame)
  | None =>
      modify (set_mv_cap (mkVideoCapture (cap_frames c) (cap_fps c)
                                         (cap_pos c) logged)) ;;;
      pure (false, None)
  end.

(** [cap.set(cv2.CAP_PROP_POS_FRAMES, value)] *)
Definition cap_set_pos (value : PyVal) : M (MovieRun Frame) unit :=
  let* c := gets mv_cap in
  match py_num value with
  | Some q =>
      modify (set_mv_cap (mkVideoCapture (cap_frames c) (cap_fps c) (Qfloor q)
                                         (cap_calls c ++ [CapSetPos value])))
  | None => raise TypeError
  end.

(** Lines 301-308: one item of a control message. *)
Definition mv_apply_param (name : string) (value : PyVal)
  : M (MovieRun Frame) unit :=
  if String.eqb name "framerate" then
    let* d := lift (py_recip value) in
    modify (set_mv_delta_t d)
  else if String.eqb name "offset" then
    let* o := gets (fun r => offset (mv_self r)) in
    if negb (py_eqb value o)
    then cap_set_pos value ;;; mv_on_self (set_offset value)
    else pure tt
  else if String.eqb name "paused" then
    mv_on_self (set_paused value)
  else pure tt.

Fixpoint mv_apply_items (items : ParamDict) : M (MovieRun Frame) unit :=
  match items with
  | [] => pure tt
  | (name, value) :: rest => mv_apply_param name value ;;; mv_apply_items rest
  end.

(** Lines 297-310: at most one control message per iteration. *)
Definition mv_get_control : M (MovieRun Frame) unit :=
  let* v := gets (fun r => vf_base (mv_self r)) in
  match control_queue v with
  | [] => pure tt
  | param_dict :: rest =>
      mv_on_base (set_control_queue rest) ;;;
      mv_apply_items param_dict
  end.

(** Lines 287-328: one pass of the loop; [false] when the loop is left. *)
Definition mv_iteration (inp : FileInput) : M (MovieRun Frame) bool :=
  let* ret0 := gets mv_ret in
  let* v := gets (fun r => vf_base (mv_self r)) in
  if negb ret0 || kill_event v then pure false
  else
    let* paused := gets (fun r => paused (mv_self r)) in
    let* rf :=
      (if py_truthy paused
       then let* f := gets (fun r => old_frame (mv_self r)) in pure (true, f)
       else cap_read) in
    modify (set_mv_ret rf.1) ;;;
    let frame := rf.2 in
    mv_get_control ;;;
    let* delta_t := gets mv_delta_t in
    let* p := gets mv_prt in
    mv_on_base (pace delta_t p (fin_now_pace inp)) ;;;
    let rest :=
      modify (set_mv_prt (Some (fin_now_mark inp))) ;;;
      mv_on_self (set_old_frame frame) ;;;
      mv_on_base update_framerate ;;;
      pure true in
    if rf.1 then
      match frame with
      | Some f => mv_on_base (frame_queue_put (Some (channel0 f))) ;;; rest
      | None => raise TypeError
      end
    else
      let* wrap := gets (fun r => loop (mv_self r)) in
      if (wrap : bool) then
        cap_set_pos (VInt 0) ;;;
        modify (set_mv_ret true) ;;;
        rest
      else pure false.

Fixpoint mv_loop (inputs : list (Outside * FileInput))
  : M (MovieRun Frame) bool :=
  match inputs with
  | [] => pure false
  | (o, inp) :: rest =>
      mv_on_base (outside_step o) ;;;
      let* continue := mv_iteration inp in
      if (continue : bool) then mv_loop rest else pure true
  end.

(** Lines 275-286: [cap], [ret], [delta_t] and [prt] before the loop. *)
Definition mv_start (capture : VideoCapture Frame) (o : VFS)
  : Result (MovieRun Frame) :=
  match framerate o with
  | VNone =>
      let c := mkVideoCapture (cap_frames capture) (cap_fps capture)
                              (cap_pos capture) (cap_calls capture ++ [CapGetFps]) in
      let delta_t := if Qeq_bool (cap_fps capture) 0
                     then (1 / 30)%Q else (/ cap_fps capture)%Q in
      Ok (mkMovieRun o c true delta_t None)
  | fr =>
      match py_recip fr with
      | Ok delta_t => Ok (mkMovieRun o capture true delta_t None)
      | Raised e => Raised e
      end
  end.

(** *** [VideoFileSource.run] *)

(** How [run] ended: on an h5 file or on a movie file, with the result of
    the loop ([true]: [run] returned) and the final state, or before
    either loop started. *)
Inductive VideoFileRun : Type :=
| RunH5 (r : Result bool * H5Run Frame)
| RunMovie (r : Result bool * MovieRun Frame)
| RunRaised (e : Exn).

Definition VideoFileSource_run (framedata : H5Data Frame)
           (capture : VideoCapture Frame)
           (inputs : list (Outside * FileInput)) (o : VFS) : VideoFileRun :=
  match source_file o with
  | None => RunRaised (AttributeError "endswith")
  | Some file =>
      if endswith file "h5" then
        match h5_start framedata o with
        | Ok r => RunH5 (h5_loop (h5_video framedata) inputs r)
        | Raised e => RunRaised e
        end
      else
        match mv_start capture o with
        | Ok r => RunMovie (mv_loop inputs r)
        | Raised e => RunRaised e
        end
  end.
End VideoFileSourceRun.

(** ** The framerate widgets (framerate_viewer.py)

    A framerate accumulator belongs to the process that measures; a widget
    keeps a reference to it and reads its [data] when it is updated. The
    accumulators are a store indexed by references. *)

Record Accumulator : Type := mkAccumulator {
  acc_name : string;
  acc_goal_framerate : PyVal;
  acc_data : list PyVal;
}.

(** The calls on the [QPainter] of a widget. A pen is [QPen(QColor(r, g, b))]
    or [QPen(QColor(r, g, b), width)]. *)
Definition Color : Type := Z * Z * Z.

Inductive PaintCall : Type :=
| PBegin
| PSetPen (color : Color) (width : option Z)
| PDrawLine (x1 y1 x2 y2 : Z)
| PDrawText (x y : Z) (text : string)
| PEnd.

Record FramerateWidget : Type := mkFramerateWidget {
  acc : nat;
  g_fps : PyVal;
  fps : PyVal;
  set_fps : bool;
  painted : list PaintCall;
}.

Definition put_fps (v : PyVal) (w : FramerateWidget) : FramerateWidget :=
  mkFramerateWidget (acc w) (g_fps w) v (set_fps w) (painted w).
Definition put_set_fps (b : bool) (w : FramerateWidget) : FramerateWidget :=
  mkFramerateWidget (acc w) (g_fps w) (fps w) b (painted w).
Definition paint (c : PaintCall) : M FramerateWidget unit :=
  modify (fun w => mkFramerateWidget (acc w) (g_fps w) (fps w) (set_fps w)
                                     (painted w ++ [c])).

(** [v is None] *)
Definition is_None (v : PyVal) : bool :=
  match v with
  | VNone => true
  | _ => false
  end.

(** [a / b] and [int(x)] *)
Definition py_div (a b : Q) : Result Q :=
  if Qeq_bool b 0 then Raised ZeroDivisionError else Ok (a / b)%Q.

Definition py_int (x : Q) : Z :=
  if Qle_bool 0 x then Qfloor x else Qceiling x.

Definition limit_color : Color := (200, 200, 200).
Definition goal_color : Color := (80, 80, 80).
Definition indicator_green : Color := (40, 230, 150).
Definition indicator_red : Color := (230, 40, 0).

Section FramerateWidgets.
(** The store of the accumulators, and what Qt and Python's formatting
    give: [fm.width(text)], ["{:.1f}".format(x)] and [str(n)]. *)
Variable accs : nat -> Accumulator.
Variable text_width : string -> Z.
Variable format_1f : Q -> string.
Variable str : Z -> string.

(** Lines 25-30. *)
Definition FramerateWidget_init (a : nat) : FramerateWidget :=
  let g := acc_goal_framerate (accs a) in
  mkFramerateWidget a g g false [].

(** Lines 34-38. *)
Definition FramerateWidget_update (w : FramerateWidget) : FramerateWidget :=
  let w := put_set_fps false w in
  match last (acc_data (accs (acc w))) with
  | Some v => put_set_fps (negb (is_None v)) (put_fps v w)
  | None => w
  end.

(** Lines 47-109, for the widget size [(w, h)]. [min] and [max] compare
    their arguments and the result is multiplied by a float: one of the
    two raises [TypeError] unless both values are numbers. *)
Definition paint_bounds (size : Z * Z) : M FramerateWidget unit :=
  let pad := 6 in
  let w := size.1 in
  let h := size.2 in
  paint PBegin ;;;
  let* f := gets fps in
  let* g := gets g_fps in
  match py_num f, py_num g with
  | Some a, Some b =>
      let min_bound := Qfloor (py_min a b * (8 # 10) / 10) * 10 in
      let max_bound := Qceiling (py_max a b * (12 # 10) / 10) * 10 in
      let max_bound :=
        if max_bound =? min_bound then max_bound + 1 else max_bound in
      let* loc := lift (py_div (a - inject_Z min_bound)
                                (inject_Z (max_bound - min_bound))) in
      let* loc_g := lift (py_div (b - inject_Z min_bound)
                                  (inject_Z (max_bound - min_bound))) in
      let indicator_color :=
        if negb (is_None f) && Qltb a b then indicator_red
        else indicator_green in
      let w_min := 0 in
      let w_max := w - pad in
      let text_height := 16 in
      let h_max := h - pad in
      let h_min := text_height + pad in
      let* s := gets set_fps in
      (if s && negb (is_None f) then
         paint (PSetPen indicator_color None) ;;;
         let w_l := py_int (inject_Z w_min + loc * inject_Z (w_max - w_min)) in
         paint (PDrawLine w_l (h_min - 5) w_l h_max) ;;;
         let val_str := format_1f a in
         let textw := text_width val_str in
         paint (PDrawText ((w_max + w_min - textw) / 2) text_height val_str)
       else pure tt) ;;;
      (if negb (is_None g) then
         paint (PSetPen goal_color (Some 3)) ;;;
         let w_l := py_int (inject_Z w_min + loc_g * inject_Z (w_max - w_min)) in
         paint (PDrawLine w_l (h_min - 5) w_l h_max)
       else pure tt) ;;;
      paint (PSetPen limit_color None) ;;;
      paint (PDrawLine w_min h_min w_min h_max) ;;;
      paint (PDrawLine w_max h_min w_max h_max) ;;;
      paint (PDrawText w_min text_height (str min_bound)) ;;;
      let maxst := str max_bound in
      let textw := text_width maxst in
      paint (PDrawText (w_max - textw) text_height maxst) ;;;
      paint PEnd
  | _, _ => raise TypeError
  end.

(** Lines 40-45, then the painting. *)
Definition paintEvent (size : Z * Z) : M FramerateWidget unit :=
  let* f := gets fps in
  if is_None f then
    let* g := gets g_fps in
    if negb (is_None g) then modify (put_fps g) ;;; paint_bounds size
    else pure tt
  else paint_bounds size.

(** *** [MultiFrameratesWidget]

    The layout holds a spacer, a label or one of the framerate widgets:
    the widget at a position of [fr_widgets], the same object. *)
Inductive LayoutItem : Type :=
| LSpacer (w h : Z)
| LLabel (text : string)
| LWidget (i : nat).

Record MultiFrameratesWidget : Type := mkMultiFrameratesWidget {
  fr_widgets : list FramerateWidget;
  layout : list LayoutItem;
}.

Definition MultiFrameratesWidget_init : MultiFrameratesWidget :=
  mkMultiFrameratesWidget [] [].

Definition MultiFrameratesWidget_update (m : MultiFrameratesWidget)
  : MultiFrameratesWidget :=
  mkMultiFrameratesWidget (FramerateWidget_update <$> fr_widgets m) (layout m).

Definition add_framerate (m : MultiFrameratesWidget) (framerate_acc : nat)
  : MultiFrameratesWidget :=
  let lbl_name := LLabel (acc_name (accs framerate_acc)) in
  let fr_disp := FramerateWidget_init framerate_acc in
  let l := if (0 <? length (fr_widgets m))%nat
           then layout m ++ [LSpacer 40 10] else layout m in
  let l := l ++ [lbl_name] in
  let ws := fr_widgets m ++ [fr_disp] in
  mkMultiFrameratesWidget ws (l ++ [LWidget (length (fr_widgets m))]).

End FramerateWidgets.

(** ** Concrete processes and inputs *)

(** Frames are numbered. The rotation leaves a numbered frame as it is and
    refuses [None]; the values setter stores every item of a control
    message as a parameter value. *)
Definition rot90_numbered (arr : option nat) (k : PyVal)
  : Result (option nat) :=
  match arr with
  | Some frame => Ok (Some frame)
  | None => Raised ValueError
  end.

Definition store_values (st : gmap string PyVal) (param_dict : ParamDict)
  : Result (gmap string PyVal) :=
  Ok (foldl (fun m kv => <[kv.1 := kv.2]> m) st param_dict).

(** A camera process built with [n_consumers = k], as it reaches the
    branch on the mode: the flags [paused] and [replay] are set as given,
    the ring buffer has four slots and holds frames 1 and 2, and frames 1,
    2 and 3 are pending on the frame queue. *)
Definition camera_at_branch (k : Z) (paused replay : bool) : CameraSource nat :=
  let c := CameraSource_init "ximea" (VBool false) 100 k (VInt 1)
             (VTuple [VInt (-1); VInt (-1); VInt (-1); VInt (-1)]) in
  set_ring_buffer
    (Some (RingBuffer_put (Some 2%nat)
             (RingBuffer_put (Some 1%nat)
                (mkRingBuffer 4 (replicate 4 None) 0 0))))
    (set_state
       (<["paused" := VBool paused]> (<["replay" := VBool replay]> (state c)))
       (set_cs_base
          (frame_queue_put (Some 3%nat)
             (frame_queue_put (Some 2%nat)
                (frame_queue_put (Some 1%nat) (cs_base c))))
          c)).

(** A camera process as constructed, and what happens around its first
    iterations: a control message that selects Live mode, one that changes
    the length of the ring buffer, one that pauses. *)
Definition camera_new : CameraSource nat :=
  CameraSource_init "ximea" (VBool false) 100 1 (VInt 1)
    (VTuple [VInt (-1); VInt (-1); VInt (-1); VInt (-1)]).

Definition nothing_outside : Outside := mkOutside false [] 0.
Definition select_live : Outside :=
  mkOutside false [[("paused", VBool false); ("replay", VBool false)]] 0.
Definition select_paused : Outside :=
  mkOutside false [[("paused", VBool true)]] 0.
Definition select_paused_and_replay : Outside :=
  mkOutside false [[("paused", VBool true); ("replay", VBool true)]] 0.
Definition select_replay : Outside :=
  mkOutside false [[("paused", VBool false); ("replay", VBool true)]] 0.
Definition change_length : Outside :=
  mkOutside false [[("ring_buffer_length", VInt 300)]] 0.

Definition camera_reads (frame : option nat) : CameraInput nat :=
  mkCameraInput frame 0 0.

(** An h5 file and a movie file of three frames, and a file source that
    plays a file once. *)
Definition three_frames : H5Data nat := mkH5Data [10; 11; 12]%nat None.
Definition three_frame_movie : VideoCapture nat :=
  mkVideoCapture [10; 11; 12]%nat 25 0 [].
Definition play_once (file : string) : VideoFileSource nat :=
  VideoFileSource_init (Some file) false VNone (VBool false) 100 1.
Definition file_ticks (n : nat) : list (Outside * FileInput) :=
  replicate n (mkOutside false [] 1, mkFileInput 0 0).

(** Runs in the middle of a file: the h5 loop before frame 2, and the
    movie loop with its capture positioned on frame 2. *)
Definition h5_before_frame_2 : H5Run nat :=
  mkH5Run (play_once "video.h5") (/ 30) (VInt 2) None.
Definition movie_before_frame_2 : MovieRun nat :=
  mkMovieRun (play_once "movie.avi")
             (mkVideoCapture [10; 11; 12]%nat 25 2 [CapGetFps; CapRead; CapRead])
             true (/ 25) None.

(** The camera process of above after the consumers took two of the
    pending frames; a new camera process with two control messages
    pending; a process for a camera type that does not exist. *)
Definition camera_after_consumers : CameraSource nat :=
  let c := camera_at_branch 1 false false in
  set_cs_base (outside_step (mkOutside false [] 2) (cs_base c)) c.

Definition two_messages : list ParamDict :=
  [[("exposure", VInt 5); ("gain", VInt 2)]; [("framerate", VInt 100)]].

Definition camera_with_messages : CameraSource nat :=
  set_cs_base (set_control_queue two_messages (cs_base camera_new)) camera_new.

Definition webcam : CameraSource nat :=
  CameraSource_init "webcam" (VBool false) 100 1 (VInt 1)
    (VTuple [VInt (-1); VInt (-1); VInt (-1); VInt (-1)]).

(** File sources that loop, are paused, or have control messages
    pending, in the middle or at the end of a file of three frames. *)
Definition play_looping (file : string) : VideoFileSource nat :=
  VideoFileSource_init (Some file) true VNone (VBool false) 100 1.

Definition h5_looping_before_last : H5Run nat :=
  mkH5Run (set_offset (VInt 1) (play_looping "video.h5")) (/ 30) (VInt 2) None.

Definition movie_looping_at_end : MovieRun nat :=
  mkMovieRun (set_offset (VInt 1) (play_looping "movie.avi"))
             (mkVideoCapture [10; 11; 12]%nat 25 3
                             [CapGetFps; CapRead; CapRead; CapRead])
             true (/ 25) None.

Definition h5_paused : H5Run nat :=
  mkH5Run (set_paused (VBool true) (play_once "video.h5")) (/ 30) (VInt 1) None.

Definition movie_paused (old : option nat) : MovieRun nat :=
  mkMovieRun (set_old_frame old (set_paused (VBool true) (play_once "movie.avi")))
             (mkVideoCapture [10; 11; 12]%nat 25 2 [CapGetFps; CapRead; CapRead])
             true (/ 25) None.

Definition with_messages (messages : list ParamDict) (o : VideoFileSource nat)
  : VideoFileSource nat :=
  set_vf_base (set_control_queue messages (vf_base o)) o.

Definition h5_with_messages (messages : list ParamDict) : H5Run nat :=
  mkH5Run (with_messages messages (play_once "video.h5")) (/ 30) (VInt 0) None.

Definition movie_with_messages (messages : list ParamDict) : MovieRun nat :=
  mkMovieRun (with_messages messages (play_once "movie.avi"))
             three_frame_movie true (/ 25) None.

(** Three accumulators: the camera's, with its latest measurement below
    the goal; one without a goal; one whose latest measurement is missing.
    Text in a font seven pixels wide, numbers written with one decimal. *)
Definition three_accumulators (a : nat) : Accumulator :=
  match a with
  | O => mkAccumulator "camera" (VFloat 30) [VFloat 28; VFloat (51 # 2)]
  | 1%nat => mkAccumulator "tracking" VNone [VFloat 12]
  | _ => mkAccumulator "display" (VInt 60) [VFloat 59; VNone]
  end.

Definition seven_wide (text : string) : Z := 7 * Z.of_nat (String.length text).
Definition one_decimal (x : Q) : string :=
  (pretty (Qfloor x) ++ "." ++ pretty (Qfloor (x * 10) `mod` 10))%string.

(** ** Predicates of the statements *)

(** [P] is kept by [m], whatever it returns or raises. *)
Definition invariant {S A : Type} (P : S -> Prop) (m : M S A) : Prop :=
  forall s, P s -> P (m s).2.

(** What the consumers and the operator see of a process, and the
    threshold that admits a frame. *)
Definition outputs {Frame : Type} (s : CameraSource Frame) :=
  (frame_queue (cs_base s), frames_taken (cs_base s),
   message_queue (cs_base s), sleeps (cs_base s), n_consumers (cs_base s)).

(** The loop is in Live mode: neither paused nor replaying. *)
Definition live_mode (st : gmap string PyVal) : Prop :=
  exists p r,
    st !! "paused" = Some p /\ py_truthy p = false /\
    st !! "replay" = Some r /\
    (py_truthy r = false \/
     exists fps, st !! "replay_fps" = Some fps /\ py_gt0 fps = Ok false).

(** The loop is in Replay mode: not paused, [replay] set and a positive
    [replay_fps]. *)
Definition replay_mode (st : gmap string PyVal) : Prop :=
  exists p r fps,
    st !! "paused" = Some p /\ py_truthy p = false /\
    st !! "replay" = Some r /\ py_truthy r = true /\
    st !! "replay_fps" = Some fps /\ py_gt0 fps = Ok true.

(** The calls [self.cam.set(param, value)] for the items of control
    messages, in order. *)
Definition cam_sets (messages : list ParamDict) : list CamCall :=
  (fun kv : string * PyVal => CamSet kv.1 kv.2) <$> concat messages.

(** No release call was made on the camera, or on the capture. *)
Definition not_released {Frame : Type} (s : CameraSource Frame) : Prop :=
  CamRelease ∉ cam s.

Definition cap_not_released {Frame : Type} (m : MovieRun Frame) : Prop :=
  CapRelease ∉ cap_calls (mv_cap m).

(** Nothing is asked of the source between two iterations: no kill, no
    control message (consumers may take frames). *)
Definition quiet (o : Outside) : Prop :=
  out_kill o = false /\ out_control o = [].

(** The state of a run that plays [frames] once, before frame [i]: the
    frames before [i] are on the queue after what was there ([q0]). *)
Definition playing {Frame : Type} (frames : list Frame)
           (q0 : list (option Frame)) (i : nat) (h : H5Run Frame) : Prop :=
  kill_event (vf_base (h5_self h)) = false /\
  control_queue (vf_base (h5_self h)) = [] /\
  py_truthy (paused (h5_self h)) = false /\
  loop (h5_self h) = false /\
  h5_i_frame h = VInt (Z.of_nat i) /\
  frame_queue (vf_base (h5_self h)) = q0 ++ (Some <$> take i frames).

(** The state of a run that plays a movie of [frames] once, before frame
    [i]: the capture stands on frame [i], and channel 0 of the frames
    before [i] is on the queue after what was there ([q0]). *)
Definition movie_playing {Frame : Type} (channel0 : Frame -> Frame)
           (frames : list Frame) (q0 : list (option Frame)) (i : nat)
           (m : MovieRun Frame) : Prop :=
  kill_event (vf_base (mv_self m)) = false /\
  control_queue (vf_base (mv_self m)) = [] /\
  py_truthy (paused (mv_self m)) = false /\
  loop (mv_self m) = false /\
  mv_ret m = true /\
  cap_frames (mv_cap m) = frames /\
  cap_pos (mv_cap m) = Z.of_nat i /\
  frame_queue (vf_base (mv_self m)) =
    q0 ++ ((fun f => Some (channel0 f)) <$> take i frames).

(** The layout of a [MultiFrameratesWidget] that shows the accumulators
    [refs]: a label and a widget for each, and a 40 x 10 spacer between
    two of them. *)
Definition layout_of (accs : nat -> Accumulator) (refs : list nat)
  : list LayoutItem :=
  tail (concat (imap (fun i a => [LSpacer 40 10;
                                  LLabel (acc_name (accs a));
                                  LWidget i]) refs)).

(** A line drawn by a widget of size [(w, h)] is vertical, ends on the
    bottom padding and stays between the left border and the right
    padding. *)
Definition line_inside (size : Z * Z) (c : PaintCall) : Prop :=
  match c with
  | PDrawLine x1 y1 x2 y2 =>
      0 <= x1 <= size.1 - 6 /\ x2 = x1 /\ y2 = size.2 - 6
  | _ => True
  end.

(** The pen of the indicator line, in either colour. *)
Definition indicator_pen (c : PaintCall) : bool :=
  match c with
  | PSetPen (r, g, b) None =>
      ((r =? 40) && (g =? 230) && (b =? 150)) ||
      ((r =? 230) && (g =? 40) && (b =? 0))
  | _ => false
  end.

(** * Properties *)

(** ** Properties of [framerate_limits] *)

Lemma Qltb_true a b : Qltb a b = true -> (a < b)%Q.
Proof.
  unfold Qltb. intros H. apply negb_true_iff in H.
  apply Qnot_le_lt. intros Hle. apply Qle_bool_iff in Hle. congruence.
Qed.

Lemma Qltb_false a b : Qltb a b = false -> (b <= a)%Q.
Proof.
  unfold Qltb. intros H. apply negb_false_iff in H.
  by apply Qle_bool_iff.
Qed.

Lemma framerate_limits_loop_spec frs : forall ll ul,
  let r := framerate_limits_loop frs ll ul in
  (r.1 <= ll)%Q /\ (ul <= r.2)%Q /\
  (forall x, In x frs -> (r.1 <= x)%Q /\ (x <= r.2)%Q) /\
  In r.1 (ll :: frs) /\ In r.2 (ul :: frs).
Proof.
  induction frs as [|fr rest IH]; intros ll ul; simpl.
  - repeat split; try apply Qle_refl; try tauto.
  - set (ll' := if Qltb fr ll then fr else ll).
    set (ul' := if Qltb ul fr then fr else ul).
    destruct (IH ll' ul') as (H1 & H2 & H3 & H4 & H5).
    assert (Hll : (ll' <= ll)%Q /\ (ll' <= fr)%Q).
    { subst ll'. destruct (Qltb fr ll) eqn:E.
      - apply Qltb_true in E. split; [by apply Qlt_le_weak | apply Qle_refl].
      - apply Qltb_false in E. split; [apply Qle_refl | done]. }
    assert (Hul : (ul <= ul')%Q /\ (fr <= ul')%Q).
    { subst ul'. destruct (Qltb ul fr) eqn:E.
      - apply Qltb_true in E. split; [by apply Qlt_le_weak | apply Qle_refl].
      - apply Qltb_false in E. split; [apply Qle_refl | done]. }
    destruct Hll as [Hl1 Hl2], Hul as [Hu1 Hu2].
    split; [eapply Qle_trans; eauto|].
    split; [eapply Qle_trans; eauto|].
    split.
    { intros x [<-|Hx].
      - split; eapply Qle_trans; eauto.
      - by apply H3. }
    split.
    + simpl in H4. destruct H4 as [H4|H4]; [|tauto].
      rewrite <- H4. subst ll'. destruct (Qltb fr ll); tauto.
    + simpl in H5. destruct H5 as [H5|H5]; [|tauto].
      rewrite <- H5. subst ul'. destruct (Qltb ul fr); tauto.
Qed.

(** C10: on a non-empty sequence [framerate_limits] returns the minimum and
    the maximum of the elements of [framerates] together with
    [goal_framerate]; hence [ll <= goal_framerate <= ul] and [ll <= ul]. *)
Theorem framerate_limits_min_max (framerates : list Q) (goal_framerate : Q) :
  framerates <> [] ->
  exists ll ul,
    framerate_limits framerates goal_framerate = Ok (ll, ul) /\
    In ll (goal_framerate :: framerates) /\
    In ul (goal_framerate :: framerates) /\
    (forall x, In x (goal_framerate :: framerates) -> (ll <= x)%Q /\ (x <= ul)%Q) /\
    (ll <= goal_framerate)%Q /\ (goal_framerate <= ul)%Q /\ (ll <= ul)%Q.
Proof.
  destruct framerates as [|fr0 rest]; [done|]. intros _.
  unfold framerate_limits.
  set (ll0 := py_min fr0 goal_framerate).
  set (ul0 := py_max goal_framerate fr0).
  destruct (framerate_limits_loop_spec (fr0 :: rest) ll0 ul0)
    as (H1 & H2 & H3 & H4 & H5).
  destruct (framerate_limits_loop (fr0 :: rest) ll0 ul0) as [ll ul] eqn:E.
  simpl fst in *. simpl snd in *.
  assert (Hl0 : (ll0 <= goal_framerate)%Q /\ In ll0 (goal_framerate :: fr0 :: rest)).
  { subst ll0. unfold py_min. destruct (Qltb goal_framerate fr0) eqn:E'.
    - split; [apply Qle_refl | by left].
    - apply Qltb_false in E'. split; [done | right; by left]. }
  assert (Hu0 : (goal_framerate <= ul0)%Q /\ In ul0 (goal_framerate :: fr0 :: rest)).
  { subst ul0. unfold py_max. destruct (Qltb goal_framerate fr0) eqn:E'.
    - apply Qltb_true in E'. split; [by apply Qlt_le_weak | right; by left].
    - split; [apply Qle_refl | by left]. }
  destruct Hl0 as [Hl0 Hl0'], Hu0 as [Hu0 Hu0'].
  assert (Hlg : (ll <= goal_framerate)%Q) by (eapply Qle_trans; eauto).
  assert (Hgu : (goal_framerate <= ul)%Q) by (eapply Qle_trans; eauto).
  exists ll, ul. split; [done|].
  split. { destruct H4 as [<-|H4]; [done | by right]. }
  split. { destruct H5 as [<-|H5]; [done | by right]. }
  split. { intros x [<-|Hx]; [done | by apply H3]. }
  repeat split; try done. eapply Qle_trans; eauto.
Qed.

Lemma framerate_limits_min_max_witness :
  [150.5; 98; 203]%Q <> [] /\
  exists ll ul,
    framerate_limits [150.5; 98; 203]%Q 150%Q = Ok (ll, ul) /\
    In ll (150 :: [150.5; 98; 203])%Q /\
    In ul (150 :: [150.5; 98; 203])%Q /\
    (forall x, In x (150 :: [150.5; 98; 203])%Q -> (ll <= x)%Q /\ (x <= ul)%Q) /\
    (ll <= 150)%Q /\ (150 <= ul)%Q /\ (ll <= ul)%Q.
Proof.
  split; [discriminate|].
  apply (framerate_limits_min_max [150.5; 98; 203]%Q 150%Q). discriminate.
Defined.

(** ** Reasoning about monadic code *)

Section MonadFacts.
Context {S : Type}.

Lemma bind_Ok_inv {A B} (m : M S A) (k : A -> M S B) s b s2 :
  bind m k s = (Ok b, s2) ->
  exists a s1, m s = (Ok a, s1) /\ k a s1 = (Ok b, s2).
Proof.
  unfold bind. destruct (m s) as [[a|e] s1]; [eauto | discriminate].
Qed.

Lemma invariant_pure {A} (P : S -> Prop) (a : A) : invariant P (pure a).
Proof. by intros s. Qed.

Lemma invariant_raise {A} (P : S -> Prop) e : invariant P (@raise S A e).
Proof. by intros s. Qed.

Lemma invariant_lift {A} (P : S -> Prop) (r : Result A) : invariant P (lift r).
Proof. by intros s. Qed.

Lemma invariant_gets {A} (P : S -> Prop) (f : S -> A) : invariant P (gets f).
Proof. by intros s. Qed.

Lemma invariant_modify (P : S -> Prop) (f : S -> S) :
  (forall s, P s -> P (f s)) -> invariant P (modify f).
Proof. intros H s. apply H. Qed.

Lemma invariant_bind {A B} (P : S -> Prop) (m : M S A) (k : A -> M S B) :
  invariant P m -> (forall a, invariant P (k a)) -> invariant P (bind m k).
Proof.
  intros Hm Hk s Hs. unfold bind. specialize (Hm s Hs).
  destruct (m s) as [[a|e] s1]; simpl in *; [by apply Hk | done].
Qed.

Lemma invariant_except_ValueError_pass (P : S -> Prop) (m : M S unit) :
  invariant P m -> invariant P (except_ValueError_pass m).
Proof.
  intros Hm s Hs. unfold except_ValueError_pass. specialize (Hm s Hs).
  destruct (m s) as [[a|[]] s1]; done.
Qed.

Lemma invariant_if {A} (P : S -> Prop) (b : bool) (m1 m2 : M S A) :
  invariant P m1 -> invariant P m2 -> invariant P (if b then m1 else m2).
Proof. by destruct b. Qed.
End MonadFacts.

Create HintDb inv discriminated.
#[export] Hint Resolve invariant_pure invariant_raise invariant_lift
  invariant_gets invariant_except_ValueError_pass invariant_if : inv.

(** Splits a monadic term along its binds and branches, leaving the
    primitive steps to the hint database. *)
Ltac inv_step :=
  lazymatch goal with
  | |- invariant _ (bind _ _) => apply invariant_bind; [| intros ?]
  | |- invariant _ (except_ValueError_pass _) =>
      apply invariant_except_ValueError_pass
  | |- invariant _ (match ?x with _ => _ end) => destruct x
  | |- invariant _ (modify _) => apply invariant_modify; intros ? ?
  | |- invariant _ _ => solve [eauto with inv]
  end.
Ltac inv_auto := repeat inv_step.

(** ** [CameraSource.run] *)

Section CameraSourceFacts.
Context {Frame : Type}.
Variable rot90 : option Frame -> PyVal -> Result (option Frame).
Variable values_setter :
  gmap string PyVal -> ParamDict -> Result (gmap string PyVal).

Abbreviation CS := (CameraSource Frame).

Lemma cam_set_items_outputs x items :
  invariant (fun s : CS => outputs s = x) (cam_set_items items).
Proof.
  induction items as [|[param value] rest IH]; simpl; unfold cam_call; inv_auto.
  done.
Qed.

Lemma drain_control_queue_outputs x pending :
  invariant (fun s : CS => outputs s = x)
            (drain_control_queue values_setter pending).
Proof.
  induction pending as [|d rest IH]; simpl; unfold on_base; inv_auto; try done.
  apply cam_set_items_outputs.
Qed.

Lemma ensure_ring_buffer_outputs x :
  invariant (fun s : CS => outputs s = x) ensure_ring_buffer.
Proof. unfold ensure_ring_buffer, getattr_state. inv_auto; done. Qed.

(** Lines 148-167 put nothing on the queues and do not sleep. *)
Lemma acquire_outputs inp (s : CS) :
  outputs (acquire rot90 values_setter inp s).2 = outputs s.
Proof.
  cut (invariant (fun s' : CS => outputs s' = outputs s)
                 (acquire rot90 values_setter inp)); [intros H; by apply H|].
  unfold acquire, on_base, cam_call. inv_auto; try done.
  - apply drain_control_queue_outputs.
  - apply ensure_ring_buffer_outputs.
Qed.

(** After line 165 the process has a ring buffer. *)
Lemma ensure_ring_buffer_Ok (s s1 : CS) :
  ensure_ring_buffer s = (Ok tt, s1) -> exists rb, ring_buffer s1 = Some rb.
Proof.
  unfold ensure_ring_buffer, getattr_state, bind, gets, modify, lift, pure, raise.
  destruct (ring_buffer s) as [rb|] eqn:Hrb; simpl.
  - destruct (state s !! "ring_buffer_length"); [|discriminate].
    destruct (state s !! "ring_buffer"); discriminate.
  - destruct (state s !! "ring_buffer_length") as [len|]; [|discriminate].
    destruct (RingBuffer_create len) as [new|]; [|discriminate].
    intros [= <-]. simpl. eauto.
Qed.

Lemma acquire_Ok inp (s : CS) arr (s1 : CS) :
  acquire rot90 values_setter inp s = (Ok arr, s1) ->
  exists rb, ring_buffer s1 = Some rb.
Proof.
  unfold acquire. intros H.
  apply bind_Ok_inv in H as (v & s2 & _ & H).
  apply bind_Ok_inv in H as ([] & s3 & _ & H).
  apply bind_Ok_inv in H as ([] & s4 & _ & H).
  apply bind_Ok_inv in H as (arr' & s5 & _ & H).
  apply bind_Ok_inv in H as ([] & s6 & He & H).
  apply bind_Ok_inv in H as ([] & s7 & Hu & H).
  apply ensure_ring_buffer_Ok in He as [rb Hrb].
  unfold on_base, modify in Hu. injection Hu as <-.
  unfold pure in H. injection H as _ <-. exists rb. done.
Qed.

(** One pass of the loop, when the kill event is not set, is lines 148-167
    followed by the branch on the mode. *)
Lemma CameraSource_iteration_alive inp (s : CS) :
  kill_event (cs_base s) = false ->
  CameraSource_iteration rot90 values_setter inp s =
  match acquire rot90 values_setter inp s with
  | (Ok arr, s1) =>
      match dispatch inp arr s1 with
      | (Ok _, s2) => (Ok true, s2)
      | (Raised e, s2) => (Raised e, s2)
      end
  | (Raised e, s1) => (Raised e, s1)
  end.
Proof.
  intros Hk. unfold CameraSource_iteration, bind, gets, pure. rewrite Hk.
  destruct (acquire _ _ _ _) as [[arr|e] s1]; [|done].
  by destruct (dispatch _ _ _) as [[[]|e] s2].
Qed.

Lemma dispatch_paused inp arr (s : CS) p :
  state s !! "paused" = Some p -> py_truthy p = true ->
  dispatch inp arr s = paused_branch s.
Proof.
  intros Hp Ht. unfold dispatch, getattr_state, bind, gets, pure.
  by rewrite Hp, Ht.
Qed.

Lemma dispatch_live inp arr (s : CS) :
  live_mode (state s) -> dispatch inp arr s = live_branch arr s.
Proof.
  intros (p & r & Hp & Htp & Hr & Hmode).
  unfold dispatch, getattr_state, bind, gets, pure, lift.
  rewrite Hp, Htp, Hr.
  destruct Hmode as [Htr | (fps & Hfps & Hgt)].
  - by rewrite Htr.
  - destruct (py_truthy r); [|done]. by rewrite Hfps, Hgt.
Qed.

(** Lines 183-190 on a frame that was read, in Live mode. *)
Lemma live_branch_frame (s : CS) rb frame :
  live_mode (state s) -> ring_buffer s = Some rb ->
  live_branch (Some frame) s =
  (Ok tt,
   let s1 := set_prt None
               (set_ring_buffer (Some (RingBuffer_put (Some frame) rb)) s) in
   if qsize (cs_base s) <? n_consumers (cs_base s) + 2
   then set_cs_base (frame_queue_put (Some frame) (cs_base s)) s1
   else set_cs_base (message_queue_put "W:Dropped frame" (cs_base s)) s1).
Proof.
  intros (p & r & Hp & Htp & _) Hrb.
  unfold live_branch, the_ring_buffer, getattr_state, on_base,
    bind, gets, modify, pure.
  rewrite Hrb. simpl. rewrite Hp, Htp. simpl.
  by destruct (qsize (cs_base s) <? n_consumers (cs_base s) + 2).
Qed.

(** C1: in Live mode, when the frame queue already holds
    [n_consumers + 2] or more pending items, the frame just read is
    dropped: the branch (and with it the iteration) goes on without putting
    anything on the frame queue and without sleeping, the warning
    ["W:Dropped frame"] is put on the message queue, and the ring buffer
    still receives the frame. [s] is the process when the branch on the
    mode is reached. *)
Theorem live_frame_dropped_at_threshold
    (inp : CameraInput Frame) (s : CS) (rb : RingBuffer Frame) (frame : Frame) :
  live_mode (state s) ->
  ring_buffer s = Some rb ->
  n_consumers (cs_base s) + 2 <= qsize (cs_base s) ->
  exists s',
    dispatch inp (Some frame) s = (Ok tt, s') /\
    (forall s0,
        kill_event (cs_base s0) = false ->
        acquire rot90 values_setter inp s0 = (Ok (Some frame), s) ->
        CameraSource_iteration rot90 values_setter inp s0 = (Ok true, s')) /\
    frame_queue (cs_base s') = frame_queue (cs_base s) /\
    frames_taken (cs_base s') = frames_taken (cs_base s) /\
    message_queue (cs_base s') =
      message_queue (cs_base s) ++ ["W:Dropped frame"] /\
    sleeps (cs_base s') = sleeps (cs_base s) /\
    ring_buffer s' = Some (RingBuffer_put (Some frame) rb).
Proof.
  intros Hlive Hrb Hfull.
  assert (Hq : (qsize (cs_base s) <? n_consumers (cs_base s) + 2) = false)
    by (by apply Z.ltb_ge).
  assert (Hd : dispatch inp (Some frame) s =
               (Ok tt,
                set_cs_base (message_queue_put "W:Dropped frame" (cs_base s))
                  (set_prt None
                     (set_ring_buffer
                        (Some (RingBuffer_put (Some frame) rb)) s)))).
  { rewrite dispatch_live by done.
    rewrite (live_branch_frame s rb frame) by done. simpl. by rewrite Hq. }
  eexists. split; [exact Hd|]. split; [|done].
  intros s0 Hk Hacq.
  rewrite CameraSource_iteration_alive by done. by rewrite Hacq, Hd.
Qed.

(** Line 170 forwards the most recent frame of the buffer and touches
    nothing else; on an empty history the error of [get_most_recent]
    escapes. *)
Lemma paused_branch_eq (s : CS) rb :
  ring_buffer s = Some rb ->
  paused_branch s =
  match RingBuffer_get_most_recent rb with
  | Ok item => (Ok tt, set_cs_base (frame_queue_put item (cs_base s)) s)
  | Raised e => (Raised e, s)
  end.
Proof.
  intros Hrb. unfold paused_branch, the_ring_buffer, on_base,
    bind, gets, modify, pure, lift.
  rewrite Hrb. by destruct (RingBuffer_get_most_recent rb).
Qed.

(** The Paused branch is checked before Replay: when [paused] is true,
    whatever [replay] is, a process that reaches the branch on the mode
    with a most recent frame in its buffer puts that frame on the frame
    queue, once and after the items already there, and changes nothing
    else: the replay read cursor, [prt] and the sleeps are those before the
    branch, where Replay would have read at the cursor and paced. *)
Lemma paused_branch_forwards_most_recent
    (inp : CameraInput Frame) (s : CS) (rb : RingBuffer Frame)
    (arr item : option Frame) (p : PyVal) :
  state s !! "paused" = Some p -> py_truthy p = true ->
  ring_buffer s = Some rb ->
  RingBuffer_get_most_recent rb = Ok item ->
  exists s',
    dispatch inp arr s = (Ok tt, s') /\
    frame_queue (cs_base s') = frame_queue (cs_base s) ++ [item] /\
    frames_taken (cs_base s') = frames_taken (cs_base s) /\
    message_queue (cs_base s') = message_queue (cs_base s) /\
    sleeps (cs_base s') = sleeps (cs_base s) /\
    ring_buffer s' = Some rb /\
    prt s' = prt s /\
    state s' = state s /\
    cam s' = cam s.
Proof.
  intros Hp Htp Hrb Hitem.
  rewrite (dispatch_paused _ _ _ p) by done.
  rewrite (paused_branch_eq _ rb) by done. rewrite Hitem.
  eexists. split; [reflexivity|]. simpl. by rewrite Hrb.
Qed.

(** On an empty history the error of [get_most_recent] leaves the branch
    and the loop: the Paused branch has no handler, where the Replay branch
    catches the [ValueError] of [get]. *)
Lemma paused_branch_empty_history
    (inp : CameraInput Frame) (s : CS) (rb : RingBuffer Frame)
    (arr : option Frame) (p : PyVal) (e : Exn) :
  state s !! "paused" = Some p -> py_truthy p = true ->
  ring_buffer s = Some rb ->
  RingBuffer_get_most_recent rb = Raised e ->
  dispatch inp arr s = (Raised e, s).
Proof.
  intros Hp Htp Hrb He.
  rewrite (dispatch_paused _ _ _ p) by done.
  rewrite (paused_branch_eq _ rb) by done. by rewrite He.
Qed.

(** The buffer that line 165 makes is empty, and line 164 lets no other
    buffer through: whenever the lines before the branch on the mode
    complete, the process holds a buffer without a most recent frame. *)
Lemma ensure_ring_buffer_fresh (s s1 : CS) :
  ensure_ring_buffer s = (Ok tt, s1) ->
  exists rb,
    ring_buffer s1 = Some rb /\
    RingBuffer_get_most_recent rb = Raised ValueError.
Proof.
  unfold ensure_ring_buffer, getattr_state, bind, gets, modify, lift, pure, raise.
  destruct (ring_buffer s) as [rb|] eqn:Hrb; simpl.
  - destruct (state s !! "ring_buffer_length"); [|discriminate].
    destruct (state s !! "ring_buffer"); discriminate.
  - destruct (state s !! "ring_buffer_length") as [len|]; [|discriminate].
    destruct (RingBuffer_create len) as [new|] eqn:Hnew; [|discriminate].
    intros [= <-]. exists new. split; [done|].
    unfold RingBuffer_create in Hnew.
    destruct len as [| |z| | |]; try discriminate.
    destruct (0 <=? z); [|discriminate]. injection Hnew as <-.
    unfold RingBuffer_get_most_recent. cbn [rb_slots rb_write rb_length].
    destruct (replicate (Z.to_nat z) None !! _) as [[item|]|] eqn:E; try done.
    apply lookup_replicate in E as [E _]. discriminate.
Qed.

Lemma acquire_fresh inp (s : CS) arr (s1 : CS) :
  acquire rot90 values_setter inp s = (Ok arr, s1) ->
  exists rb,
    ring_buffer s1 = Some rb /\
    RingBuffer_get_most_recent rb = Raised ValueError.
Proof.
  unfold acquire. intros H.
  apply bind_Ok_inv in H as (v & s2 & _ & H).
  apply bind_Ok_inv in H as ([] & s3 & _ & H).
  apply bind_Ok_inv in H as ([] & s4 & _ & H).
  apply bind_Ok_inv in H as (arr' & s5 & _ & H).
  apply bind_Ok_inv in H as ([] & s6 & He & H).
  apply bind_Ok_inv in H as ([] & s7 & Hu & H).
  apply ensure_ring_buffer_fresh in He as (rb & Hrb & Hempty).
  unfold on_base, modify in Hu. injection Hu as <-.
  unfold pure in H. injection H as _ <-. exists rb. done.
Qed.

(** No iteration of the loop forwards a frame while [paused] is true: an
    iteration that gets as far as the branch on the mode has an empty
    buffer, and the error of [get_most_recent] ends it. Nothing was put on
    the frame queue, no message was sent, nothing slept. *)
Lemma paused_iteration_raises
    (inp : CameraInput Frame) (s0 s : CS) (arr : option Frame) (p : PyVal) :
  kill_event (cs_base s0) = false ->
  acquire rot90 values_setter inp s0 = (Ok arr, s) ->
  state s !! "paused" = Some p -> py_truthy p = true ->
  CameraSource_iteration rot90 values_setter inp s0 = (Raised ValueError, s) /\
  outputs s = outputs s0.
Proof.
  intros Hk Hacq Hp Htp.
  destruct (acquire_fresh _ _ _ _ Hacq) as (rb & Hrb & Hempty).
  split.
  - rewrite CameraSource_iteration_alive by done. rewrite Hacq.
    by rewrite (paused_branch_empty_history inp s rb arr p ValueError).
  - pose proof (acquire_outputs inp s0) as Ho. by rewrite Hacq in Ho.
Qed.

(** Line 164 reads the buffer off [self.state], which has no such
    attribute: once the process has a ring buffer the check raises, and the
    buffer is neither kept nor recreated. *)
Lemma ensure_ring_buffer_raises (s : CS) rb :
  ring_buffer s = Some rb ->
  exists attr, ensure_ring_buffer s = (Raised (AttributeError attr), s).
Proof.
  intros Hrb.
  unfold ensure_ring_buffer, getattr_state, py_getattr,
    bind, gets, pure, raise, lift.
  rewrite Hrb.
  destruct (state s !! "ring_buffer_length"); [|eauto].
  destruct (state s !! "ring_buffer"); eauto.
Qed.

(** *** Release of the camera *)

Lemma cam_call_not_released c :
  c <> CamRelease -> invariant (@not_released Frame) (cam_call c).
Proof.
  intros Hc. unfold cam_call. apply invariant_modify. intros s Hs.
  unfold not_released in *. simpl. rewrite elem_of_app, list_elem_of_singleton.
  intros [?|?]; [done | congruence].
Qed.

Lemma cam_set_items_not_released items :
  invariant (@not_released Frame) (cam_set_items items).
Proof.
  induction items as [|[param value] rest IH]; simpl; inv_auto.
  by apply cam_call_not_released.
Qed.

Lemma drain_control_queue_not_released pending :
  invariant (@not_released Frame) (drain_control_queue values_setter pending).
Proof.
  induction pending as [|d rest IH]; simpl; unfold on_base; inv_auto; try done.
  apply cam_set_items_not_released.
Qed.

Lemma acquire_not_released inp :
  invariant (@not_released Frame) (acquire rot90 values_setter inp).
Proof.
  unfold acquire, ensure_ring_buffer, getattr_state, on_base.
  inv_auto; try done.
  - apply drain_control_queue_not_released.
  - by apply cam_call_not_released.
Qed.

Lemma dispatch_not_released inp arr :
  invariant (@not_released Frame) (dispatch inp arr).
Proof.
  unfold dispatch, paused_branch, replay_branch, live_branch,
    the_ring_buffer, getattr_state, on_base.
  inv_auto; done.
Qed.

Lemma CameraSource_iteration_not_released inp :
  invariant (@not_released Frame) (CameraSource_iteration rot90 values_setter inp).
Proof.
  unfold CameraSource_iteration. inv_auto.
  - apply acquire_not_released.
  - apply dispatch_not_released.
Qed.

Lemma CameraSource_loop_not_released inputs :
  invariant (@not_released Frame) (CameraSource_loop rot90 values_setter inputs).
Proof.
  induction inputs as [|[o inp] rest IH]; simpl; unfold on_base; inv_auto;
    try done.
  apply CameraSource_iteration_not_released.
Qed.

(** The loop is left only through the kill event. *)
Lemma CameraSource_iteration_break inp (s s' : CS) :
  CameraSource_iteration rot90 values_setter inp s = (Ok false, s') ->
  kill_event (cs_base s) = true /\ s' = s.
Proof.
  destruct (kill_event (cs_base s)) eqn:Hk.
  - unfold CameraSource_iteration, bind, gets, pure. rewrite Hk.
    by intros [= <-].
  - rewrite CameraSource_iteration_alive by done.
    destruct (acquire _ _ _ _) as [[arr|e] s1]; [|done].
    by destruct (dispatch _ _ _) as [[[]|e] s2].
Qed.

Lemma CameraSource_loop_break inputs (s s' : CS) :
  CameraSource_loop rot90 values_setter inputs s = (Ok true, s') ->
  kill_event (cs_base s') = true.
Proof.
  revert s. induction inputs as [|[o inp] rest IH]; intros s; simpl.
  - discriminate.
  - unfold bind at 1. unfold on_base, modify at 1.
    unfold bind.
    destruct (CameraSource_iteration _ _ _ _) as [[[]|e] s1] eqn:Hit.
    + apply IH.
    + apply CameraSource_iteration_break in Hit as [Hk ->].
      unfold pure. by intros [= <-].
    + discriminate.
Qed.

(** [run] calls [release()] once, after the loop, when the loop was left
    through the kill event, and on no other way out. *)
Lemma CameraSource_run_release msg inputs (s : CS) :
  not_released s ->
  match CameraSource_run rot90 values_setter msg inputs s with
  | (Ok true, s') =>
      (exists calls, cam s' = calls ++ [CamRelease] /\ CamRelease ∉ calls) /\
      kill_event (cs_base s') = true
  | (_, s') => not_released s'
  end.
Proof.
  intros Hs. unfold CameraSource_run. unfold bind at 1, gets at 1.
  destruct (camera_class_dict !! camera_type s) as [cls|]; [|done].
  unfold bind at 1 2, gets at 1 2.
  set (body := bind (cam_call _) _).
  assert (Hpre : forall k : M CS bool,
             invariant (@not_released Frame) k ->
             invariant (@not_released Frame)
               (cam_call (CamNew cls (downsampling s) (roi s)) ;;;
                cam_call CamOpen ;;;
                on_base (message_queue_put ("I:" ++ msg)) ;;;
                modify (set_prt None) ;;; k)).
  { intros k Hk. unfold on_base. inv_auto; try done;
      by apply cam_call_not_released. }
  subst body.
  unfold bind at 1. unfold cam_call at 1, modify at 1.
  unfold bind at 1. unfold cam_call at 1, modify at 1.
  unfold bind at 1. unfold on_base at 1, modify at 1.
  unfold bind at 1. unfold modify at 1.
  set (s0 := set_prt None _).
  assert (Hs0 : not_released s0).
  { subst s0. unfold not_released in *. simpl.
    rewrite !elem_of_app, !list_elem_of_singleton.
    intros [[?|?]|?]; [done | congruence | congruence]. }
  pose proof (CameraSource_loop_not_released inputs s0 Hs0) as Hloop.
  unfold bind.
  destruct (CameraSource_loop _ _ _ _) as [[[]|e] s1] eqn:Hl; simpl in *.
  - split.
    + exists (cam s1). done.
    + by apply CameraSource_loop_break in Hl.
  - done.
  - done.
Qed.

(** *** Pacing of the replay *)

Lemma RingBuffer_get_raises (rb : RingBuffer Frame) e :
  RingBuffer_get rb = Raised e -> e = ValueError.
Proof.
  unfold RingBuffer_get.
  destruct (rb_slots rb !! rb_read rb) as [[item|]|]; congruence.
Qed.

(** The replay branch sleeps as [pacing_sleep] says, for the interval
    [1 / replay_fps] and the mark [prt], and marks the time afterwards. *)
Lemma replay_branch_pacing inp (s : CS) rb fps delta_t :
  ring_buffer s = Some rb ->
  state s !! "replay_fps" = Some fps -> py_recip fps = Ok delta_t ->
  exists s',
    replay_branch inp s = (Ok tt, s') /\
    sleeps (cs_base s') =
      sleeps (cs_base s) ++
      option_list (pacing_sleep delta_t (prt s) (in_now_pace inp)) /\
    prt s' = Some (in_now_mark inp).
Proof.
  intros Hrb Hfps Hdt.
  unfold replay_branch, the_ring_buffer, getattr_state, on_base, pace,
    except_ValueError_pass, bind, gets, modify, pure, lift.
  rewrite Hrb. simpl.
  destruct (RingBuffer_get rb) as [[item rb']|e] eqn:Hget; simpl.
  - rewrite Hfps, Hdt. simpl. eexists. split; [done|].
    destruct (pacing_sleep delta_t (prt s) (in_now_pace inp)); simpl;
      [done | by rewrite app_nil_r].
  - apply RingBuffer_get_raises in Hget as ->.
    rewrite Hfps, Hdt. simpl. eexists. split; [done|].
    destruct (pacing_sleep delta_t (prt s) (in_now_pace inp)); simpl;
      [done | by rewrite app_nil_r].
Qed.

(** The live branch unsets the mark: the first replayed frame after Live
    mode is not delayed. *)
Lemma live_branch_unsets_prt arr (s s' : CS) :
  live_branch arr s = (Ok tt, s') -> prt s' = None.
Proof.
  unfold live_branch, the_ring_buffer, getattr_state, on_base,
    bind, gets, modify, pure, raise.
  destruct (ring_buffer s) as [rb|]; [|discriminate]. simpl.
  destruct arr as [frame|]; simpl; [|by intros [= <-]].
  destruct (state s !! "paused") as [p|]; [|discriminate].
  destruct (py_truthy p); simpl; [by intros [= <-]|].
  destruct (_ <? _); by intros [= <-].
Qed.

End CameraSourceFacts.

(** ** [VideoFileSource.run] *)

Section VideoFileSourceFacts.
Context {Frame : Type}.
Variable channel0 : Frame -> Frame.

(** *** The offset update *)

Lemma h5_apply_offset (h : H5Run Frame) value :
  h5_apply_param "offset" value h =
  (Ok tt,
   if py_eqb value (offset (h5_self h)) then h
   else set_h5_self (set_offset value (h5_self h)) h).
Proof.
  unfold h5_apply_param, h5_on_self, bind, gets, modify, pure. simpl.
  by destruct (py_eqb value (offset (h5_self h))).
Qed.

Lemma mv_apply_offset (m : MovieRun Frame) value :
  mv_apply_param "offset" value m =
  if py_eqb value (offset (mv_self m)) then (Ok tt, m)
  else
    match py_num value with
    | Some q =>
        (Ok tt,
         set_mv_self (set_offset value (mv_self m))
           (set_mv_cap
              (mkVideoCapture (cap_frames (mv_cap m)) (cap_fps (mv_cap m))
                 (Qfloor q) (cap_calls (mv_cap m) ++ [CapSetPos value])) m))
    | None => (Raised TypeError, m)
    end.
Proof.
  unfold mv_apply_param, cap_set_pos, mv_on_self, bind, gets, modify, pure,
    raise. simpl.
  destruct (py_eqb value (offset (mv_self m))); simpl; [done|].
  by destruct (py_num value).
Qed.

(** C9: an offset update whose value equals the current offset changes
    nothing, whatever the position of the read cursor: the whole state of
    the run is the one before, on an h5 file and on a movie file. Only a
    value that differs from the current offset repositions a read cursor:
    the movie position moves only then (to the new value), and the h5
    frame index is not moved by an offset update at all. *)
Theorem offset_update_same_value_noop
    (h : H5Run Frame) (m : MovieRun Frame) (value : PyVal) :
  (py_eqb value (offset (h5_self h)) = true ->
   h5_apply_param "offset" value h = (Ok tt, h)) /\
  (py_eqb value (offset (mv_self m)) = true ->
   mv_apply_param "offset" value m = (Ok tt, m)) /\
  h5_i_frame (h5_apply_param "offset" value h).2 = h5_i_frame h /\
  (cap_pos (mv_cap (mv_apply_param "offset" value m).2) <> cap_pos (mv_cap m) ->
   py_eqb value (offset (mv_self m)) = false) /\
  (forall q, py_eqb value (offset (mv_self m)) = false ->
             py_num value = Some q ->
             exists m', mv_apply_param "offset" value m = (Ok tt, m') /\
                        cap_pos (mv_cap m') = Qfloor q /\
                        offset (mv_self m') = value).
Proof.
  rewrite h5_apply_offset, mv_apply_offset.
  repeat split.
  - by intros ->.
  - by intros ->.
  - by destruct (py_eqb value (offset (h5_self h))).
  - destruct (py_eqb value (offset (mv_self m))); [done|]. done.
  - intros q -> ->. eexists. done.
Qed.

(** *** No release of the capture *)

Lemma cap_read_not_released : invariant (@cap_not_released Frame) cap_read.
Proof.
  intros m Hm. unfold cap_read, bind, gets, modify, pure.
  destruct (if 0 <=? cap_pos (mv_cap m) then _ else _);
    unfold cap_not_released in *; simpl;
    rewrite elem_of_app, list_elem_of_singleton; intros [?|?]; done.
Qed.

Lemma cap_set_pos_not_released value :
  invariant (@cap_not_released Frame) (cap_set_pos value).
Proof.
  intros m Hm. unfold cap_set_pos, bind, gets, modify, raise.
  destruct (py_num value); [|done].
  unfold cap_not_released in *; simpl.
  rewrite elem_of_app, list_elem_of_singleton. intros [?|?]; done.
Qed.

Lemma mv_apply_items_not_released items :
  invariant (@cap_not_released Frame) (mv_apply_items items).
Proof.
  induction items as [|[name value] rest IH]; simpl; [inv_auto|].
  apply invariant_bind; [|done].
  unfold mv_apply_param, mv_on_self. inv_auto; try done.
  apply cap_set_pos_not_released.
Qed.

Lemma mv_iteration_not_released inp :
  invariant (@cap_not_released Frame) (mv_iteration channel0 inp).
Proof.
  unfold mv_iteration, mv_get_control, mv_on_base, mv_on_self.
  inv_auto; try done;
    first [ apply cap_read_not_released
          | apply mv_apply_items_not_released
          | apply cap_set_pos_not_released ].
Qed.

Lemma mv_loop_not_released inputs :
  invariant (@cap_not_released Frame) (mv_loop channel0 inputs).
Proof.
  induction inputs as [|[o inp] rest IH]; simpl;
    unfold mv_on_base, mv_on_self; inv_auto; try done.
  apply mv_iteration_not_released.
Qed.

Lemma mv_start_not_released capture (o : VideoFileSource Frame) m :
  CapRelease ∉ cap_calls capture ->
  mv_start capture o = Ok m -> cap_not_released m.
Proof.
  intros Hc. unfold mv_start, cap_not_released.
  destruct (framerate o) eqn:Hf;
    try (destruct (py_recip _); intros [= <-]; done).
  intros [= <-]. simpl.
  rewrite elem_of_app, list_elem_of_singleton. intros [?|?]; done.
Qed.

(** *** Playing an h5 file once *)

Lemma py_eqb_VInt a b : py_eqb (VInt a) (VInt b) = (a =? b).
Proof.
  simpl. unfold Qeq_bool. simpl. by rewrite !Z.mul_1_r.
Qed.

Lemma py_eqb_VInt_Q a b :
  py_eqb (VInt a) (VInt b) = Qeq_bool (inject_Z a) (inject_Z b).
Proof. done. Qed.

Lemma py_index_nat {A} (a : list A) (i : nat) x :
  a !! i = Some x -> py_index a (VInt (Z.of_nat i)) = Ok x.
Proof.
  intros Hx. unfold py_index.
  pose proof (lookup_lt_Some _ _ _ Hx) as Hlt.
  destruct (Z.of_nat i <? 0) eqn:Hneg; [apply Z.ltb_lt in Hneg; lia|].
  assert ((0 <=? Z.of_nat i) && (Z.of_nat i <? Z.of_nat (length a)) = true)
    as ->.
  { apply andb_true_iff. split; [apply Z.leb_le | apply Z.ltb_lt]; lia. }
  by rewrite Nat2Z.id, Hx.
Qed.

Lemma playing_outside frames q0 i (h : H5Run Frame) o :
  quiet o -> playing frames q0 i h ->
  playing frames q0 i
    (set_h5_self (set_vf_base (outside_step o (vf_base (h5_self h)))
                              (h5_self h)) h).
Proof.
  intros [Hk Hc] (H1 & H2 & H3 & H4 & H5 & H6).
  unfold playing. simpl. rewrite H1, H2, Hk, Hc. done.
Qed.

Lemma h5_iteration_playing frames q0 i (h : H5Run Frame) inp frame :
  playing frames q0 i h -> frames !! i = Some frame ->
  exists h',
    h5_iteration frames inp h = (Ok (negb (S i =? length frames)%nat), h') /\
    playing frames q0 (S i) h'.
Proof.
  intros (H1 & H2 & H3 & H4 & H5 & H6) Hf.
  assert (Hi : Z.of_nat i + 1 = Z.of_nat (S i)) by lia.
  assert (Hq : q0 ++ (Some <$> take (S i) frames) =
               (q0 ++ (Some <$> take i frames)) ++ [Some frame]).
  { rewrite (take_S_r _ _ _ Hf), fmap_app, app_assoc. done. }
  assert (Hend : Qeq_bool (inject_Z (Z.of_nat i + 1))
                          (inject_Z (Z.of_nat (length frames))) =
                 (S i =? length frames)%nat).
  { rewrite <- py_eqb_VInt_Q, py_eqb_VInt.
    destruct (S i =? length frames)%nat eqn:E.
    - apply Nat.eqb_eq in E. apply Z.eqb_eq. lia.
    - apply Nat.eqb_neq in E. apply Z.eqb_neq. lia. }
  destruct (S i =? length frames)%nat eqn:HN.
  all: unfold h5_iteration, h5_on_base, h5_on_self, bind, gets, modify,
         pure, lift.
  all: rewrite H1, H2; simpl; rewrite H5, (py_index_nat _ _ _ Hf); simpl.
  all: rewrite H3; simpl; rewrite Hend; simpl.
  - rewrite H4. eexists. split; [done|]. unfold playing, pace. simpl.
    destruct (pacing_sleep _ _ _); simpl; rewrite H1, H3, H4, H6, Hi, Hq; done.
  - eexists. split; [done|]. unfold playing, pace. simpl.
    destruct (pacing_sleep _ _ _); simpl; rewrite H1, H3, H4, H6, Hi, Hq; done.
Qed.

Lemma h5_loop_playing frames q0 :
  forall k i inputs (h : H5Run Frame),
    (i + S k = length frames)%nat ->
    playing frames q0 i h ->
    (S k <= length inputs)%nat ->
    Forall (fun oi : Outside * FileInput => quiet oi.1) inputs ->
    exists h',
      h5_loop frames inputs h = (Ok true, h') /\
      playing frames q0 (length frames) h'.
Proof.
  induction k as [|k IH]; intros i inputs h Hik Hplay Hlen Hquiet.
  all: destruct inputs as [|[o inp] rest]; [simpl in Hlen; lia|].
  all: apply Forall_cons in Hquiet as [Hq Hrest]; simpl in Hq.
  all: destruct (lookup_lt_is_Some_2 frames i ltac:(lia)) as [frame Hf].
  all: pose proof (playing_outside _ _ _ _ o Hq Hplay) as Hplay'.
  all: destruct (h5_iteration_playing _ _ _ _ inp frame Hplay' Hf)
         as (h1 & Hit & Hplay1).
  all: simpl; unfold bind at 1; unfold h5_on_base, h5_on_self, modify at 1.
  all: unfold bind; rewrite Hit.
  - assert ((S i =? length frames)%nat = true) as ->
      by (apply Nat.eqb_eq; lia).
    simpl. exists h1. split; [done|].
    by replace (length frames) with (S i) by lia.
  - assert ((S i =? length frames)%nat = false) as ->
      by (apply Nat.eqb_neq; lia).
    simpl. apply (IH (S i)); try done; [lia | simpl in Hlen; lia].
Qed.

(** C8: on an h5 file of N >= 1 frames, with [loop] false and the offset
    0 it has at construction, and as long as nobody pauses, kills or sends
    control messages, [run] puts the frames 0 to N-1 on the frame queue, in
    order and once each, and then returns: the loop is left after frame
    N-1 without raising, whatever inputs would follow. *)
Theorem h5_file_played_once_in_order
    (framedata : H5Data Frame) (capture : VideoCapture Frame)
    (inputs : list (Outside * FileInput)) (o : VideoFileSource Frame)
    (file : string) (h0 : H5Run Frame) :
  source_file o = Some file -> endswith file "h5" = true ->
  loop o = false -> offset o = VInt 0 -> py_truthy (paused o) = false ->
  kill_event (vf_base o) = false -> control_queue (vf_base o) = [] ->
  h5_start framedata o = Ok h0 ->
  h5_video framedata <> [] ->
  (length (h5_video framedata) <= length inputs)%nat ->
  Forall (fun oi : Outside * FileInput => quiet oi.1) inputs ->
  exists h',
    VideoFileSource_run channel0 framedata capture inputs o =
      RunH5 (Ok true, h') /\
    frame_queue (vf_base (h5_self h')) =
      frame_queue (vf_base o) ++ (Some <$> h5_video framedata).
Proof.
  intros Hfile Hh5 Hloop Hoff Hpaused Hkill Hctl Hstart Hne Hlen Hquiet.
  unfold VideoFileSource_run. rewrite Hfile, Hh5, Hstart.
  assert (Hh0 : h0 = mkH5Run o (h5_delta_t h0) (VInt 0) None).
  { unfold h5_start in Hstart.
    destruct (match framerate o with VNone => _ | _ => _ end);
      [|discriminate].
    injection Hstart as <-. simpl. by rewrite Hoff. }
  assert (Hplay : playing (h5_video framedata) (frame_queue (vf_base o)) 0 h0).
  { rewrite Hh0. unfold playing. simpl. by rewrite app_nil_r. }
  destruct (h5_video framedata) as [|f0 rest] eqn:Hv; [done|].
  destruct (h5_loop_playing (f0 :: rest) (frame_queue (vf_base o))
              (length rest) 0 inputs h0) as (h' & Hl & Hp'); try done.
  exists h'. split; [by rewrite Hl|].
  destruct Hp' as (_ & _ & _ & _ & _ & Hq). rewrite Hq.
  by rewrite firstn_all.
Qed.

End VideoFileSourceFacts.

(** ** Pacing *)

Lemma pacing_sleep_max t m now :
  slept (pacing_sleep t (Some m) now) = Qmax 0 (t - (now - m)).
Proof.
  unfold pacing_sleep, slept, Qmax, GenericMinMax.gmax.
  set (extrat := (t - (now - m))%Q).
  destruct (Qltb 0 extrat) eqn:E.
  - apply Qltb_true in E.
    assert (C : (0 ?= extrat)%Q = Lt) by (by apply Qlt_alt).
    by rewrite C.
  - apply Qltb_false in E.
    destruct (0 ?= extrat)%Q eqn:C; try done.
    assert (H : (0 < extrat)%Q) by (by apply Qlt_alt).
    exfalso. apply (Qlt_irrefl 0). eapply Qlt_le_trans; eauto.
Qed.

Lemma pacing_sleep_none_when_late t m now :
  (t <= now - m)%Q -> pacing_sleep t (Some m) now = None.
Proof.
  intros Hlate. unfold pacing_sleep.
  destruct (Qltb 0 (t - (now - m))) eqn:E; [|done].
  apply Qltb_true in E. lra.
Qed.

Lemma pace_sleeps {Frame} t prt now (v : VideoSource Frame) :
  sleeps (pace t prt now v) = sleeps v ++ option_list (pacing_sleep t prt now).
Proof.
  unfold pace. destruct (pacing_sleep t prt now); simpl;
    [done | by rewrite app_nil_r].
Qed.

(** One pass over an h5 file sleeps as [pacing_sleep] says, before the
    frame is put on the queue, and nowhere else. *)
Lemma h5_iteration_sleeps {Frame} frames inp (h : H5Run Frame) :
  kill_event (vf_base (h5_self h)) = false ->
  control_queue (vf_base (h5_self h)) = [] ->
  sleeps (vf_base (h5_self (h5_iteration frames inp h).2)) =
  sleeps (vf_base (h5_self h)) ++
  option_list (pacing_sleep (h5_delta_t h) (h5_prt h) (fin_now_pace inp)).
Proof.
  intros Hk Hc.
  unfold h5_iteration, h5_on_base, h5_on_self, bind, gets, modify, pure, lift.
  rewrite Hk, Hc. simpl.
  destruct (py_index frames (h5_i_frame h)) as [frame|e]; simpl;
    [|apply pace_sleeps].
  destruct (py_truthy (paused (h5_self h))); simpl.
  - destruct (py_eqb _ _); simpl; [destruct (loop (h5_self h)); simpl|];
      apply pace_sleeps.
  - destruct (py_succ (h5_i_frame h)) as [i'|e]; simpl; [|apply pace_sleeps].
    destruct (py_eqb _ _); simpl; [destruct (loop (h5_self h)); simpl|];
      apply pace_sleeps.
Qed.

Lemma h5_start_prt {Frame} framedata (o : VideoFileSource Frame) h :
  h5_start framedata o = Ok h -> h5_prt h = None.
Proof.
  unfold h5_start.
  destruct (match framerate o with VNone => _ | _ => _ end); [|discriminate].
  by intros [= <-].
Qed.

(** C3: the delay slept before the next emission, for the target interval
    [t], the last mark [m] and the clock reading [now], is
    [max(0, t - (now - m))]: it is never negative, no [sleep] is made when
    at least the interval has gone by since the mark, and none when the mark
    is unset. The replay branch of the camera loop and the h5 loop sleep
    exactly that and nothing else; the mark is unset when an h5 run starts
    and whenever the camera loop goes through its Live branch. *)
Theorem pacing_delay_is_clamped_remainder {Frame : Type} (t m now : Q) :
  slept (pacing_sleep t (Some m) now) = Qmax 0 (t - (now - m)) /\
  (0 <= slept (pacing_sleep t (Some m) now))%Q /\
  ((t <= now - m)%Q -> pacing_sleep t (Some m) now = None) /\
  pacing_sleep t None now = None /\
  (forall (inp : CameraInput Frame) (s : CameraSource Frame) rb fps,
      ring_buffer s = Some rb ->
      state s !! "replay_fps" = Some fps -> py_recip fps = Ok t ->
      in_now_pace inp = now ->
      exists s',
        replay_branch inp s = (Ok tt, s') /\
        sleeps (cs_base s') =
          sleeps (cs_base s) ++ option_list (pacing_sleep t (prt s) now)) /\
  (forall frames inp (h : H5Run Frame),
      kill_event (vf_base (h5_self h)) = false ->
      control_queue (vf_base (h5_self h)) = [] ->
      h5_delta_t h = t -> fin_now_pace inp = now ->
      sleeps (vf_base (h5_self (h5_iteration frames inp h).2)) =
        sleeps (vf_base (h5_self h)) ++
        option_list (pacing_sleep t (h5_prt h) now)) /\
  (forall arr (s s' : CameraSource Frame),
      live_branch arr s = (Ok tt, s') -> prt s' = None) /\
  (forall framedata (o : VideoFileSource Frame) h,
      h5_start framedata o = Ok h -> h5_prt h = None).
Proof.
  split; [apply pacing_sleep_max|].
  split; [rewrite pacing_sleep_max; apply Q.le_max_l|].
  split; [apply pacing_sleep_none_when_late|].
  split; [done|].
  split.
  { intros inp s rb fps Hrb Hfps Hdt <-.
    destruct (replay_branch_pacing inp s rb fps t Hrb Hfps Hdt)
      as (s' & Hr & Hs & _).
    by exists s'. }
  split.
  { intros frames inp h Hk Hc <- <-. by apply h5_iteration_sleeps. }
  split; [apply live_branch_unsets_prt | apply h5_start_prt].
Qed.

(** ** Release of the source *)

Section ReleaseFacts.
Context {Frame : Type}.
Variable rot90 : option Frame -> PyVal -> Result (option Frame).
Variable values_setter :
  gmap string PyVal -> ParamDict -> Result (gmap string PyVal).
Variable channel0 : Frame -> Frame.

(** C5, as the code has it: [CameraSource.run] calls [release()] on the
    camera once, after its loop, when the loop was left through the kill
    event; when an exception leaves the loop body, [run] ends without that
    call. [VideoFileSource.run] makes no release call on its capture,
    however it ends. *)
Theorem release_only_after_kill
    (msg : string) (cam_inputs : list (Outside * CameraInput Frame))
    (s : CameraSource Frame)
    (framedata : H5Data Frame) (capture : VideoCapture Frame)
    (file_inputs : list (Outside * FileInput)) (o : VideoFileSource Frame) :
  CamRelease ∉ cam s ->
  CapRelease ∉ cap_calls capture ->
  match CameraSource_run rot90 values_setter msg cam_inputs s with
  | (Ok true, s') =>
      (exists calls, cam s' = calls ++ [CamRelease] /\ CamRelease ∉ calls) /\
      kill_event (cs_base s') = true
  | (_, s') => CamRelease ∉ cam s'
  end /\
  match VideoFileSource_run channel0 framedata capture file_inputs o with
  | RunMovie (_, m) => CapRelease ∉ cap_calls (mv_cap m)
  | _ => True
  end.
Proof.
  intros Hs Hc. split.
  - apply (CameraSource_run_release rot90 values_setter msg cam_inputs s Hs).
  - unfold VideoFileSource_run.
    destruct (source_file o) as [file|]; [|done].
    destruct (endswith file "h5").
    + by destruct (h5_start framedata o).
    + destruct (mv_start capture o) as [m0|e] eqn:Hstart; [|done].
      pose proof (mv_start_not_released capture o m0 Hc Hstart) as Hm0.
      pose proof (mv_loop_not_released channel0 file_inputs m0 Hm0) as Hl.
      by destruct (mv_loop channel0 file_inputs m0) as [r m].
Qed.
End ReleaseFacts.

(** ** The drop policy at work *)

Lemma live_frame_dropped_at_threshold_witness :
  live_mode (state (camera_at_branch 1 false false)) /\
  n_consumers (cs_base (camera_at_branch 1 false false)) + 2 <=
    qsize (cs_base (camera_at_branch 1 false false)) /\
  exists s',
    dispatch (camera_reads (Some 4%nat)) (Some 4%nat)
             (camera_at_branch 1 false false) = (Ok tt, s') /\
    (forall s0,
        kill_event (cs_base s0) = false ->
        acquire rot90_numbered store_values (camera_reads (Some 4%nat)) s0 =
          (Ok (Some 4%nat), camera_at_branch 1 false false) ->
        CameraSource_iteration rot90_numbered store_values
          (camera_reads (Some 4%nat)) s0 = (Ok true, s')) /\
    frame_queue (cs_base s') =
      frame_queue (cs_base (camera_at_branch 1 false false)) /\
    frames_taken (cs_base s') =
      frames_taken (cs_base (camera_at_branch 1 false false)) /\
    message_queue (cs_base s') =
      message_queue (cs_base (camera_at_branch 1 false false)) ++
      ["W:Dropped frame"] /\
    sleeps (cs_base s') = sleeps (cs_base (camera_at_branch 1 false false)) /\
    ring_buffer s' =
      Some (RingBuffer_put (Some 4%nat)
              (RingBuffer_put (Some 2%nat)
                 (RingBuffer_put (Some 1%nat)
                    (mkRingBuffer 4 (replicate 4 None) 0 0)))).
Proof.
  assert (Hlive : live_mode (state (camera_at_branch 1 false false))).
  { exists (VBool false), (VBool false). repeat split; auto. }
  assert (Hfull : n_consumers (cs_base (camera_at_branch 1 false false)) + 2 <=
                  qsize (cs_base (camera_at_branch 1 false false))).
  { vm_compute. discriminate. }
  split; [exact Hlive|]. split; [exact Hfull|].
  apply (live_frame_dropped_at_threshold rot90_numbered store_values
           (camera_reads (Some 4%nat)) (camera_at_branch 1 false false)
           (RingBuffer_put (Some 2%nat)
              (RingBuffer_put (Some 1%nat)
                 (mkRingBuffer 4 (replicate 4 None) 0 0)))
           4%nat Hlive eq_refl Hfull).
Defined.

(** ** Where the code departs from the specification *)

(** C2, on the code: no iteration in which [paused] and [replay] are both
    true forwards the most recent frame. The branch on the mode does check
    Paused first, and a process that reached it with frames 1 and 2 in its
    buffer would put frame 2 on the frame queue; but an iteration gets to
    that branch only with the empty buffer it has just made, and then the
    error of [get_most_recent] ends the loop (whatever the process and its
    camera). In a run, after a Live iteration that buffered and forwarded
    frame 1, the iteration with both flags set raises at line 164 before
    the mode is looked at: frame 1 is the most recent frame and is not
    forwarded again. With both flags set from the start the run raises
    [ValueError] in its first iteration, where Replay alone goes on. *)
Theorem paused_iteration_raises_instead_of_forwarding
    (rot90 : option nat -> PyVal -> Result (option nat))
    (values_setter : gmap string PyVal -> ParamDict ->
                     Result (gmap string PyVal))
    (inp : CameraInput nat) (s0 : CameraSource nat) :
  (let r := CameraSource_run rot90_numbered store_values "ok"
              [(select_live, camera_reads (Some 1%nat));
               (select_paused_and_replay, camera_reads (Some 2%nat))]
              camera_new in
   r.1 = Raised (AttributeError "ring_buffer") /\
   state r.2 !! "paused" = Some (VBool true) /\
   state r.2 !! "replay" = Some (VBool true) /\
   RingBuffer_get_most_recent <$> ring_buffer r.2 = Some (Ok (Some 1%nat)) /\
   frame_queue (cs_base r.2) = [Some 1%nat] /\
   message_queue (cs_base r.2) = ["I:ok"]) /\
  (let r := CameraSource_run rot90_numbered store_values "ok"
              [(select_paused_and_replay, camera_reads (Some 1%nat));
               (nothing_outside, camera_reads (Some 2%nat))] camera_new in
   r.1 = Raised ValueError /\
   state r.2 !! "paused" = Some (VBool true) /\
   state r.2 !! "replay" = Some (VBool true) /\
   frame_queue (cs_base r.2) = [] /\
   message_queue (cs_base r.2) = ["I:ok"]) /\
  (let r := CameraSource_run rot90_numbered store_values "ok"
              [(select_replay, camera_reads (Some 1%nat))] camera_new in
   r.1 = Ok false /\
   frame_queue (cs_base r.2) = [] /\
   prt r.2 = Some 0%Q) /\
  (forall (s : CameraSource nat) (arr : option nat) (p q : PyVal),
      kill_event (cs_base s0) = false ->
      acquire rot90 values_setter inp s0 = (Ok arr, s) ->
      state s !! "paused" = Some p -> py_truthy p = true ->
      state s !! "replay" = Some q -> py_truthy q = true ->
      CameraSource_iteration rot90 values_setter inp s0 =
        (Raised ValueError, s) /\
      frame_queue (cs_base s) = frame_queue (cs_base s0)) /\
  (exists s',
      dispatch (camera_reads (Some 4%nat)) (Some 4%nat)
               (camera_at_branch 1 true true) = (Ok tt, s') /\
      frame_queue (cs_base s') =
        [Some 1%nat; Some 2%nat; Some 3%nat; Some 2%nat] /\
      ring_buffer s' = ring_buffer (camera_at_branch 1 true true) /\
      prt s' = None /\
      sleeps (cs_base s') = []).
Proof.
  split; [vm_compute; repeat split|].
  split; [vm_compute; repeat split|].
  split; [vm_compute; repeat split|].
  split.
  - intros s arr p q Hk Hacq Hp Htp _ _.
    destruct (paused_iteration_raises rot90 values_setter inp s0 s arr p
                Hk Hacq Hp Htp) as [Hit Hout].
    split; [exact Hit|]. unfold outputs in Hout. by injection Hout.
  - eexists. split; [reflexivity|]. done.
Qed.

(** C4, on the code: in Live mode a [None] read is not forwarded, but it is
    put into the ring buffer like a frame. Here the buffer holds frames 1
    and 2; after the branch its third slot holds [None], the write cursor
    has moved from 2 to 3, and the most recent entry is [None] instead of
    frame 2. *)
Theorem none_read_is_put_in_ring_buffer :
  exists rb s',
    ring_buffer (camera_at_branch 1 false false) = Some rb /\
    dispatch (camera_reads None) None (camera_at_branch 1 false false) =
      (Ok tt, s') /\
    frame_queue (cs_base s') =
      frame_queue (cs_base (camera_at_branch 1 false false)) /\
    message_queue (cs_base s') = [] /\
    ring_buffer s' = Some (RingBuffer_put None rb) /\
    rb_write rb = 2%nat /\
    rb_write (RingBuffer_put None rb) = 3%nat /\
    rb_slots rb = [Some (Some 1%nat); Some (Some 2%nat); None; None] /\
    rb_slots (RingBuffer_put None rb) =
      [Some (Some 1%nat); Some (Some 2%nat); Some None; None] /\
    RingBuffer_get_most_recent rb = Ok (Some 2%nat) /\
    RingBuffer_get_most_recent (RingBuffer_put None rb) = Ok None.
Proof.
  eexists. eexists. split; [reflexivity|]. split; [reflexivity|].
  repeat split.
Qed.

(** C6, on the code: once the process has a ring buffer, the check of line
    164 raises [AttributeError] whatever the configured length, so the
    buffer is neither kept nor recreated. A run in Live mode ends that way
    in its second iteration, with the length unchanged and with the length
    changed to 300 alike; the buffer made in the first iteration still has
    600 slots. *)
Theorem ring_buffer_check_raises_once_buffer_exists
    (s : CameraSource nat) (rb : RingBuffer nat) :
  (exists attr,
      ensure_ring_buffer (set_ring_buffer (Some rb) s) =
      (Raised (AttributeError attr), set_ring_buffer (Some rb) s)) /\
  (let r := CameraSource_run rot90_numbered store_values "ok"
              [(select_live, camera_reads (Some 1%nat));
               (nothing_outside, camera_reads (Some 2%nat))] camera_new in
   r.1 = Raised (AttributeError "ring_buffer") /\
   rb_length <$> ring_buffer r.2 = Some 600%nat /\
   frame_queue (cs_base r.2) = [Some 1%nat]) /\
  (let r := CameraSource_run rot90_numbered store_values "ok"
              [(select_live, camera_reads (Some 1%nat));
               (change_length, camera_reads (Some 2%nat))] camera_new in
   r.1 = Raised (AttributeError "ring_buffer") /\
   state r.2 !! "ring_buffer_length" = Some (VInt 300) /\
   rb_length <$> ring_buffer r.2 = Some 600%nat /\
   frame_queue (cs_base r.2) = [Some 1%nat]).
Proof.
  split; [by apply (ensure_ring_buffer_raises _ rb)|].
  split; vm_compute; repeat split.
Qed.

(** C7, on the code: the constructor ignores its argument and sets
    [n_consumers] to 1, so the threshold is 3 whatever was asked for. A
    source built with [n_consumers = 5] drops a Live frame when 3 items are
    pending, where 3 < 5 + 2. *)
Theorem admission_threshold_ignores_constructor_argument :
  (forall (rotation : PyVal) (max_mbytes_queue k : Z),
      n_consumers (VideoSource_init (Frame:=nat) rotation max_mbytes_queue k) = 1) /\
  n_consumers (cs_base (camera_at_branch 5 false false)) = 1 /\
  qsize (cs_base (camera_at_branch 5 false false)) = 3 /\
  exists s',
    dispatch (camera_reads (Some 4%nat)) (Some 4%nat)
             (camera_at_branch 5 false false) = (Ok tt, s') /\
    frame_queue (cs_base s') = [Some 1%nat; Some 2%nat; Some 3%nat] /\
    message_queue (cs_base s') = ["W:Dropped frame"].
Proof.
  split; [done|]. split; [done|]. split; [done|].
  eexists. split; [reflexivity|]. done.
Qed.

(** C5, against the claim as stated: three ways out of [run] on which no
    release call is made. The camera loop raises in its second Live
    iteration (line 164); it raises when paused before any frame was
    buffered; and a movie file played once ends normally. The calls made on
    the camera and on the capture are listed in full. *)
Lemma release_skipped_counterexample :
  CameraSource_run rot90_numbered store_values "ok"
    [(select_live, camera_reads (Some 1%nat));
     (nothing_outside, camera_reads (Some 2%nat))] camera_new
  = (Raised (AttributeError "ring_buffer"),
     (CameraSource_run rot90_numbered store_values "ok"
        [(select_live, camera_reads (Some 1%nat));
         (nothing_outside, camera_reads (Some 2%nat))] camera_new).2) /\
  cam (CameraSource_run rot90_numbered store_values "ok"
         [(select_live, camera_reads (Some 1%nat));
          (nothing_outside, camera_reads (Some 2%nat))] camera_new).2
  = [CamNew "XimeaCamera" (VInt 1)
       (VTuple [VInt (-1); VInt (-1); VInt (-1); VInt (-1)]);
     CamOpen; CamSet "paused" (VBool false); CamSet "replay" (VBool false);
     CamRead; CamRead] /\
  (CameraSource_run rot90_numbered store_values "ok"
     [(select_paused, camera_reads (Some 1%nat))] camera_new).1
  = Raised ValueError /\
  cam (CameraSource_run rot90_numbered store_values "ok"
         [(select_paused, camera_reads (Some 1%nat))] camera_new).2
  = [CamNew "XimeaCamera" (VInt 1)
       (VTuple [VInt (-1); VInt (-1); VInt (-1); VInt (-1)]);
     CamOpen; CamSet "paused" (VBool true); CamRead] /\
  exists m,
    VideoFileSource_run (fun frame : nat => frame) three_frames
      three_frame_movie (file_ticks 5) (play_once "movie.avi")
    = RunMovie (Ok true, m) /\
    frame_queue (vf_base (mv_self m)) = [Some 10%nat; Some 11%nat; Some 12%nat] /\
    cap_calls (mv_cap m) = [CapGetFps; CapRead; CapRead; CapRead; CapRead].
Proof.
  split; [by vm_compute|]. split; [by vm_compute|].
  split; [by vm_compute|]. split; [by vm_compute|].
  eexists. split; [vm_compute; reflexivity|]. by vm_compute.
Qed.

Lemma release_only_after_kill_witness :
  (CamRelease ∉ cam camera_new) /\
  (CapRelease ∉ cap_calls three_frame_movie) /\
  match CameraSource_run rot90_numbered store_values "ok"
          [(select_live, camera_reads (Some 1%nat));
           (mkOutside true [] 1, camera_reads (Some 2%nat))] camera_new with
  | (Ok true, s') =>
      (exists calls, cam s' = calls ++ [CamRelease] /\ CamRelease ∉ calls) /\
      kill_event (cs_base s') = true
  | (_, s') => CamRelease ∉ cam s'
  end /\
  match VideoFileSource_run (fun frame : nat => frame) three_frames
          three_frame_movie (file_ticks 5) (play_once "movie.avi") with
  | RunMovie (_, m) => CapRelease ∉ cap_calls (mv_cap m)
  | _ => True
  end.
Proof.
  assert (H1 : CamRelease ∉ cam camera_new) by apply not_elem_of_nil.
  assert (H2 : CapRelease ∉ cap_calls three_frame_movie)
    by apply not_elem_of_nil.
  split; [exact H1|]. split; [exact H2|].
  exact (release_only_after_kill rot90_numbered store_values
           (fun frame : nat => frame) "ok"
           [(select_live, camera_reads (Some 1%nat));
            (mkOutside true [] 1, camera_reads (Some 2%nat))] camera_new
           three_frames three_frame_movie (file_ticks 5)
           (play_once "movie.avi") H1 H2).
Defined.

Lemma h5_file_played_once_in_order_witness :
  h5_video three_frames <> [] /\
  (length (h5_video three_frames) <= length (file_ticks 5))%nat /\
  exists h',
    VideoFileSource_run (fun frame : nat => frame) three_frames
      three_frame_movie (file_ticks 5) (play_once "video.h5")
    = RunH5 (Ok true, h') /\
    frame_queue (vf_base (h5_self h')) =
      frame_queue (vf_base (play_once "video.h5")) ++
      (Some <$> h5_video three_frames).
Proof.
  assert (Hne : h5_video three_frames <> []) by discriminate.
  assert (Hlen : (length (h5_video three_frames) <= length (file_ticks 5))%nat)
    by (vm_compute; lia).
  split; [exact Hne|]. split; [exact Hlen|].
  apply (h5_file_played_once_in_order (fun frame : nat => frame)
           three_frames three_frame_movie (file_ticks 5)
           (play_once "video.h5") "video.h5"
           (mkH5Run (play_once "video.h5") (/ 30) (VInt 0) None)
           eq_refl eq_refl eq_refl eq_refl eq_refl eq_refl eq_refl eq_refl
           Hne Hlen).
  unfold file_ticks. apply Forall_replicate. by split.
Defined.

(** ** The pacing and the offset update at work *)

Lemma pacing_delay_is_clamped_remainder_witness :
  slept (pacing_sleep (1 # 15) (Some 10%Q) (1001 # 100)) =
    Qmax 0 ((1 # 15) - ((1001 # 100) - 10)) /\
  ((1 # 15) <= 11 - 10)%Q /\
  pacing_sleep (1 # 15) (Some 10%Q) 11%Q = None.
Proof.
  assert (Hlate : ((1 # 15) <= 11 - 10)%Q) by (vm_compute; discriminate).
  split;
    [exact (proj1 (pacing_delay_is_clamped_remainder (Frame:=nat)
                     (1 # 15) 10%Q (1001 # 100)))|].
  split; [exact Hlate|].
  exact (proj1 (proj2 (proj2 (pacing_delay_is_clamped_remainder (Frame:=nat)
                                (1 # 15) 10%Q 11%Q))) Hlate).
Defined.

Lemma offset_update_same_value_noop_witness :
  h5_apply_param "offset" (VInt 0) h5_before_frame_2 =
    (Ok tt, h5_before_frame_2) /\
  mv_apply_param "offset" (VFloat 0) movie_before_frame_2 =
    (Ok tt, movie_before_frame_2) /\
  exists m',
    mv_apply_param "offset" (VInt 1) movie_before_frame_2 = (Ok tt, m') /\
    cap_pos (mv_cap m') = Qfloor (inject_Z 1) /\
    offset (mv_self m') = VInt 1.
Proof.
  split;
    [exact (proj1 (offset_update_same_value_noop h5_before_frame_2
                     movie_before_frame_2 (VInt 0)) eq_refl)|].
  split;
    [exact (proj1 (proj2 (offset_update_same_value_noop h5_before_frame_2
                            movie_before_frame_2 (VFloat 0))) eq_refl)|].
  exact (proj2 (proj2 (proj2 (proj2
           (offset_update_same_value_noop h5_before_frame_2
              movie_before_frame_2 (VInt 1)))))
           (inject_Z 1) eq_refl eq_refl).
Defined.

(** * Further properties of the code *)

(** ** [CameraSource.run]: the branches, the control queue, the ways out *)

Section CameraSourceMore.
Context {Frame : Type}.
Variable rot90 : option Frame -> PyVal -> Result (option Frame).
Variable values_setter :
  gmap string PyVal -> ParamDict -> Result (gmap string PyVal).

(** X1: in Live mode, below the threshold of [n_consumers + 2] pending
    items, the frame just read is put on the frame queue, once and after the
    items already there, no warning is sent, and the ring buffer has
    received the frame; a set [replay] flag with a [replay_fps] that is not
    positive is Live mode too. *)
Theorem live_frame_forwarded_below_threshold
    (inp : CameraInput Frame) (s : CameraSource Frame)
    (rb : RingBuffer Frame) (frame : Frame) :
  live_mode (state s) ->
  ring_buffer s = Some rb ->
  qsize (cs_base s) < n_consumers (cs_base s) + 2 ->
  exists s',
    dispatch inp (Some frame) s = (Ok tt, s') /\
    frame_queue (cs_base s') = frame_queue (cs_base s) ++ [Some frame] /\
    frames_taken (cs_base s') = frames_taken (cs_base s) /\
    message_queue (cs_base s') = message_queue (cs_base s) /\
    sleeps (cs_base s') = sleeps (cs_base s) /\
    ring_buffer s' = Some (RingBuffer_put (Some frame) rb) /\
    prt s' = None.
Proof.
  intros Hlive Hrb Hroom.
  assert (Hq : (qsize (cs_base s) <? n_consumers (cs_base s) + 2) = true)
    by (by apply Z.ltb_lt).
  rewrite dispatch_live by done.
  rewrite (live_branch_frame s rb frame) by done. simpl. rewrite Hq.
  eexists. split; [done|]. simpl. repeat split.
Qed.

Lemma py_gt0_recip v :
  py_gt0 v = Ok true -> exists delta_t, py_recip v = Ok delta_t.
Proof.
  unfold py_gt0, py_recip. destruct (py_num v) as [q|]; [|discriminate].
  intros [= Hq]. apply Qltb_true in Hq.
  destruct (Qeq_bool q 0) eqn:E; [|eauto].
  apply Qeq_bool_eq in E. rewrite E in Hq. by apply Qlt_irrefl in Hq.
Qed.

(** X2: in Replay mode the frame just read from the camera is neither
    buffered nor forwarded. The loop forwards the frame [get()] returns and
    keeps the advanced buffer; when [get()] raises on an empty history the
    error is swallowed, nothing is forwarded, the buffer stays as it is,
    and the loop goes on. The mark [prt] is set either way. *)
Theorem replay_forwards_history_or_skips
    (inp : CameraInput Frame) (s : CameraSource Frame)
    (rb : RingBuffer Frame) (arr : option Frame) :
  replay_mode (state s) ->
  ring_buffer s = Some rb ->
  exists s',
    dispatch inp arr s = (Ok tt, s') /\
    match RingBuffer_get rb with
    | Ok (item, rb') =>
        frame_queue (cs_base s') = frame_queue (cs_base s) ++ [item] /\
        ring_buffer s' = Some rb'
    | Raised _ =>
        frame_queue (cs_base s') = frame_queue (cs_base s) /\
        ring_buffer s' = Some rb
    end /\
    message_queue (cs_base s') = message_queue (cs_base s) /\
    prt s' = Some (in_now_mark inp).
Proof.
  intros (p & r & fps & Hp & Htp & Hr & Htr & Hfps & Hgt) Hrb.
  destruct (py_gt0_recip fps Hgt) as [delta_t Hdt].
  unfold dispatch, replay_branch, the_ring_buffer, getattr_state, on_base, pace,
    except_ValueError_pass, bind, gets, modify, pure, lift.
  rewrite Hp, Htp, Hr, Htr, Hfps, Hgt, Hrb. simpl.
  destruct (RingBuffer_get rb) as [[item rb']|e] eqn:Hget; simpl.
  - rewrite Hfps, Hdt. simpl. eexists. split; [done|].
    destruct (pacing_sleep delta_t (prt s) (in_now_pace inp)); done.
  - apply RingBuffer_get_raises in Hget as ->.
    rewrite Hfps, Hdt. simpl. eexists. split; [done|].
    destruct (pacing_sleep delta_t (prt s) (in_now_pace inp)); done.
Qed.

(** X3: when the kill event is set as an iteration starts, [run] leaves
    the loop at once: no control message is taken off the queue, the camera
    is not read, no frame is put anywhere, and the camera is released. *)
Theorem kill_stops_before_any_work
    (msg cls : string) (o : Outside) (inp : CameraInput Frame)
    (rest : list (Outside * CameraInput Frame)) (s : CameraSource Frame) :
  camera_class_dict !! camera_type s = Some cls ->
  kill_event (cs_base s) || out_kill o = true ->
  exists s',
    CameraSource_run rot90 values_setter msg ((o, inp) :: rest) s =
      (Ok true, s') /\
    cam s' = cam s ++ [CamNew cls (downsampling s) (roi s); CamOpen; CamRelease] /\
    control_queue (cs_base s') = control_queue (cs_base s) ++ out_control o /\
    frame_queue (cs_base s') = frame_queue (cs_base s) /\
    message_queue (cs_base s') =
      message_queue (cs_base s) ++ [("I:" ++ msg)%string] /\
    ring_buffer s' = ring_buffer s /\
    state s' = state s.
Proof.
  intros Hcls Hkill.
  unfold CameraSource_run, CameraSource_loop, CameraSource_iteration,
    on_base, cam_call, bind, gets, modify, pure.
  rewrite Hcls. simpl. rewrite Hkill. simpl.
  eexists. split; [done|]. simpl.
  rewrite <- !app_assoc. done.
Qed.

(** X4: a camera type that is not one of the four keys of
    [camera_class_dict] makes [run] raise
    ["<type> is not a valid camera type!"] before anything else happens:
    no camera is made or opened, no message is sent. *)
Theorem unknown_camera_type_raises
    (msg : string) (inputs : list (Outside * CameraInput Frame))
    (s : CameraSource Frame) :
  camera_type s ∉ ["ximea"; "avt"; "spinnaker"; "mikrotron"] ->
  CameraSource_run rot90 values_setter msg inputs s =
    (Raised (Exception (camera_type s ++ " is not a valid camera type!")), s).
Proof.
  intros Hct.
  assert (Hnone : camera_class_dict !! camera_type s = None).
  { unfold camera_class_dict. apply not_elem_of_list_to_map_1. exact Hct. }
  unfold CameraSource_run, bind, gets, raise. by rewrite Hnone.
Qed.

(** Draining any list of pending messages. *)
Lemma drain_control_queue_all
    (Hsetter : forall st d, exists st', values_setter st d = Ok st')
    (pending : list ParamDict) :
  forall s : CameraSource Frame,
  exists s',
    drain_control_queue values_setter pending s = (Ok tt, s') /\
    control_queue (cs_base s') =
      match pending with [] => control_queue (cs_base s) | _ => [] end /\
    cam s' = cam s ++ cam_sets pending /\
    ring_buffer s' = ring_buffer s.
Proof.
  induction pending as [|d rest IH]; intros s.
  - exists s. simpl. unfold cam_sets. simpl. by rewrite app_nil_r.
  - assert (Hitems : forall items (s2 : CameraSource Frame),
               cam_set_items items s2 =
               (Ok tt, set_cam (cam s2 ++
                  ((fun kv : string * PyVal => CamSet kv.1 kv.2) <$> items)) s2)).
    { induction items as [|[k v] items IHi]; intros s2; simpl.
      - rewrite app_nil_r. by destruct s2.
      - unfold cam_call, bind, modify. rewrite IHi. simpl.
        by rewrite <- app_assoc. }
    simpl. unfold on_base, bind, gets, modify, lift. cbn [state set_cs_base].
    destruct (Hsetter (state s) d) as [st' Hst]. rewrite Hst, Hitems.
    match goal with
    | |- context [drain_control_queue values_setter rest ?s1] =>
        destruct (IH s1) as (s' & Hd & Hq & Hc & Hrb)
    end.
    exists s'. split; [exact Hd|]. split.
    { rewrite Hq. by destruct rest. }
    split; [|by rewrite Hrb].
    rewrite Hc. simpl. unfold cam_sets. simpl.
    by rewrite fmap_app, app_assoc.
Qed.

(** X5: as long as the values setter accepts the messages, the pending
    control messages are all taken off the queue, oldest first, and every
    item of every message is passed to [self.cam.set], in the order of the
    messages and of their items; the queues of frames and messages are not
    touched. *)
Theorem control_messages_all_forwarded_in_order
    (s : CameraSource Frame) :
  (forall st d, exists st', values_setter st d = Ok st') ->
  exists s',
    drain_control_queue values_setter (control_queue (cs_base s)) s = (Ok tt, s') /\
    control_queue (cs_base s') = [] /\
    cam s' = cam s ++ cam_sets (control_queue (cs_base s)) /\
    outputs s' = outputs s.
Proof.
  intros Hsetter.
  destruct (drain_control_queue_all Hsetter (control_queue (cs_base s)) s)
    as (s' & Hd & Hq & Hc & _).
  exists s'. split; [exact Hd|]. split.
  { rewrite Hq. by destruct (control_queue (cs_base s)). }
  split; [exact Hc|].
  pose proof (drain_control_queue_outputs values_setter (outputs s)
                (control_queue (cs_base s)) s eq_refl) as Hout.
  by rewrite Hd in Hout.
Qed.

(** Once the process has a ring buffer it keeps one. *)
Lemma drain_control_queue_has_buffer pending :
  invariant (fun s : CameraSource Frame => is_Some (ring_buffer s))
            (drain_control_queue values_setter pending).
Proof.
  induction pending as [|d rest IH]; simpl; unfold on_base; inv_auto; try done.
  clear. induction d as [|[k v] items IHi]; simpl; unfold cam_call; inv_auto.
  done.
Qed.

Lemma dispatch_has_buffer inp arr :
  invariant (fun s : CameraSource Frame => is_Some (ring_buffer s))
            (dispatch inp arr).
Proof.
  unfold dispatch, paused_branch, replay_branch, live_branch,
    the_ring_buffer, getattr_state, on_base.
  inv_auto; try done; simpl; eauto.
Qed.

Lemma acquire_raises_with_buffer inp (s : CameraSource Frame) :
  is_Some (ring_buffer s) ->
  exists e, (acquire rot90 values_setter inp s).1 = Raised e.
Proof.
  intros Hrb.
  destruct (acquire rot90 values_setter inp s) as [[arr|e] s1] eqn:Hacq;
    [|eauto].
  exfalso. unfold acquire in Hacq.
  apply bind_Ok_inv in Hacq as (v & s2 & Hv & H).
  unfold gets in Hv. injection Hv as <- <-.
  apply bind_Ok_inv in H as ([] & s3 & Hd & H).
  pose proof (drain_control_queue_has_buffer (control_queue (cs_base s)) s Hrb)
    as H3. rewrite Hd in H3. simpl in H3.
  apply bind_Ok_inv in H as ([] & s4 & Hc & H).
  unfold cam_call, modify in Hc. injection Hc as <-.
  apply bind_Ok_inv in H as (arr' & s5 & Hr & H).
  assert (Hs5 : s5 = set_cam (cam s3 ++ [CamRead]) s3).
  { destruct (py_truthy (rotation (cs_base s))).
    - unfold lift in Hr. by injection Hr.
    - unfold pure in Hr. by injection Hr. }
  apply bind_Ok_inv in H as ([] & s6 & He & _).
  destruct H3 as [rb Hrb3].
  destruct (ensure_ring_buffer_raises s5 rb) as [attr Hraise].
  { by rewrite Hs5. }
  congruence.
Qed.

(** X6: the camera loop does not get through a second iteration. An
    iteration that completes leaves the process with a ring buffer, and
    with a ring buffer the check of line 164 raises; so on two or more
    iterations [run]'s loop either raises or is stopped by the kill event,
    and never is still going. *)
Theorem loop_raises_or_is_killed_by_second_iteration
    (inputs : list (Outside * CameraInput Frame)) (s : CameraSource Frame) :
  (2 <= length inputs)%nat ->
  (exists e, (CameraSource_loop rot90 values_setter inputs s).1 = Raised e) \/
  ((CameraSource_loop rot90 values_setter inputs s).1 = Ok true /\
   kill_event (cs_base (CameraSource_loop rot90 values_setter inputs s).2) = true).
Proof.
  intros Hlen.
  destruct inputs as [|[o1 i1] [|[o2 i2] rest]]; simpl in Hlen; try lia.
  destruct (CameraSource_loop rot90 values_setter ((o1, i1) :: (o2, i2) :: rest) s)
    as [[[]|e] sf] eqn:Hloop.
  - right. split; [done|]. simpl.
    by apply (CameraSource_loop_break rot90 values_setter) in Hloop.
  - exfalso. revert Hloop.
    cbn [CameraSource_loop]. unfold bind at 1. unfold on_base at 1, modify at 1.
    set (s0 := set_cs_base _ s). unfold bind at 1.
    destruct (CameraSource_iteration rot90 values_setter i1 s0)
      as [[[]|e] s1] eqn:Hit1; [|by unfold pure|done].
    assert (Hrb1 : is_Some (ring_buffer s1)).
    { destruct (kill_event (cs_base s0)) eqn:Hk.
      - unfold CameraSource_iteration, bind, gets, pure in Hit1.
        rewrite Hk in Hit1. discriminate.
      - rewrite CameraSource_iteration_alive in Hit1 by done.
        destruct (acquire rot90 values_setter i1 s0) as [[arr|e] sa] eqn:Hacq;
          [|discriminate].
        destruct (acquire_Ok _ _ _ _ _ _ Hacq) as [rb Hrb].
        pose proof (dispatch_has_buffer i1 arr sa (mk_is_Some _ _ Hrb)) as Hd.
        destruct (dispatch i1 arr sa) as [[[]|e] sd]; [|discriminate].
        injection Hit1 as <-. exact Hd. }
    unfold bind at 1. unfold on_base at 1, modify at 1.
    set (s1' := set_cs_base _ s1). unfold bind at 1.
    destruct (kill_event (cs_base s1')) eqn:Hk.
    + unfold CameraSource_iteration, bind, gets, pure. by rewrite Hk.
    + rewrite CameraSource_iteration_alive by done.
      destruct (acquire_raises_with_buffer i2 s1') as [e He]; [exact Hrb1|].
      destruct (acquire rot90 values_setter i2 s1') as [[arr|e'] sa];
        simpl in He; [discriminate|done].
  - left. eauto.
Qed.

End CameraSourceMore.

(** ** [VideoFileSource.run]: movies, looping, pausing, control messages *)

Section VideoFileSourceMore.
Context {Frame : Type}.
Variable channel0 : Frame -> Frame.

Lemma movie_playing_outside frames q0 i (m : MovieRun Frame) o :
  quiet o -> movie_playing channel0 frames q0 i m ->
  movie_playing channel0 frames q0 i
    (set_mv_self (set_vf_base (outside_step o (vf_base (mv_self m)))
                              (mv_self m)) m).
Proof.
  intros [Hk Hc] (H1 & H2 & H3 & H4 & H5 & H6 & H7 & H8).
  unfold movie_playing. simpl. rewrite H1, H2, Hk, Hc. done.
Qed.

(** A frame is read, its channel 0 is put on the queue, the loop goes on. *)
Lemma mv_iteration_playing frames q0 i (m : MovieRun Frame) inp frame :
  movie_playing channel0 frames q0 i m -> frames !! i = Some frame ->
  exists m',
    mv_iteration channel0 inp m = (Ok true, m') /\
    movie_playing channel0 frames q0 (S i) m'.
Proof.
  intros (H1 & H2 & H3 & H4 & H5 & H6 & H7 & H8) Hf.
  assert (Hq : q0 ++ ((fun f => Some (channel0 f)) <$> take (S i) frames) =
               (q0 ++ ((fun f => Some (channel0 f)) <$> take i frames)) ++
               [Some (channel0 frame)]).
  { rewrite (take_S_r _ _ _ Hf), fmap_app, app_assoc. done. }
  unfold mv_iteration, cap_read, mv_get_control, mv_on_base, mv_on_self,
    bind, gets, modify, pure.
  rewrite H5, H1. simpl. rewrite H3. simpl.
  rewrite H7, H6.
  assert ((0 <=? Z.of_nat i) = true) as -> by (apply Z.leb_le; lia).
  rewrite Nat2Z.id, Hf. simpl. rewrite H2. simpl.
  eexists. split; [done|]. unfold movie_playing, pace. simpl.
  destruct (pacing_sleep _ _ _); simpl;
    rewrite H1, H2, H3, H4, H8, Hq; repeat split; lia.
Qed.

(** Past the last frame the read fails and, without [loop], the loop is
    left with nothing more on the queue. *)
Lemma mv_iteration_end frames q0 (m : MovieRun Frame) inp :
  movie_playing channel0 frames q0 (length frames) m ->
  exists m',
    mv_iteration channel0 inp m = (Ok false, m') /\
    frame_queue (vf_base (mv_self m')) =
      q0 ++ ((fun f => Some (channel0 f)) <$> frames).
Proof.
  intros (H1 & H2 & H3 & H4 & H5 & H6 & H7 & H8).
  unfold mv_iteration, cap_read, mv_get_control, mv_on_base, mv_on_self,
    bind, gets, modify, pure.
  rewrite H5, H1. simpl. rewrite H3. simpl.
  rewrite H7, H6.
  assert ((0 <=? Z.of_nat (length frames)) = true) as ->
    by (apply Z.leb_le; lia).
  rewrite Nat2Z.id, (lookup_ge_None_2 frames (length frames)) by lia.
  simpl. rewrite H2. simpl. rewrite H4.
  eexists. split; [done|]. unfold pace. simpl.
  rewrite firstn_all in H8.
  destruct (pacing_sleep _ _ _); simpl; by rewrite H8.
Qed.

Lemma mv_loop_playing frames q0 :
  forall k i inputs (m : MovieRun Frame),
    (i + k = length frames)%nat ->
    movie_playing channel0 frames q0 i m ->
    (S k <= length inputs)%nat ->
    Forall (fun oi : Outside * FileInput => quiet oi.1) inputs ->
    exists m',
      mv_loop channel0 inputs m = (Ok true, m') /\
      frame_queue (vf_base (mv_self m')) =
        q0 ++ ((fun f => Some (channel0 f)) <$> frames).
Proof.
  induction k as [|k IH]; intros i inputs m Hik Hplay Hlen Hquiet.
  all: destruct inputs as [|[o inp] rest]; [simpl in Hlen; lia|].
  all: apply Forall_cons in Hquiet as [Hq Hrest]; simpl in Hq.
  all: pose proof (movie_playing_outside _ _ _ _ o Hq Hplay) as Hplay'.
  all: simpl; unfold bind at 1; unfold mv_on_base, mv_on_self, modify at 1.
  all: unfold bind.
  - replace i with (length frames) in Hplay' by lia.
    destruct (mv_iteration_end _ _ _ inp Hplay') as (m1 & Hit & Hfq).
    rewrite Hit. simpl. by exists m1.
  - destruct (lookup_lt_is_Some_2 frames i ltac:(lia)) as [frame Hf].
    destruct (mv_iteration_playing _ _ _ _ inp frame Hplay' Hf)
      as (m1 & Hit & Hplay1).
    rewrite Hit. simpl. apply (IH (S i)); try done; [lia | simpl in Hlen; lia].
Qed.

(** X7: a movie file of N >= 0 frames, played from its start with [loop]
    false and nobody pausing, killing or sending control messages: [run]
    puts channel 0 of the frames 0 to N-1 on the frame queue, in order and
    once each, and returns without raising after the read that fails past
    the last frame. An empty movie gives nothing and no error. *)
Theorem movie_file_played_once_in_order
    (framedata : H5Data Frame) (capture : VideoCapture Frame)
    (inputs : list (Outside * FileInput)) (o : VideoFileSource Frame)
    (file : string) (m0 : MovieRun Frame) :
  source_file o = Some file -> endswith file "h5" = false ->
  loop o = false -> py_truthy (paused o) = false ->
  kill_event (vf_base o) = false -> control_queue (vf_base o) = [] ->
  mv_start capture o = Ok m0 ->
  cap_pos capture = 0 ->
  (S (length (cap_frames capture)) <= length inputs)%nat ->
  Forall (fun oi : Outside * FileInput => quiet oi.1) inputs ->
  exists m',
    VideoFileSource_run channel0 framedata capture inputs o =
      RunMovie (Ok true, m') /\
    frame_queue (vf_base (mv_self m')) =
      frame_queue (vf_base o) ++
      ((fun f => Some (channel0 f)) <$> cap_frames capture).
Proof.
  intros Hfile Hh5 Hloop Hpaused Hkill Hctl Hstart Hpos Hlen Hquiet.
  unfold VideoFileSource_run. rewrite Hfile, Hh5, Hstart.
  assert (Hplay : movie_playing channel0 (cap_frames capture)
                    (frame_queue (vf_base o)) 0 m0).
  { unfold mv_start in Hstart. unfold movie_playing.
    destruct (framerate o);
      try (destruct (py_recip _); [|discriminate]);
      injection Hstart as <-; simpl; rewrite app_nil_r; done. }
  destruct (mv_loop_playing (cap_frames capture) (frame_queue (vf_base o))
              (length (cap_frames capture)) 0 inputs m0)
    as (m' & Hl & Hq'); try done.
  exists m'. by rewrite Hl.
Qed.

Lemma py_index_nil {A} (i : PyVal) : py_index (@nil A) i = Raised IndexError.
Proof.
  destruct i; try done. simpl. by repeat case_match.
Qed.

(** X8: an h5 file whose video has no frame makes [run] raise
    [IndexError] in its first iteration, at [frames[i_frame]], whatever the
    integer the offset is; nothing is put on the frame queue. *)
Theorem h5_empty_video_raises_IndexError
    (framedata : H5Data Frame) (capture : VideoCapture Frame)
    (o1 : Outside) (inp : FileInput) (rest : list (Outside * FileInput))
    (o : VideoFileSource Frame) (file : string) (h0 : H5Run Frame) (z : Z) :
  source_file o = Some file -> endswith file "h5" = true ->
  h5_start framedata o = Ok h0 ->
  h5_video framedata = [] ->
  offset o = VInt z ->
  kill_event (vf_base o) = false -> control_queue (vf_base o) = [] ->
  quiet o1 ->
  exists h',
    VideoFileSource_run channel0 framedata capture ((o1, inp) :: rest) o =
      RunH5 (Raised IndexError, h') /\
    frame_queue (vf_base (h5_self h')) = frame_queue (vf_base o).
Proof.
  intros Hfile Hh5 Hstart Hempty _ Hkill Hctl [Hk Hc].
  unfold VideoFileSource_run. rewrite Hfile, Hh5, Hstart, Hempty.
  assert (Hh0 : h5_self h0 = o).
  { unfold h5_start in Hstart.
    destruct (match framerate o with VNone => _ | _ => _ end);
      [|discriminate].
    by injection Hstart as <-. }
  simpl. unfold h5_iteration, h5_on_base, h5_on_self, bind, gets, modify,
    pure, lift. simpl.
  rewrite Hh0, Hkill, Hctl, Hk, Hc. simpl. rewrite py_index_nil.
  eexists. split; [done|]. unfold pace. simpl.
  by destruct (pacing_sleep _ _ _).
Qed.

Lemma h5_apply_items_loop items :
  forall b, invariant (fun h : H5Run Frame => loop (h5_self h) = b)
                      (h5_apply_items items).
Proof.
  intros b. induction items as [|[name value] rest IH]; simpl; [inv_auto|].
  apply invariant_bind; [|done].
  unfold h5_apply_param, h5_on_self. inv_auto; done.
Qed.

Lemma h5_drain_control_queue_loop pending :
  forall b, invariant (fun h : H5Run Frame => loop (h5_self h) = b)
                      (h5_drain_control_queue pending).
Proof.
  intros b. induction pending as [|d rest IH]; simpl;
    unfold h5_on_base, h5_on_self; inv_auto; try done.
  apply h5_apply_items_loop.
Qed.

(** X9: with [loop] true the h5 loop is never left at the end of the
    file: whatever the control messages, an iteration that starts with the
    kill event unset either goes on or raises. *)
Theorem looping_h5_source_is_only_stopped_by_kill
    (frames : list Frame) (inp : FileInput) (h : H5Run Frame) :
  loop (h5_self h) = true ->
  kill_event (vf_base (h5_self h)) = false ->
  (h5_iteration frames inp h).1 = Ok true \/
  exists e, (h5_iteration frames inp h).1 = Raised e.
Proof.
  intros Hloop Hkill.
  pose proof (h5_drain_control_queue_loop
                (control_queue (vf_base (h5_self h))) true h Hloop) as Hl.
  unfold h5_iteration, h5_on_base, h5_on_self, bind, gets, modify, pure, lift.
  rewrite Hkill.
  destruct (h5_drain_control_queue _ h) as [[[]|e] h1] eqn:Hd;
    simpl in Hl; simpl; [|eauto].
  destruct (py_index frames (h5_i_frame h1)) as [frame|e]; simpl; [|eauto].
  destruct (py_truthy (paused (h5_self h1))); simpl.
  - destruct (py_eqb _ _); simpl; [rewrite Hl|]; auto.
  - destruct (py_succ (h5_i_frame h1)) as [i'|e]; simpl; [|eauto].
    destruct (py_eqb _ _); simpl; [rewrite Hl|]; auto.
Qed.

(** X10: with [loop] true, the iteration that plays the last frame of an
    h5 file puts that frame on the queue and sets the frame index to the
    current [offset] (not to 0), and the loop goes on. *)
Theorem looping_h5_source_wraps_to_offset
    (frames : list Frame) (inp : FileInput) (h : H5Run Frame)
    (i : nat) (frame : Frame) :
  kill_event (vf_base (h5_self h)) = false ->
  control_queue (vf_base (h5_self h)) = [] ->
  py_truthy (paused (h5_self h)) = false ->
  loop (h5_self h) = true ->
  h5_i_frame h = VInt (Z.of_nat i) ->
  frames !! i = Some frame ->
  S i = length frames ->
  exists h',
    h5_iteration frames inp h = (Ok true, h') /\
    h5_i_frame h' = offset (h5_self h) /\
    frame_queue (vf_base (h5_self h')) =
      frame_queue (vf_base (h5_self h)) ++ [Some frame].
Proof.
  intros H1 H2 H3 H4 H5 Hf Hlast.
  assert (Hend : Qeq_bool (inject_Z (Z.of_nat i + 1))
                          (inject_Z (Z.of_nat (length frames))) = true).
  { rewrite <- py_eqb_VInt_Q, py_eqb_VInt. apply Z.eqb_eq. lia. }
  unfold h5_iteration, h5_on_base, h5_on_self, bind, gets, modify, pure, lift.
  rewrite H1, H2; simpl; rewrite H5, (py_index_nat _ _ _ Hf); simpl.
  rewrite H3; simpl; rewrite Hend; simpl. rewrite H4.
  eexists. split; [done|]. unfold pace. simpl.
  by destruct (pacing_sleep _ _ _).
Qed.

(** X11: with [loop] true, when the read fails at the end of a movie the
    capture is set back to frame 0, whatever the [offset]; that iteration
    puts no frame on the queue and leaves [old_frame] as [None]. *)
Theorem looping_movie_rewinds_to_start
    (inp : FileInput) (m : MovieRun Frame) :
  kill_event (vf_base (mv_self m)) = false ->
  control_queue (vf_base (mv_self m)) = [] ->
  mv_ret m = true ->
  py_truthy (paused (mv_self m)) = false ->
  loop (mv_self m) = true ->
  cap_pos (mv_cap m) = Z.of_nat (length (cap_frames (mv_cap m))) ->
  exists m',
    mv_iteration channel0 inp m = (Ok true, m') /\
    cap_pos (mv_cap m') = 0 /\
    frame_queue (vf_base (mv_self m')) = frame_queue (vf_base (mv_self m)) /\
    old_frame (mv_self m') = None /\
    offset (mv_self m') = offset (mv_self m) /\
    mv_ret m' = true.
Proof.
  intros H1 H2 H5 H3 H4 H7.
  unfold mv_iteration, cap_read, cap_set_pos, mv_get_control, mv_on_base,
    mv_on_self, bind, gets, modify, pure.
  rewrite H5, H1. simpl. rewrite H3. simpl. rewrite H7.
  assert ((0 <=? Z.of_nat (length (cap_frames (mv_cap m)))) = true) as ->
    by (apply Z.leb_le; lia).
  rewrite Nat2Z.id, (lookup_ge_None_2 _ (length (cap_frames (mv_cap m)))) by lia.
  simpl. rewrite H2. simpl. rewrite H4. simpl.
  eexists. split; [done|]. unfold pace. simpl.
  by destruct (pacing_sleep _ _ _).
Qed.

(** X12: while an h5 source is paused, an iteration puts the current
    frame on the queue again and leaves the frame index where it is. *)
Theorem paused_h5_source_repeats_frame
    (frames : list Frame) (inp : FileInput) (h : H5Run Frame)
    (i : nat) (frame : Frame) :
  kill_event (vf_base (h5_self h)) = false ->
  control_queue (vf_base (h5_self h)) = [] ->
  py_truthy (paused (h5_self h)) = true ->
  h5_i_frame h = VInt (Z.of_nat i) ->
  frames !! i = Some frame ->
  exists h',
    h5_iteration frames inp h = (Ok true, h') /\
    h5_i_frame h' = h5_i_frame h /\
    frame_queue (vf_base (h5_self h')) =
      frame_queue (vf_base (h5_self h)) ++ [Some frame].
Proof.
  intros H1 H2 H3 H5 Hf.
  pose proof (lookup_lt_Some _ _ _ Hf) as Hlt.
  assert (Hend : Qeq_bool (inject_Z (Z.of_nat i))
                          (inject_Z (Z.of_nat (length frames))) = false).
  { rewrite <- py_eqb_VInt_Q, py_eqb_VInt. apply Z.eqb_neq. lia. }
  unfold h5_iteration, h5_on_base, h5_on_self, bind, gets, modify, pure, lift.
  rewrite H1, H2; simpl; rewrite H5, (py_index_nat _ _ _ Hf); simpl.
  rewrite H3; simpl. rewrite H5. simpl. rewrite Hend. simpl.
  eexists. split; [done|]. unfold pace. simpl.
  by destruct (pacing_sleep _ _ _).
Qed.

(** X13: while a movie source is paused, an iteration does not touch the
    capture: it puts channel 0 of [old_frame] on the queue again. When
    there is no old frame (as after a rewind), slicing [None] raises
    [TypeError] and nothing is put on the queue. *)
Theorem paused_movie_source_repeats_old_frame
    (inp : FileInput) (m : MovieRun Frame) :
  kill_event (vf_base (mv_self m)) = false ->
  control_queue (vf_base (mv_self m)) = [] ->
  mv_ret m = true ->
  py_truthy (paused (mv_self m)) = true ->
  match old_frame (mv_self m) with
  | Some frame =>
      exists m',
        mv_iteration channel0 inp m = (Ok true, m') /\
        mv_cap m' = mv_cap m /\
        old_frame (mv_self m') = Some frame /\
        frame_queue (vf_base (mv_self m')) =
          frame_queue (vf_base (mv_self m)) ++ [Some (channel0 frame)]
  | None =>
      exists m',
        mv_iteration channel0 inp m = (Raised TypeError, m') /\
        mv_cap m' = mv_cap m /\
        frame_queue (vf_base (mv_self m')) = frame_queue (vf_base (mv_self m))
  end.
Proof.
  intros H1 H2 H5 H3.
  unfold mv_iteration, mv_get_control, mv_on_base, mv_on_self,
    bind, gets, modify, pure, raise.
  rewrite H5, H1. simpl. rewrite H3. simpl. rewrite H2. simpl.
  destruct (old_frame (mv_self m)) as [frame|]; simpl.
  - eexists. split; [done|]. unfold pace. simpl.
    by destruct (pacing_sleep _ _ _).
  - eexists. split; [done|]. unfold pace. simpl.
    by destruct (pacing_sleep _ _ _).
Qed.

(** X14: a control message that starts with a [framerate] of zero makes
    the h5 loop raise [ZeroDivisionError] (only [Empty] is caught around
    the updates): the message is off the queue, the later messages stay on
    it, and no frame is put on the frame queue. *)
Theorem zero_framerate_update_raises
    (frames : list Frame) (inp : FileInput) (h : H5Run Frame)
    (value : PyVal) (q : Q) (items : ParamDict) (rest : list ParamDict) :
  kill_event (vf_base (h5_self h)) = false ->
  control_queue (vf_base (h5_self h)) = (("framerate", value) :: items) :: rest ->
  py_num value = Some q -> (q == 0)%Q ->
  exists h',
    h5_iteration frames inp h = (Raised ZeroDivisionError, h') /\
    control_queue (vf_base (h5_self h')) = rest /\
    frame_queue (vf_base (h5_self h')) = frame_queue (vf_base (h5_self h)) /\
    h5_delta_t h' = h5_delta_t h.
Proof.
  intros Hk Hc Hnum Hq.
  assert (Hrecip : py_recip value = Raised ZeroDivisionError).
  { unfold py_recip. rewrite Hnum.
    by rewrite (proj2 (Qeq_bool_iff q 0) Hq). }
  unfold h5_iteration, bind at 1, gets at 1. rewrite Hk, Hc.
  cbn [h5_drain_control_queue h5_apply_items].
  unfold h5_apply_param, h5_on_base, h5_on_self, bind, gets, modify, pure, lift.
  simpl. rewrite Hrecip. eexists. split; [done|]. done.
Qed.

Lemma h5_apply_items_control_queue items :
  forall x, invariant
              (fun h : H5Run Frame => control_queue (vf_base (h5_self h)) = x)
              (h5_apply_items items).
Proof.
  intros x. induction items as [|[name value] rest IH]; simpl; [inv_auto|].
  apply invariant_bind; [|done].
  unfold h5_apply_param, h5_on_self. inv_auto; done.
Qed.

Lemma h5_drain_control_queue_Ok pending :
  forall (h h' : H5Run Frame),
    h5_drain_control_queue pending h = (Ok tt, h') ->
    control_queue (vf_base (h5_self h')) =
      match pending with
      | [] => control_queue (vf_base (h5_self h))
      | _ => []
      end.
Proof.
  induction pending as [|d rest IH]; intros h h'; simpl.
  - unfold pure. by intros [= <-].
  - unfold h5_on_base, h5_on_self, bind, modify.
    set (h1 := set_h5_self _ h).
    pose proof (h5_apply_items_control_queue d rest h1 eq_refl) as Hitems.
    destruct (h5_apply_items d h1) as [[[]|e] h2]; [|discriminate].
    simpl in Hitems. intros Hd. apply IH in Hd. rewrite Hd, Hitems.
    by destruct rest.
Qed.

Lemma mv_apply_items_control_queue items :
  forall x, invariant
              (fun m : MovieRun Frame => control_queue (vf_base (mv_self m)) = x)
              (mv_apply_items items).
Proof.
  intros x. induction items as [|[name value] rest IH]; simpl; [inv_auto|].
  apply invariant_bind; [|done].
  unfold mv_apply_param, cap_set_pos, mv_on_self. inv_auto; done.
Qed.

(** X15: an h5 iteration that completes has taken every pending control
    message off the queue, while a movie iteration that completes has
    taken one message at most, the oldest: the others wait for the next
    iterations. *)
Theorem control_messages_per_iteration
    (frames : list Frame) (inp : FileInput)
    (h h' : H5Run Frame) (m m' : MovieRun Frame) (b b' : bool) :
  kill_event (vf_base (h5_self h)) = false ->
  h5_iteration frames inp h = (Ok b, h') ->
  kill_event (vf_base (mv_self m)) = false -> mv_ret m = true ->
  mv_iteration channel0 inp m = (Ok b', m') ->
  control_queue (vf_base (h5_self h')) = [] /\
  control_queue (vf_base (mv_self m')) = tail (control_queue (vf_base (mv_self m))).
Proof.
  intros Hk Hit Hkm Hret Hmit. split.
  - revert Hit.
    unfold h5_iteration, h5_on_base, h5_on_self, bind, gets, modify, pure, lift.
    rewrite Hk.
    destruct (h5_drain_control_queue _ h) as [[[]|e] h1] eqn:Hd;
      [|discriminate].
    apply h5_drain_control_queue_Ok in Hd.
    assert (Hq : control_queue (vf_base (h5_self h1)) = [])
      by (rewrite Hd; by destruct (control_queue (vf_base (h5_self h)))).
    simpl.
    destruct (py_index frames (h5_i_frame h1)) as [frame|e]; simpl;
      [|discriminate].
    destruct (py_truthy (paused (h5_self h1))); simpl.
    + destruct (py_eqb _ _); simpl; [destruct (loop (h5_self h1)); simpl|];
        intros [= <- <-]; simpl; unfold pace;
        by destruct (pacing_sleep _ _ _).
    + destruct (py_succ (h5_i_frame h1)) as [i'|e]; simpl; [|discriminate].
      destruct (py_eqb _ _); simpl; [destruct (loop (h5_self h1)); simpl|];
        intros [= <- <-]; simpl; unfold pace;
        by destruct (pacing_sleep _ _ _).
  - revert Hmit.
    unfold mv_iteration, bind at 1, gets at 1. rewrite Hret.
    unfold bind at 1, gets at 1. rewrite Hkm. simpl.
    unfold bind at 1, gets at 1. unfold bind at 1.
    set (rd := if py_truthy (paused (mv_self m)) then _ else _).
    assert (Hrd : control_queue (vf_base (mv_self (rd m).2)) =
                  control_queue (vf_base (mv_self m)) /\
                  exists rf, (rd m).1 = Ok rf).
    { subst rd. destruct (py_truthy (paused (mv_self m))).
      - unfold bind, gets, pure. simpl. eauto.
      - unfold cap_read, bind, gets, modify, pure.
        destruct (if 0 <=? cap_pos (mv_cap m) then _ else _); simpl; eauto. }
    destruct Hrd as [Hq [rf Hrf]].
    destruct (rd m) as [r m1]. simpl in Hq, Hrf. subst r.
    unfold bind at 1, modify at 1. unfold bind at 1.
    unfold mv_get_control at 1. unfold bind at 1 2, gets at 1.
    cbn [mv_self set_mv_ret].
    rewrite Hq.
    destruct (control_queue (vf_base (mv_self m))) as [|d rest] eqn:Hcq.
    + unfold pure at 1.
      unfold mv_on_base, mv_on_self, cap_set_pos, bind, gets, modify, pure, raise.
      simpl.
      destruct rf.1; simpl.
      * destruct rf.2; [|discriminate]. intros [= <- <-]. simpl. unfold pace.
        destruct (pacing_sleep _ _ _); simpl; by rewrite Hq.
      * destruct (loop (mv_self m1)); simpl; intros [= <- <-]; simpl;
          unfold pace; destruct (pacing_sleep _ _ _); simpl; by rewrite Hq.
    + unfold mv_on_base at 1, mv_on_self at 1, modify at 1.
      set (m2 := set_mv_self _ _).
      pose proof (mv_apply_items_control_queue d rest m2 eq_refl) as Hitems.
      destruct (mv_apply_items d m2) as [[[]|e] m3]; [|discriminate].
      simpl in Hitems.
      unfold mv_on_base, mv_on_self, cap_set_pos, bind, gets, modify, pure, raise.
      simpl.
      destruct rf.1; simpl.
      * destruct rf.2; [|discriminate]. intros [= <- <-]. simpl. unfold pace.
        destruct (pacing_sleep _ _ _); simpl; by rewrite Hitems.
      * destruct (loop (mv_self m3)); simpl; intros [= <- <-]; simpl;
          unfold pace; destruct (pacing_sleep _ _ _); simpl; by rewrite Hitems.
Qed.

End VideoFileSourceMore.

(** ** The framerate widgets *)

Lemma py_min_le a b : (py_min a b <= a)%Q /\ (py_min a b <= b)%Q.
Proof.
  unfold py_min. destruct (Qltb b a) eqn:E.
  - apply Qltb_true in E. split; [by apply Qlt_le_weak | apply Qle_refl].
  - apply Qltb_false in E. split; [apply Qle_refl | done].
Qed.

Lemma py_max_ge a b : (a <= py_max a b)%Q /\ (b <= py_max a b)%Q.
Proof.
  unfold py_max. destruct (Qltb a b) eqn:E.
  - apply Qltb_true in E. split; [by apply Qlt_le_weak | apply Qle_refl].
  - apply Qltb_false in E. split; [apply Qle_refl | done].
Qed.

Lemma py_min_nonneg a b : (0 <= a)%Q -> (0 <= b)%Q -> (0 <= py_min a b)%Q.
Proof. intros Ha Hb. unfold py_min. by destruct (Qltb b a). Qed.

(** The bounds of lines 58-62 enclose non-negative framerates and differ. *)
Lemma bounds_enclose (a b : Q) :
  (0 <= a)%Q -> (0 <= b)%Q ->
  let min_bound := Qfloor (py_min a b * (8 # 10) / 10) * 10 in
  let max_bound := Qceiling (py_max a b * (12 # 10) / 10) * 10 in
  let max_bound := if max_bound =? min_bound then max_bound + 1 else max_bound in
  min_bound < max_bound /\
  (inject_Z min_bound <= a <= inject_Z max_bound)%Q /\
  (inject_Z min_bound <= b <= inject_Z max_bound)%Q.
Proof.
  intros Ha Hb.
  pose proof (py_min_le a b) as [Hma Hmb].
  pose proof (py_max_ge a b) as [HMa HMb].
  pose proof (py_min_nonneg a b Ha Hb) as Hm0.
  set (m := py_min a b) in *. set (M := py_max a b) in *.
  pose proof (Qfloor_le (m * (8 # 10) / 10)) as Hfl.
  pose proof (Qle_ceiling (M * (12 # 10) / 10)) as Hce.
  set (lo := Qfloor (m * (8 # 10) / 10)) in *.
  set (hi := Qceiling (M * (12 # 10) / 10)) in *.
  assert (Hlo : (inject_Z (lo * 10) <= m)%Q).
  { rewrite inject_Z_mult. change (inject_Z 10) with 10%Q.
    unfold Qdiv in Hfl. change (/ 10)%Q with (1 # 10)%Q in Hfl. lra. }
  assert (Hhi : (M <= inject_Z (hi * 10))%Q).
  { rewrite inject_Z_mult. change (inject_Z 10) with 10%Q.
    unfold Qdiv in Hce. change (/ 10)%Q with (1 # 10)%Q in Hce. lra. }
  assert (Hle : lo * 10 <= hi * 10).
  { rewrite Zle_Qle. lra. }
  cbv zeta.
  destruct (hi * 10 =? lo * 10) eqn:E.
  - apply Z.eqb_eq in E.
    assert (Hhi' : (M <= inject_Z (hi * 10 + 1))%Q).
    { rewrite inject_Z_plus. change (inject_Z 1) with 1%Q. lra. }
    split; [lia|]. split; split; lra.
  - apply Z.eqb_neq in E. split; [lia|]. split; split; lra.
Qed.

(** The division of lines 64-65 is defined whenever the bounds differ. *)
Lemma py_div_Ok (x : Q) (lo hi : Z) :
  hi <> lo ->
  py_div (x - inject_Z lo) (inject_Z (hi - lo)) =
    Ok ((x - inject_Z lo) / inject_Z (hi - lo))%Q.
Proof.
  intros Hne. unfold py_div.
  destruct (Qeq_bool (inject_Z (hi - lo)) 0) eqn:E; [|done].
  apply Qeq_bool_iff in E. change 0%Q with (inject_Z 0) in E.
  rewrite inject_Z_injective in E. lia.
Qed.

Lemma bounds_differ (lo hi : Z) :
  (if hi =? lo then hi + 1 else hi) <> lo.
Proof. destruct (hi =? lo) eqn:E; [lia | by apply Z.eqb_neq in E]. Qed.

(** A position between the bounds is drawn between the borders. *)
Lemma py_int_between (x : Q) (lo hi W : Z) :
  lo < hi -> (inject_Z lo <= x <= inject_Z hi)%Q -> 0 <= W ->
  0 <= py_int (inject_Z 0 + (x - inject_Z lo) / inject_Z (hi - lo)
                             * inject_Z W) <= W.
Proof.
  intros Hlt [Hlo Hhi] HW.
  set (d := inject_Z (hi - lo)).
  assert (Hd : (0 < d)%Q).
  { subst d. change 0%Q with (inject_Z 0). rewrite <- Zlt_Qlt. lia. }
  assert (Hdv : (d == inject_Z hi - inject_Z lo)%Q).
  { subst d. unfold Z.sub. rewrite inject_Z_plus, inject_Z_opp. ring. }
  set (loc := ((x - inject_Z lo) / d)%Q).
  assert (H0 : (0 <= loc)%Q).
  { subst loc. apply Qle_shift_div_l; [done|]. lra. }
  assert (H1 : (loc <= 1)%Q).
  { subst loc. apply Qle_shift_div_r; [done|]. lra. }
  assert (HWq : (0 <= inject_Z W)%Q).
  { change 0%Q with (inject_Z 0). by rewrite <- Zle_Qle. }
  assert (Hp0 : (0 <= inject_Z 0 + loc * inject_Z W)%Q).
  { change (inject_Z 0) with 0%Q. rewrite Qplus_0_l.
    by apply Qmult_le_0_compat. }
  assert (Hp1 : (inject_Z 0 + loc * inject_Z W <= inject_Z W)%Q).
  { change (inject_Z 0) with 0%Q. rewrite Qplus_0_l.
    rewrite <- (Qmult_1_l (inject_Z W)) at 2.
    by apply Qmult_le_compat_r. }
  unfold py_int.
  rewrite (proj2 (Qle_bool_iff _ _) Hp0).
  split.
  - change 0 with (Qfloor (inject_Z 0)) at 1. by apply Qfloor_resp_le.
  - rewrite <- (Qfloor_Z W) at 2. by apply Qfloor_resp_le.
Qed.

Section WidgetFacts.
Variable accs : nat -> Accumulator.
Variable text_width : string -> Z.
Variable format_1f : Q -> string.
Variable str : Z -> string.

Lemma py_num_not_None v a : py_num v = Some a -> is_None v = false.
Proof. by destruct v. Qed.

(** What [paintEvent] paints for two numbers. *)
Lemma paint_bounds_numbers (size : Z * Z) (w : FramerateWidget) (a b : Q) :
  py_num (fps w) = Some a -> py_num (g_fps w) = Some b ->
  let lo := Qfloor (py_min a b * (8 # 10) / 10) * 10 in
  let hi0 := Qceiling (py_max a b * (12 # 10) / 10) * 10 in
  let hi := if hi0 =? lo then hi0 + 1 else hi0 in
  let at_ (x : Q) :=
    py_int (inject_Z 0 + (x - inject_Z lo) / inject_Z (hi - lo)
                         * inject_Z (size.1 - 6 - 0)) in
  paint_bounds text_width format_1f str size w =
    (Ok tt,
     mkFramerateWidget (acc w) (g_fps w) (fps w) (set_fps w)
       (painted w ++
        [PBegin] ++
        ((if set_fps w then
            [PSetPen (if Qltb a b then indicator_red else indicator_green) None;
             PDrawLine (at_ a) 17 (at_ a) (size.2 - 6);
             PDrawText ((size.1 - 6 + 0 - text_width (format_1f a)) / 2) 16
                       (format_1f a)]
          else []) ++
         [PSetPen goal_color (Some 3);
          PDrawLine (at_ b) 17 (at_ b) (size.2 - 6);
          PSetPen limit_color None;
          PDrawLine 0 22 0 (size.2 - 6);
          PDrawLine (size.1 - 6) 22 (size.1 - 6) (size.2 - 6);
          PDrawText 0 16 (str lo);
          PDrawText (size.1 - 6 - text_width (str hi)) 16 (str hi)]) ++
        [PEnd])).
Proof.
  intros Ha Hb lo hi0 hi at_.
  pose proof (py_num_not_None _ _ Ha) as Hf.
  pose proof (py_num_not_None _ _ Hb) as Hg.
  unfold paint_bounds.
  unfold bind at 1, paint at 1, modify at 1.
  unfold bind at 1, gets at 1. cbn [fps].
  unfold bind at 1, gets at 1. cbn [g_fps].
  rewrite Ha, Hb. fold lo. fold hi0. fold hi.
  rewrite !(py_div_Ok _ lo hi) by apply bounds_differ.
  unfold bind at 1, lift at 1. unfold bind at 1, lift at 1.
  unfold bind at 1, gets at 1. cbn [set_fps].
  rewrite Hf, Hg, andb_true_r. cbn [negb andb].
  change (16 + 6 - 5) with 17. change (16 + 6) with 22.
  destruct (set_fps w);
    cbv [bind paint modify pure painted acc g_fps fps set_fps];
    rewrite <- ?app_assoc; reflexivity.
Qed.

(** Without numbers nothing is drawn. *)
Lemma paint_bounds_TypeError (size : Z * Z) (w : FramerateWidget) :
  py_num (fps w) = None \/ py_num (g_fps w) = None ->
  paint_bounds text_width format_1f str size w =
    (Raised TypeError,
     mkFramerateWidget (acc w) (g_fps w) (fps w) (set_fps w)
                       (painted w ++ [PBegin])).
Proof.
  intros H. unfold paint_bounds.
  unfold bind at 1, paint at 1, modify at 1.
  unfold bind at 1, gets at 1. cbn [fps].
  unfold bind at 1, gets at 1. cbn [g_fps].
  destruct (py_num (fps w)), (py_num (g_fps w)), H; done.
Qed.

(** X16: a widget whose goal framerate is not a number (it is [None] for
    an accumulator without a goal) cannot be painted once it has anything
    to show: [paintEvent] raises [TypeError] after [p.begin] and before
    any drawing, and [p.end()] is not called. The test on [g_fps] before
    the goal line is therefore never reached with [None]. *)
Theorem paintEvent_without_goal_raises
    (size : Z * Z) (w : FramerateWidget) :
  py_num (g_fps w) = None ->
  fps w <> VNone \/ g_fps w <> VNone ->
  exists w',
    paintEvent text_width format_1f str size w = (Raised TypeError, w') /\
    painted w' = painted w ++ [PBegin].
Proof.
  intros Hg Hsome. unfold paintEvent, bind at 1, gets at 1.
  destruct (is_None (fps w)) eqn:Hf.
  - unfold bind at 1, gets at 1.
    destruct (is_None (g_fps w)) eqn:Hn.
    + destruct (fps w), (g_fps w), Hsome; done.
    + cbn [negb]. unfold bind, modify.
      rewrite paint_bounds_TypeError by (right; exact Hg).
      eexists. split; [done|]. done.
  - rewrite paint_bounds_TypeError by (right; exact Hg).
    eexists. split; [done|]. done.
Qed.

(** X17: for non-negative framerates and a widget at least as wide as the
    padding, [paintEvent] completes, between [p.begin] and [p.end()], and
    every line it draws is vertical and lies between the left border and
    the right padding: the bounds computed from 0.8 and 1.2 times the
    framerates enclose both values. *)
Theorem paintEvent_lines_inside_widget
    (size : Z * Z) (w : FramerateWidget) (a b : Q) :
  py_num (fps w) = Some a -> py_num (g_fps w) = Some b ->
  (0 <= a)%Q -> (0 <= b)%Q -> 6 <= size.1 ->
  exists w' calls,
    paintEvent text_width format_1f str size w = (Ok tt, w') /\
    painted w' = painted w ++ [PBegin] ++ calls ++ [PEnd] /\
    Forall (line_inside size) calls.
Proof.
  intros Ha Hb Ha0 Hb0 Hw.
  unfold paintEvent, bind at 1, gets at 1.
  rewrite (py_num_not_None _ _ Ha).
  rewrite (paint_bounds_numbers size w a b Ha Hb). cbv zeta.
  destruct (bounds_enclose a b Ha0 Hb0) as (Hlt & Hin_a & Hin_b).
  cbv zeta in Hlt, Hin_a, Hin_b.
  set (lo := Qfloor (py_min a b * (8 # 10) / 10) * 10) in *.
  set (hi := if _ =? lo then _ else _) in *.
  assert (HW : 0 <= size.1 - 6 - 0) by lia.
  pose proof (py_int_between a lo hi _ Hlt Hin_a HW) as Hat_a.
  pose proof (py_int_between b lo hi _ Hlt Hin_b HW) as Hat_b.
  eexists. eexists. split; [reflexivity|]. cbn [painted].
  split; [reflexivity|].
  apply Forall_app. split.
  - destruct (set_fps w); repeat constructor; cbn [line_inside]; lia.
  - repeat constructor; cbn [line_inside]; lia.
Qed.

(** X18: when the accumulator has no data, or its latest value is [None],
    an update followed by a paint event never sets the pen of the
    indicator line, in either colour, whatever was measured before and
    however the paint event ends. *)
Theorem no_indicator_without_measurement
    (size : Z * Z) (w : FramerateWidget) :
  last (acc_data (accs (acc w))) = None \/
  last (acc_data (accs (acc w))) = Some VNone ->
  exists calls,
    painted (paintEvent text_width format_1f str size
               (FramerateWidget_update accs w)).2 = painted w ++ calls /\
    Forall (fun c => indicator_pen c = false) calls.
Proof.
  intros Hlast.
  set (u := FramerateWidget_update accs w).
  assert (Hu : set_fps u = false /\ painted u = painted w).
  { subst u. unfold FramerateWidget_update. cbn [acc put_set_fps].
    destruct Hlast as [-> | ->]; done. }
  destruct Hu as [Hset Hp]. rewrite <- Hp. clearbody u. clear Hp Hlast w.
  assert (Hb : forall v : FramerateWidget,
             set_fps v = false ->
             exists calls,
               painted (paint_bounds text_width format_1f str size v).2 =
                 painted v ++ calls /\
               Forall (fun c => indicator_pen c = false) calls).
  { intros v Hv.
    destruct (py_num (fps v)) as [a|] eqn:Ha;
      [destruct (py_num (g_fps v)) as [b|] eqn:Hb|].
    - rewrite (paint_bounds_numbers size v a b Ha Hb). cbv zeta.
      rewrite Hv. cbn [snd painted]. eexists. split; [reflexivity|].
      repeat constructor.
    - rewrite paint_bounds_TypeError by (by right).
      eexists. split; [reflexivity|]. repeat constructor.
    - rewrite paint_bounds_TypeError by (by left).
      eexists. split; [reflexivity|]. repeat constructor. }
  unfold paintEvent, bind at 1, gets at 1.
  destruct (is_None (fps u)).
  - unfold bind at 1, gets at 1. destruct (is_None (g_fps u)); cbn [negb].
    + exists []. split; [by rewrite app_nil_r|constructor].
    + unfold bind, modify.
      destruct (Hb (put_fps (g_fps u) u) Hset) as (calls & Hc & Hall).
      exists calls. split; [exact Hc|exact Hall].
  - apply Hb, Hset.
Qed.

(** X19: after an update that reads a number from the accumulator, a
    widget with a numeric goal is painted to the end for every value,
    negative ones included (the bounds never coincide, so the divisions
    are defined), and the indicator pen is red exactly when the measured
    framerate is below the goal, green otherwise. *)
Theorem indicator_is_red_below_goal
    (size : Z * Z) (w : FramerateWidget) (v : PyVal) (a b : Q) :
  last (acc_data (accs (acc w))) = Some v ->
  py_num v = Some a -> py_num (g_fps w) = Some b ->
  exists w' calls,
    paintEvent text_width format_1f str size (FramerateWidget_update accs w)
      = (Ok tt, w') /\
    fps w' = v /\
    painted w' = painted w ++ [PBegin] ++ calls ++ [PEnd] /\
    PSetPen (if Qltb a b then indicator_red else indicator_green) None
      ∈ calls /\
    PSetPen (if Qltb a b then indicator_green else indicator_red) None
      ∉ calls.
Proof.
  intros Hlast Ha Hb.
  set (u := FramerateWidget_update accs w).
  assert (Hu : fps u = v /\ g_fps u = g_fps w /\ set_fps u = true /\
               painted u = painted w).
  { subst u. unfold FramerateWidget_update. cbn [acc put_set_fps].
    rewrite Hlast. cbn. by rewrite (py_num_not_None _ _ Ha). }
  destruct Hu as (Hf & Hg & Hset & Hp).
  rewrite <- Hf in Ha. rewrite <- Hg in Hb. rewrite <- Hp, <- Hf.
  clearbody u. clear Hp Hg Hf Hlast.
  unfold paintEvent, bind at 1, gets at 1.
  rewrite (py_num_not_None _ _ Ha).
  rewrite (paint_bounds_numbers size u a b Ha Hb). cbv zeta. rewrite Hset.
  eexists. eexists.
  split; [reflexivity|]. cbn [painted fps]. split; [reflexivity|]. split.
  - reflexivity.
  - split.
    + apply elem_of_app. left. apply elem_of_cons. by left.
    + intros Hin.
      repeat (apply elem_of_cons in Hin as [Hin|Hin];
              [by destruct (Qltb a b)|]).
      by apply elem_of_nil in Hin.
Qed.

(** X20: after any accumulators were added to a new
    [MultiFrameratesWidget], the layout holds a label and a framerate
    widget for each of them, in the order they were added, with one
    40 x 10 spacer between two accumulators and none before the first or
    after the last: [3 n - 1] items for [n >= 1] accumulators; each widget
    starts on the goal framerate of its accumulator with no indicator. *)
Theorem add_framerate_layout (refs : list nat) :
  fr_widgets (foldl (add_framerate accs) MultiFrameratesWidget_init refs) =
    FramerateWidget_init accs <$> refs /\
  layout (foldl (add_framerate accs) MultiFrameratesWidget_init refs) =
    layout_of accs refs /\
  length (layout (foldl (add_framerate accs) MultiFrameratesWidget_init refs))
    = (3 * length refs - 1)%nat.
Proof.
  assert (H : let m := foldl (add_framerate accs) MultiFrameratesWidget_init
                             refs in
              fr_widgets m = FramerateWidget_init accs <$> refs /\
              layout m = layout_of accs refs).
  { induction refs as [|a l IH] using rev_ind; [done|].
    cbv zeta in *. rewrite foldl_app. cbn [foldl].
    destruct IH as [IHw IHl].
    remember (foldl (add_framerate accs) MultiFrameratesWidget_init l) as m
      eqn:Hm.
    clear Hm. unfold add_framerate. cbn [fr_widgets layout].
    rewrite IHw, IHl, fmap_app, length_fmap. split; [done|].
    unfold layout_of. rewrite imap_app, concat_app. cbn [imap concat].
    rewrite app_nil_r, Nat.add_0_r.
    destruct l as [|a0 l0]; [done|].
    cbn [length Nat.ltb Nat.leb imap concat app tail].
    rewrite <- !app_assoc. reflexivity. }
  cbv zeta in H. destruct H as [Hw Hl]. split; [done|]. split; [done|].
  rewrite Hl. unfold layout_of.
  assert (Hlen : forall (f : nat -> nat -> list LayoutItem) (l : list nat),
             (forall i a, length (f i a) = 3%nat) ->
             length (concat (imap f l)) = (3 * length l)%nat).
  { intros f l. revert f. induction l as [|a l IH]; intros f Hf; [done|].
    cbn [imap concat]. rewrite length_app, Hf, IH; [simpl; lia|].
    intros i x. apply Hf. }
  specialize (Hlen (fun i a => [LSpacer 40 10; LLabel (acc_name (accs a));
                                LWidget i]) refs (fun _ _ => eq_refl)).
  destruct (concat _) eqn:E; simpl in *; lia.
Qed.

End WidgetFacts.

(** ** The further properties at work *)

Lemma live_frame_forwarded_below_threshold_witness :
  live_mode (state camera_after_consumers) /\
  qsize (cs_base camera_after_consumers) <
    n_consumers (cs_base camera_after_consumers) + 2 /\
  exists s',
    dispatch (camera_reads (Some 4%nat)) (Some 4%nat) camera_after_consumers
      = (Ok tt, s') /\
    frame_queue (cs_base s') =
      frame_queue (cs_base camera_after_consumers) ++ [Some 4%nat] /\
    frames_taken (cs_base s') = frames_taken (cs_base camera_after_consumers) /\
    message_queue (cs_base s') = message_queue (cs_base camera_after_consumers) /\
    sleeps (cs_base s') = sleeps (cs_base camera_after_consumers) /\
    ring_buffer s' =
      Some (RingBuffer_put (Some 4%nat)
              (RingBuffer_put (Some 2%nat)
                 (RingBuffer_put (Some 1%nat)
                    (mkRingBuffer 4 (replicate 4 None) 0 0)))) /\
    prt s' = None.
Proof.
  assert (Hlive : live_mode (state camera_after_consumers)).
  { exists (VBool false), (VBool false). repeat split; auto. }
  assert (Hbelow : qsize (cs_base camera_after_consumers) <
                   n_consumers (cs_base camera_after_consumers) + 2).
  { vm_compute. reflexivity. }
  split; [exact Hlive|]. split; [exact Hbelow|].
  apply (live_frame_forwarded_below_threshold
           (camera_reads (Some 4%nat)) camera_after_consumers
           (RingBuffer_put (Some 2%nat)
              (RingBuffer_put (Some 1%nat)
                 (mkRingBuffer 4 (replicate 4 None) 0 0)))
           4%nat Hlive eq_refl Hbelow).
Defined.

Lemma replay_forwards_history_or_skips_witness :
  replay_mode (state (camera_at_branch 1 false true)) /\
  exists s',
    dispatch (camera_reads (Some 4%nat)) (Some 4%nat)
             (camera_at_branch 1 false true) = (Ok tt, s') /\
    match RingBuffer_get
            (RingBuffer_put (Some 2%nat)
               (RingBuffer_put (Some 1%nat)
                  (mkRingBuffer 4 (replicate 4 None) 0 0))) with
    | Ok (item, rb') =>
        frame_queue (cs_base s') =
          frame_queue (cs_base (camera_at_branch 1 false true)) ++ [item] /\
        ring_buffer s' = Some rb'
    | Raised _ =>
        frame_queue (cs_base s') =
          frame_queue (cs_base (camera_at_branch 1 false true)) /\
        ring_buffer s' =
          Some (RingBuffer_put (Some 2%nat)
                  (RingBuffer_put (Some 1%nat)
                     (mkRingBuffer 4 (replicate 4 None) 0 0)))
    end /\
    message_queue (cs_base s') =
      message_queue (cs_base (camera_at_branch 1 false true)) /\
    prt s' = Some (in_now_mark (camera_reads (Some 4%nat))).
Proof.
  assert (Hreplay : replay_mode (state (camera_at_branch 1 false true))).
  { exists (VBool false), (VBool true), (VInt 15). repeat split; auto. }
  split; [exact Hreplay|].
  apply (replay_forwards_history_or_skips
           (camera_reads (Some 4%nat)) (camera_at_branch 1 false true)
           (RingBuffer_put (Some 2%nat)
              (RingBuffer_put (Some 1%nat)
                 (mkRingBuffer 4 (replicate 4 None) 0 0)))
           (Some 4%nat) Hreplay eq_refl).
Defined.

Lemma kill_stops_before_any_work_witness :
  camera_class_dict !! camera_type camera_new = Some "XimeaCamera" /\
  exists s',
    CameraSource_run rot90_numbered store_values "Grabbing"
      [(mkOutside true [[("exposure", VInt 5)]] 0, camera_reads (Some 1%nat))]
      camera_new = (Ok true, s') /\
    cam s' = cam camera_new ++
             [CamNew "XimeaCamera" (downsampling camera_new) (roi camera_new);
              CamOpen; CamRelease] /\
    control_queue (cs_base s') =
      control_queue (cs_base camera_new) ++ [[("exposure", VInt 5)]] /\
    frame_queue (cs_base s') = frame_queue (cs_base camera_new) /\
    message_queue (cs_base s') =
      message_queue (cs_base camera_new) ++ ["I:Grabbing"] /\
    ring_buffer s' = ring_buffer camera_new /\
    state s' = state camera_new.
Proof.
  assert (Hcls : camera_class_dict !! camera_type camera_new
                 = Some "XimeaCamera") by reflexivity.
  split; [exact Hcls|].
  apply (kill_stops_before_any_work rot90_numbered store_values
           "Grabbing" "XimeaCamera"
           (mkOutside true [[("exposure", VInt 5)]] 0)
           (camera_reads (Some 1%nat)) [] camera_new Hcls eq_refl).
Defined.

Lemma unknown_camera_type_raises_witness :
  (camera_type webcam ∉ ["ximea"; "avt"; "spinnaker"; "mikrotron"]) /\
  CameraSource_run rot90_numbered store_values "Grabbing"
    [(nothing_outside, camera_reads (Some 1%nat))] webcam =
    (Raised (Exception "webcam is not a valid camera type!"), webcam).
Proof.
  assert (Hnot : camera_type webcam ∉ ["ximea"; "avt"; "spinnaker"; "mikrotron"]).
  { intros Hin. repeat (apply elem_of_cons in Hin as [Hin|Hin];
                        [discriminate Hin|]).
    apply elem_of_nil in Hin. exact Hin. }
  split; [exact Hnot|].
  apply (unknown_camera_type_raises rot90_numbered store_values "Grabbing"
           [(nothing_outside, camera_reads (Some 1%nat))] webcam Hnot).
Defined.

Lemma control_messages_all_forwarded_in_order_witness :
  (forall st d, exists st', store_values st d = Ok st') /\
  exists s',
    drain_control_queue store_values
      (control_queue (cs_base camera_with_messages)) camera_with_messages
      = (Ok tt, s') /\
    control_queue (cs_base s') = [] /\
    cam s' = cam camera_with_messages ++
             cam_sets (control_queue (cs_base camera_with_messages)) /\
    outputs s' = outputs camera_with_messages.
Proof.
  assert (Hset : forall st d, exists st', store_values st d = Ok st').
  { intros st d. eexists. reflexivity. }
  split; [exact Hset|].
  apply (control_messages_all_forwarded_in_order store_values
           camera_with_messages Hset).
Defined.

Lemma loop_raises_or_is_killed_by_second_iteration_witness :
  (2 <= length [(select_live, camera_reads (Some 1%nat));
                (nothing_outside, camera_reads (Some 2%nat))])%nat /\
  ((exists e,
       (CameraSource_loop rot90_numbered store_values
          [(select_live, camera_reads (Some 1%nat));
           (nothing_outside, camera_reads (Some 2%nat))] camera_new).1
       = Raised e) \/
   ((CameraSource_loop rot90_numbered store_values
       [(select_live, camera_reads (Some 1%nat));
        (nothing_outside, camera_reads (Some 2%nat))] camera_new).1 = Ok true /\
    kill_event
      (cs_base (CameraSource_loop rot90_numbered store_values
                  [(select_live, camera_reads (Some 1%nat));
                   (nothing_outside, camera_reads (Some 2%nat))]
                  camera_new).2) = true)).
Proof.
  assert (Hlen : (2 <= length [(select_live, camera_reads (Some 1%nat));
                               (nothing_outside, camera_reads (Some 2%nat))])%nat).
  { simpl. lia. }
  split; [exact Hlen|].
  apply (loop_raises_or_is_killed_by_second_iteration
           rot90_numbered store_values
           [(select_live, camera_reads (Some 1%nat));
            (nothing_outside, camera_reads (Some 2%nat))] camera_new Hlen).
Defined.

Lemma movie_file_played_once_in_order_witness :
  cap_pos three_frame_movie = 0 /\
  (S (length (cap_frames three_frame_movie)) <= length (file_ticks 5))%nat /\
  exists m',
    VideoFileSource_run (fun frame : nat => frame) three_frames
      three_frame_movie (file_ticks 5) (play_once "movie.avi")
    = RunMovie (Ok true, m') /\
    frame_queue (vf_base (mv_self m')) =
      frame_queue (vf_base (play_once "movie.avi")) ++
      ((fun f => Some ((fun frame : nat => frame) f))
         <$> cap_frames three_frame_movie).
Proof.
  assert (Hlen : (S (length (cap_frames three_frame_movie))
                  <= length (file_ticks 5))%nat) by (vm_compute; lia).
  split; [reflexivity|]. split; [exact Hlen|].
  apply (movie_file_played_once_in_order (fun frame : nat => frame)
           three_frames three_frame_movie (file_ticks 5)
           (play_once "movie.avi") "movie.avi"
           (mkMovieRun (play_once "movie.avi")
              (mkVideoCapture [10; 11; 12]%nat 25 0 [CapGetFps])
              true (/ 25) None)
           eq_refl eq_refl eq_refl eq_refl eq_refl eq_refl eq_refl eq_refl
           Hlen).
  unfold file_ticks. apply Forall_replicate. by split.
Defined.

Lemma h5_empty_video_raises_IndexError_witness :
  h5_video (mkH5Data ([] : list nat) None) = [] /\
  quiet (mkOutside false [] 1) /\
  exists h',
    VideoFileSource_run (fun frame : nat => frame) (mkH5Data [] None)
      three_frame_movie [(mkOutside false [] 1, mkFileInput 0 0)]
      (play_once "video.h5")
    = RunH5 (Raised IndexError, h') /\
    frame_queue (vf_base (h5_self h')) =
      frame_queue (vf_base (play_once "video.h5")).
Proof.
  assert (Hquiet : quiet (mkOutside false [] 1)) by (by split).
  split; [reflexivity|]. split; [exact Hquiet|].
  apply (h5_empty_video_raises_IndexError (fun frame : nat => frame)
           (mkH5Data [] None) three_frame_movie
           (mkOutside false [] 1) (mkFileInput 0 0) []
           (play_once "video.h5") "video.h5"
           (mkH5Run (play_once "video.h5") (/ 30) (VInt 0) None) 0
           eq_refl eq_refl eq_refl eq_refl eq_refl eq_refl eq_refl Hquiet).
Defined.

Lemma looping_h5_source_is_only_stopped_by_kill_witness :
  loop (h5_self h5_looping_before_last) = true /\
  kill_event (vf_base (h5_self h5_looping_before_last)) = false /\
  ((h5_iteration [10; 11; 12]%nat (mkFileInput 0 0)
      h5_looping_before_last).1 = Ok true \/
   exists e,
     (h5_iteration [10; 11; 12]%nat (mkFileInput 0 0)
        h5_looping_before_last).1 = Raised e).
Proof.
  split; [reflexivity|]. split; [reflexivity|].
  apply (looping_h5_source_is_only_stopped_by_kill
           [10; 11; 12]%nat (mkFileInput 0 0) h5_looping_before_last
           eq_refl eq_refl).
Defined.

Lemma looping_h5_source_wraps_to_offset_witness :
  loop (h5_self h5_looping_before_last) = true /\
  S 2 = length [10; 11; 12]%nat /\
  exists h',
    h5_iteration [10; 11; 12]%nat (mkFileInput 0 0) h5_looping_before_last
      = (Ok true, h') /\
    h5_i_frame h' = offset (h5_self h5_looping_before_last) /\
    frame_queue (vf_base (h5_self h')) =
      frame_queue (vf_base (h5_self h5_looping_before_last)) ++ [Some 12%nat].
Proof.
  split; [reflexivity|]. split; [reflexivity|].
  apply (looping_h5_source_wraps_to_offset
           [10; 11; 12]%nat (mkFileInput 0 0) h5_looping_before_last
           2%nat 12%nat eq_refl eq_refl eq_refl eq_refl eq_refl eq_refl
           eq_refl).
Defined.

Lemma looping_movie_rewinds_to_start_witness :
  loop (mv_self movie_looping_at_end) = true /\
  cap_pos (mv_cap movie_looping_at_end) =
    Z.of_nat (length (cap_frames (mv_cap movie_looping_at_end))) /\
  exists m',
    mv_iteration (fun frame : nat => frame) (mkFileInput 0 0)
      movie_looping_at_end = (Ok true, m') /\
    cap_pos (mv_cap m') = 0 /\
    frame_queue (vf_base (mv_self m')) =
      frame_queue (vf_base (mv_self movie_looping_at_end)) /\
    old_frame (mv_self m') = None /\
    offset (mv_self m') = offset (mv_self movie_looping_at_end) /\
    mv_ret m' = true.
Proof.
  split; [reflexivity|]. split; [reflexivity|].
  apply (looping_movie_rewinds_to_start (fun frame : nat => frame)
           (mkFileInput 0 0) movie_looping_at_end
           eq_refl eq_refl eq_refl eq_refl eq_refl eq_refl).
Defined.

Lemma paused_h5_source_repeats_frame_witness :
  py_truthy (paused (h5_self h5_paused)) = true /\
  [10; 11; 12]%nat !! 1%nat = Some 11%nat /\
  exists h',
    h5_iteration [10; 11; 12]%nat (mkFileInput 0 0) h5_paused = (Ok true, h') /\
    h5_i_frame h' = h5_i_frame h5_paused /\
    frame_queue (vf_base (h5_self h')) =
      frame_queue (vf_base (h5_self h5_paused)) ++ [Some 11%nat].
Proof.
  split; [reflexivity|]. split; [reflexivity|].
  apply (paused_h5_source_repeats_frame
           [10; 11; 12]%nat (mkFileInput 0 0) h5_paused 1%nat 11%nat
           eq_refl eq_refl eq_refl eq_refl eq_refl).
Defined.

Lemma paused_movie_source_repeats_old_frame_witness :
  py_truthy (paused (mv_self (movie_paused (Some 11%nat)))) = true /\
  exists m',
    mv_iteration (fun frame : nat => frame) (mkFileInput 0 0)
      (movie_paused (Some 11%nat)) = (Ok true, m') /\
    mv_cap m' = mv_cap (movie_paused (Some 11%nat)) /\
    old_frame (mv_self m') = Some 11%nat /\
    frame_queue (vf_base (mv_self m')) =
      frame_queue (vf_base (mv_self (movie_paused (Some 11%nat)))) ++
      [Some 11%nat].
Proof.
  split; [reflexivity|].
  exact (paused_movie_source_repeats_old_frame (fun frame : nat => frame)
           (mkFileInput 0 0) (movie_paused (Some 11%nat))
           eq_refl eq_refl eq_refl eq_refl).
Defined.

Lemma zero_framerate_update_raises_witness :
  control_queue
    (vf_base (h5_self (h5_with_messages
                         [[("framerate", VInt 0); ("offset", VInt 1)];
                          [("paused", VBool true)]]))) =
    (("framerate", VInt 0) :: [("offset", VInt 1)]) ::
    [[("paused", VBool true)]] /\
  (inject_Z 0 == 0)%Q /\
  exists h',
    h5_iteration [10; 11; 12]%nat (mkFileInput 0 0)
      (h5_with_messages [[("framerate", VInt 0); ("offset", VInt 1)];
                         [("paused", VBool true)]])
      = (Raised ZeroDivisionError, h') /\
    control_queue (vf_base (h5_self h')) = [[("paused", VBool true)]] /\
    frame_queue (vf_base (h5_self h')) =
      frame_queue
        (vf_base (h5_self (h5_with_messages
                             [[("framerate", VInt 0); ("offset", VInt 1)];
                              [("paused", VBool true)]]))) /\
    h5_delta_t h' =
      h5_delta_t (h5_with_messages
                    [[("framerate", VInt 0); ("offset", VInt 1)];
                     [("paused", VBool true)]]).
Proof.
  split; [reflexivity|]. split; [reflexivity|].
  apply (zero_framerate_update_raises
           [10; 11; 12]%nat (mkFileInput 0 0)
           (h5_with_messages [[("framerate", VInt 0); ("offset", VInt 1)];
                              [("paused", VBool true)]])
           (VInt 0) (inject_Z 0) [("offset", VInt 1)]
           [[("paused", VBool true)]]
           eq_refl eq_refl eq_refl (Qeq_refl 0)).
Defined.

Lemma control_messages_per_iteration_witness :
  h5_iteration [10; 11; 12]%nat (mkFileInput 0 0)
    (h5_with_messages [[("paused", VBool false)]; [("offset", VInt 0)]])
  = (Ok true,
     (h5_iteration [10; 11; 12]%nat (mkFileInput 0 0)
        (h5_with_messages [[("paused", VBool false)]; [("offset", VInt 0)]])).2) /\
  mv_iteration (fun frame : nat => frame) (mkFileInput 0 0)
    (movie_with_messages [[("paused", VBool false)]; [("offset", VInt 0)]])
  = (Ok true,
     (mv_iteration (fun frame : nat => frame) (mkFileInput 0 0)
        (movie_with_messages
           [[("paused", VBool false)]; [("offset", VInt 0)]])).2) /\
  control_queue
    (vf_base (h5_self
       (h5_iteration [10; 11; 12]%nat (mkFileInput 0 0)
          (h5_with_messages
             [[("paused", VBool false)]; [("offset", VInt 0)]])).2)) = [] /\
  control_queue
    (vf_base (mv_self
       (mv_iteration (fun frame : nat => frame) (mkFileInput 0 0)
          (movie_with_messages
             [[("paused", VBool false)]; [("offset", VInt 0)]])).2)) =
    tail (control_queue
            (vf_base (mv_self
               (movie_with_messages
                  [[("paused", VBool false)]; [("offset", VInt 0)]])))).
Proof.
  assert (Hh : h5_iteration [10; 11; 12]%nat (mkFileInput 0 0)
                 (h5_with_messages
                    [[("paused", VBool false)]; [("offset", VInt 0)]])
               = (Ok true,
                  (h5_iteration [10; 11; 12]%nat (mkFileInput 0 0)
                     (h5_with_messages
                        [[("paused", VBool false)]; [("offset", VInt 0)]])).2))
    by (vm_compute; reflexivity).
  assert (Hm : mv_iteration (fun frame : nat => frame) (mkFileInput 0 0)
                 (movie_with_messages
                    [[("paused", VBool false)]; [("offset", VInt 0)]])
               = (Ok true,
                  (mv_iteration (fun frame : nat => frame) (mkFileInput 0 0)
                     (movie_with_messages
                        [[("paused", VBool false)]; [("offset", VInt 0)]])).2))
    by (vm_compute; reflexivity).
  split; [exact Hh|]. split; [exact Hm|].
  exact (control_messages_per_iteration (fun frame : nat => frame)
           [10; 11; 12]%nat (mkFileInput 0 0)
           (h5_with_messages [[("paused", VBool false)]; [("offset", VInt 0)]])
           _
           (movie_with_messages
              [[("paused", VBool false)]; [("offset", VInt 0)]])
           _ true true
           eq_refl Hh eq_refl eq_refl Hm).
Defined.

Lemma paintEvent_without_goal_raises_witness :
  py_num (g_fps (FramerateWidget_update three_accumulators
                   (FramerateWidget_init three_accumulators 1))) = None /\
  fps (FramerateWidget_update three_accumulators
         (FramerateWidget_init three_accumulators 1)) = VFloat 12 /\
  exists w',
    paintEvent seven_wide one_decimal pretty (206, 40)
      (FramerateWidget_update three_accumulators
         (FramerateWidget_init three_accumulators 1))
      = (Raised TypeError, w') /\
    painted w' =
      painted (FramerateWidget_update three_accumulators
                 (FramerateWidget_init three_accumulators 1)) ++ [PBegin].
Proof.
  split; [reflexivity|]. split; [reflexivity|].
  apply (paintEvent_without_goal_raises seven_wide one_decimal pretty
           (206, 40)
           (FramerateWidget_update three_accumulators
              (FramerateWidget_init three_accumulators 1))
           eq_refl).
  left. discriminate.
Defined.

Lemma paintEvent_lines_inside_widget_witness :
  (0 <= 51 # 2)%Q /\ (0 <= 30)%Q /\ 6 <= (206, 40).1 /\
  exists w' calls,
    paintEvent seven_wide one_decimal pretty (206, 40)
      (FramerateWidget_update three_accumulators
         (FramerateWidget_init three_accumulators 0)) = (Ok tt, w') /\
    painted w' =
      painted (FramerateWidget_update three_accumulators
                 (FramerateWidget_init three_accumulators 0)) ++
      [PBegin] ++ calls ++ [PEnd] /\
    Forall (line_inside (206, 40)) calls.
Proof.
  assert (Ha : (0 <= 51 # 2)%Q) by discriminate.
  assert (Hb : (0 <= 30)%Q) by discriminate.
  assert (Hw : 6 <= (206, 40).1) by (simpl; lia).
  split; [exact Ha|]. split; [exact Hb|]. split; [exact Hw|].
  apply (paintEvent_lines_inside_widget seven_wide one_decimal pretty
           (206, 40)
           (FramerateWidget_update three_accumulators
              (FramerateWidget_init three_accumulators 0))
           (51 # 2) 30 eq_refl eq_refl Ha Hb Hw).
Defined.

Lemma no_indicator_without_measurement_witness :
  last (acc_data (three_accumulators
                    (acc (FramerateWidget_init three_accumulators 2))))
    = Some VNone /\
  exists calls,
    painted (paintEvent seven_wide one_decimal pretty (206, 40)
               (FramerateWidget_update three_accumulators
                  (FramerateWidget_init three_accumulators 2))).2 =
      painted (FramerateWidget_init three_accumulators 2) ++ calls /\
    Forall (fun c => indicator_pen c = false) calls.
Proof.
  split; [reflexivity|].
  apply (no_indicator_without_measurement three_accumulators seven_wide
           one_decimal pretty (206, 40)
           (FramerateWidget_init three_accumulators 2)).
  right. reflexivity.
Defined.

Lemma indicator_is_red_below_goal_witness :
  last (acc_data (three_accumulators
                    (acc (FramerateWidget_init three_accumulators 0))))
    = Some (VFloat (51 # 2)) /\
  Qltb (51 # 2) 30 = true /\
  exists w' calls,
    paintEvent seven_wide one_decimal pretty (206, 40)
      (FramerateWidget_update three_accumulators
         (FramerateWidget_init three_accumulators 0)) = (Ok tt, w') /\
    fps w' = VFloat (51 # 2) /\
    painted w' =
      painted (FramerateWidget_init three_accumulators 0) ++
      [PBegin] ++ calls ++ [PEnd] /\
    PSetPen (if Qltb (51 # 2) 30 then indicator_red else indicator_green) None
      ∈ calls /\
    PSetPen (if Qltb (51 # 2) 30 then indicator_green else indicator_red) None
      ∉ calls.
Proof.
  split; [reflexivity|]. split; [reflexivity|].
  apply (indicator_is_red_below_goal three_accumulators seven_wide
           one_decimal pretty (206, 40)
           (FramerateWidget_init three_accumulators 0)
           (VFloat (51 # 2)) (51 # 2) 30 eq_refl eq_refl eq_refl).
Defined.
